(** * did-you-code: the hours ledger and calendar grid of [src/App.tsx]

    A shallow embedding of the application logic of the single React
    component [App], and the properties of its hours ledger.

    Conventions of the embedding.

    - A JavaScript [number] that holds a finite value is a rational [Q],
      compared with [==].  [NaN] and [undefined] are carried by [option]
      at the places where the source can meet them ([parseFloat], an
      omitted argument); the infinities are left out.  Doubling, halving,
      [Math.round], comparison, [max] and [min] are exact in binary64 as
      they are here.  A sum or a difference is exact here, and the
      engine rounds it to binary64: the two agree when the exact result is
      a binary64 number, as it is on the multiples of one half that the
      ledger stores; a property that rests on a sum or a difference is
      stated where the result is exact.  [Binary64] holds the arithmetic
      of the engine itself, for the inputs on which the rounding shows.
    - A [Date] is its time value: milliseconds since the epoch, in [Z];
      [option] carries the invalid date.  The calendar functions follow
      ECMA-262 (Day, DayFromYear, YearFromTime, MonthFromTime, DateFromTime,
      WeekDay, MakeDay, Date.UTC).  The range limit of time values is not
      modelled.
    - [new Date(s)] is [parse] on the two forms the page itself writes,
      YYYY-MM-DD and YYYY-MM-DDTHH:mm:ss.sssZ naming a day that exists;
      there every engine agrees.  On other texts ECMA-262 accepts some
      forms more and leaves the rest to the engine; [parse] answers them
      with the invalid date, and a property whose truth depends on how a
      key is read assumes the key canonical.
    - The local accessors take the offset [tz] of local time from UTC, in
      milliseconds, that is in force at the time read (ECMA-262 LocalTZA);
      the UTC accessors take none.  The displayed month and the calendar
      grid are read with one offset.  [setHours] and [setDate], which the
      date picker moves a date with, take a [Zone]: the offset as a
      function of the time, as daylight saving makes it.
    - Calendar keys are strings, as in the source, compared with [===] as
      [String.eqb] and with [<=] as the lexicographic [String.leb].
    - [setEntries] and [setError] are the two state cells a handler
      writes; a handler is a function from the entries (and the clock)
      to an [Outcome] holding the next entries and the error message.
      Alerts, the text field and whether the date picker is open are
      left out.  No modelled operation throws inside a [try], so the
      [catch] branches are absent.

    Layout: the models [JSDate], [JSON], [App] and [Binary64], the
    vocabulary of the properties in [Spec], then the lemmas, section by
    section. *)

From Stdlib Require Import ZArith QArith Qround Qminmax List String Ascii Bool
  Lia Lqa Permutation Sorted SpecFloat.
Import ListNotations.

Local Open Scope Z_scope.

(** ** ECMA-262 time values *)

Module JSDate.

Definition msPerDay : Z := 86400000.
Definition msPerHour : Z := 3600000.
Definition msPerMinute : Z := 60000.
Definition msPerSecond : Z := 1000.

Definition Day (t : Z) : Z := t / msPerDay.
Definition TimeWithinDay (t : Z) : Z := t mod msPerDay.

Definition DaysInYear (y : Z) : Z :=
  if negb (y mod 4 =? 0) then 365
  else if negb (y mod 100 =? 0) then 366
  else if negb (y mod 400 =? 0) then 365
  else 366.

Definition DayFromYear (y : Z) : Z :=
  365 * (y - 1970) + (y - 1969) / 4 - (y - 1901) / 100 + (y - 1601) / 400.

(** YearFromTime: the largest [y] with [DayFromYear y <= d], found from a
    linear estimate that is off by at most one year. *)
Definition YearFromDay (d : Z) : Z :=
  let y := 1970 + (d * 400) / 146097 in
  if d <? DayFromYear y then y - 1
  else if DayFromYear (y + 1) <=? d then y + 1
  else y.

Definition InLeapYear (y : Z) : Z := if DaysInYear y =? 366 then 1 else 0.

Definition DayWithinYear (d : Z) : Z := d - DayFromYear (YearFromDay d).

(** Day number, within its year, of the first day of month [mn] (0..11). *)
Definition monthStart (mn leap : Z) : Z :=
  if mn =? 0 then 0 else if mn =? 1 then 31
  else if mn =? 2 then 59 + leap else if mn =? 3 then 90 + leap
  else if mn =? 4 then 120 + leap else if mn =? 5 then 151 + leap
  else if mn =? 6 then 181 + leap else if mn =? 7 then 212 + leap
  else if mn =? 8 then 243 + leap else if mn =? 9 then 273 + leap
  else if mn =? 10 then 304 + leap else 334 + leap.

Definition MonthFromDay (d : Z) : Z :=
  let w := DayWithinYear d in
  let l := InLeapYear (YearFromDay d) in
  if w <? 31 then 0 else if w <? 59 + l then 1
  else if w <? 90 + l then 2 else if w <? 120 + l then 3
  else if w <? 151 + l then 4 else if w <? 181 + l then 5
  else if w <? 212 + l then 6 else if w <? 243 + l then 7
  else if w <? 273 + l then 8 else if w <? 304 + l then 9
  else if w <? 334 + l then 10 else 11.

Definition DateFromDay (d : Z) : Z :=
  DayWithinYear d
  - monthStart (MonthFromDay d) (InLeapYear (YearFromDay d)) + 1.

Definition WeekDay (d : Z) : Z := (d + 4) mod 7.

(** MakeDay(year, month, date): months outside 0..11 carry into the year,
    dates outside the month carry into the neighbouring months. *)
Definition MakeDay (year month dt : Z) : Z :=
  let ym := year + month / 12 in
  let mn := month mod 12 in
  DayFromYear ym + monthStart mn (InLeapYear ym) + dt - 1.

(** [Date.UTC(year, month, date, hours)]; a year in 0..99 means 1900+year. *)
Definition UTC (year month dt hours : Z) : Z :=
  let yr := if (0 <=? year) && (year <=? 99) then 1900 + year else year in
  MakeDay yr month dt * msPerDay + hours * msPerHour.

(** [d.setUTCHours(h, m, s, ms)] *)
Definition setUTCHours (t h m s ms : Z) : Z :=
  Day t * msPerDay + h * msPerHour + m * msPerMinute + s * msPerSecond + ms.

(** Local accessors, in a zone [tz] milliseconds east of UTC. *)
Definition getFullYear (tz t : Z) : Z := YearFromDay (Day (t + tz)).
Definition getMonth (tz t : Z) : Z := MonthFromDay (Day (t + tz)).
Definition getDate (tz t : Z) : Z := DateFromDay (Day (t + tz)).
Definition getDay (tz t : Z) : Z := WeekDay (Day (t + tz)).

(** A time zone: the offset of local time from UTC in force at a UTC time
    (LocalTZA(t, true)), and the offset by which a local time is taken
    back to UTC (LocalTZA(t, false)).  With daylight saving neither is
    constant. *)
Record Zone : Type := mkZone { offsetAt : Z -> Z; offsetOfLocal : Z -> Z }.

Definition LocalTime (zone : Zone) (t : Z) : Z := t + offsetAt zone t.
Definition UTCOfLocal (zone : Zone) (l : Z) : Z := l - offsetOfLocal zone l.

(** The zone that keeps one offset all year. *)
Definition fixedZone (tz : Z) : Zone := mkZone (fun _ => tz) (fun _ => tz).

(** Local setters: the local fields are recombined by MakeDay and the
    result is taken back to UTC. *)
Definition setHours (zone : Zone) (t h m s ms : Z) : Z :=
  let l := LocalTime zone t in
  UTCOfLocal zone
    (Day l * msPerDay + h * msPerHour + m * msPerMinute + s * msPerSecond
     + ms).

Definition setDate (zone : Zone) (t dt : Z) : Z :=
  let l := LocalTime zone t in
  UTCOfLocal zone
    (MakeDay (YearFromDay (Day l)) (MonthFromDay (Day l)) dt * msPerDay
     + TimeWithinDay l).

(** [setMonth] with the one offset [tz] of the displayed month. *)
Definition setMonth (tz t mn : Z) : Z :=
  let l := t + tz in
  MakeDay (YearFromDay (Day l)) mn (DateFromDay (Day l)) * msPerDay
  + TimeWithinDay l - tz.

Definition getUTCFullYear (t : Z) : Z := YearFromDay (Day t).
Definition getUTCMonth (t : Z) : Z := MonthFromDay (Day t).
Definition getUTCDate (t : Z) : Z := DateFromDay (Day t).

(** *** Decimal fields of the ISO format *)

Definition digit (n : Z) : ascii := ascii_of_nat (48 + Z.to_nat (n mod 10)).

Definition pad2 (n : Z) (k : string) : string :=
  String (digit (n / 10)) (String (digit n) k).

Definition pad4 (n : Z) (k : string) : string :=
  String (digit (n / 1000)) (String (digit (n / 100)) (pad2 n k)).

Definition pad6 (n : Z) (k : string) : string :=
  String (digit (n / 100000)) (String (digit (n / 10000)) (pad4 n k)).

Definition isoYear (y : Z) (k : string) : string :=
  if (0 <=? y) && (y <=? 9999) then pad4 y k
  else if y <? 0 then String "-" (pad6 (- y) k)
  else String "+" (pad6 y k).

(** The calendar key of day number [d]: YYYY-MM-DD. *)
Definition isoOfDay (d : Z) : string :=
  isoYear (YearFromDay d)
    (String "-" (pad2 (MonthFromDay d + 1)
       (String "-" (pad2 (DateFromDay d) EmptyString)))).

(** [t.toISOString().split('T')[0]] *)
Definition toISODate (t : Z) : string := isoOfDay (Day t).

Definition digitVal (c : ascii) : option Z :=
  let n := Z.of_nat (nat_of_ascii c) in
  if (48 <=? n) && (n <=? 57) then Some (n - 48) else None.

Definition num2 (a b : ascii) : option Z :=
  match digitVal a, digitVal b with
  | Some x, Some y => Some (10 * x + y)
  | _, _ => None
  end.

Definition num3 (a b c : ascii) : option Z :=
  match digitVal a, num2 b c with
  | Some x, Some y => Some (100 * x + y)
  | _, _ => None
  end.

Definition num4 (a b c d : ascii) : option Z :=
  match num2 a b, num2 c d with
  | Some x, Some y => Some (100 * x + y)
  | _, _ => None
  end.

Definition DaysInMonth (y mn : Z) : Z :=
  MakeDay y (mn + 1) 1 - MakeDay y mn 1.

(** The date part YYYY-MM-DD, as a day number. *)
Definition parseDatePart (y1 y2 y3 y4 m1 m2 d1 d2 : ascii) : option Z :=
  match num4 y1 y2 y3 y4, num2 m1 m2, num2 d1 d2 with
  | Some y, Some m, Some d =>
      if (1 <=? m) && (m <=? 12) && (1 <=? d) && (d <=? DaysInMonth y (m - 1))
      then Some (MakeDay y (m - 1) d)
      else None
  | _, _, _ => None
  end.

(** The time part HH:mm:ss.sssZ, in milliseconds. *)
Definition parseTimePart (s : string) : option Z :=
  match s with
  | String h1 (String h2 (String p1 (String n1 (String n2 (String p2
      (String s1 (String s2 (String p3 (String f1 (String f2 (String f3
      (String z EmptyString)))))))))))) =>
      if Ascii.eqb p1 ":" && Ascii.eqb p2 ":" && Ascii.eqb p3 "."
         && Ascii.eqb z "Z"
      then
        match num2 h1 h2, num2 n1 n2, num2 s1 s2, num3 f1 f2 f3 with
        | Some h, Some n, Some sec, Some f =>
            if (h <=? 23) && (n <=? 59) && (sec <=? 59)
            then Some (h * msPerHour + n * msPerMinute + sec * msPerSecond + f)
            else None
        | _, _, _, _ => None
        end
      else None
  | _ => None
  end.

(** [new Date(s)] on the two shapes the application builds: the key
    YYYY-MM-DD (UTC midnight) and the key followed by [T] and a UTC time of
    day, for a day that exists.  Any other text is answered with the
    invalid date; ECMA-262 accepts some more forms (a year alone, a year
    and a month, a year of six digits with a sign) and leaves every text
    outside its format to the engine, so on those this is not the code. *)
Definition parse (s : string) : option Z :=
  match s with
  | String y1 (String y2 (String y3 (String y4 (String p1 (String m1
      (String m2 (String p2 (String d1 (String d2 rest))))))))) =>
      if Ascii.eqb p1 "-" && Ascii.eqb p2 "-"
      then
        match parseDatePart y1 y2 y3 y4 m1 m2 d1 d2, rest with
        | Some d, EmptyString => Some (d * msPerDay)
        | Some d, String t tm =>
            if Ascii.eqb t "T"
            then option_map (fun ms => d * msPerDay + ms) (parseTimePart tm)
            else None
        | None, _ => None
        end
      else None
  | _ => None
  end.

End JSDate.

(** ** [JSON.parse] *)

Module JSON.

#[local] Unset Elimination Schemes.

Inductive value : Type :=
| JNull
| JBool (b : bool)
| JNumber (q : Q)
| JString (s : string)
| JArray (items : list value)
| JObject (members : list (string * value)).

#[local] Set Elimination Schemes.

Definition text : Type := list ascii.

Definition quote : ascii := "034"%char.
Definition backslash : ascii := "092"%char.

Definition isWhitespace (c : ascii) : bool :=
  Ascii.eqb c " " || Ascii.eqb c "009" || Ascii.eqb c "010"
  || Ascii.eqb c "013".

Fixpoint skipWhitespace (s : text) : text :=
  match s with
  | c :: r => if isWhitespace c then skipWhitespace r else s
  | [] => []
  end.

Definition code (c : ascii) : Z := Z.of_nat (nat_of_ascii c).

Definition decimalDigit (c : ascii) : option Z :=
  if (48 <=? code c) && (code c <=? 57) then Some (code c - 48) else None.

Definition hexDigit (c : ascii) : option Z :=
  let n := code c in
  if (48 <=? n) && (n <=? 57) then Some (n - 48)
  else if (65 <=? n) && (n <=? 70) then Some (n - 55)
  else if (97 <=? n) && (n <=? 102) then Some (n - 87)
  else None.

(** The longest run of decimal digits: their value, their count, the rest. *)
Fixpoint digits (s : text) (acc : Z) (count : Z) : Z * Z * text :=
  match s with
  | c :: r =>
      match decimalDigit c with
      | Some d => digits r (10 * acc + d) (count + 1)
      | None => (acc, count, s)
      end
  | [] => (acc, count, [])
  end.

(** [m] times ten to the [e]. *)
Definition scale (m e : Z) : Q :=
  if 0 <=? e then inject_Z (m * 10 ^ e)
  else Qmake m (Z.to_pos (10 ^ (- e))).

(** number = [-] int [frac] [exp] *)
Definition parseNumber (s : text) : option (Q * text) :=
  let (negative, s1) :=
    match s with
    | "-"%char :: r => (true, r)
    | _ => (false, s)
    end in
  match s1 with
  | c :: _ =>
      match decimalDigit c with
      | None => None
      | Some lead =>
          let '(int, n, s2) := digits s1 0 0 in
          if (lead =? 0) && (1 <? n) then None
          else
            let frac :=
              match s2 with
              | "."%char :: r =>
                  let '(f, k, s3) := digits r 0 0 in
                  if k =? 0 then None else Some (f, k, s3)
              | _ => Some (0, 0, s2)
              end in
            match frac with
            | None => None
            | Some (f, k, s3) =>
                let expo :=
                  match s3 with
                  | e :: r =>
                      if Ascii.eqb e "e" || Ascii.eqb e "E"
                      then
                        let (sign, r1) :=
                          match r with
                          | "-"%char :: r' => (-1, r')
                          | "+"%char :: r' => (1, r')
                          | _ => (1, r)
                          end in
                        let '(x, j, s4) := digits r1 0 0 in
                        if j =? 0 then None else Some (sign * x, s4)
                      else Some (0, s3)
                  | [] => Some (0, s3)
                  end in
                match expo with
                | None => None
                | Some (x, s4) =>
                    let mantissa := int * 10 ^ k + f in
                    let q := scale mantissa (x - k) in
                    Some (if negative then Qopp q else q, s4)
                end
            end
      end
  | [] => None
  end.

(** UTF-8 bytes of a code unit of a [\u] escape. *)
Definition utf8 (n : Z) : list ascii :=
  let byte k := ascii_of_nat (Z.to_nat k) in
  if n <? 128 then [byte n]
  else if n <? 2048 then [byte (192 + n / 64); byte (128 + n mod 64)]
  else [byte (224 + n / 4096); byte (128 + (n / 64) mod 64);
        byte (128 + n mod 64)].

(** The characters of a string after its opening quote. *)
Fixpoint parseChars (fuel : nat) (s : text) (acc : list ascii)
  : option (string * text) :=
  match fuel with
  | O => None
  | S fuel' =>
      match s with
      | [] => None
      | c :: r =>
          if Ascii.eqb c quote
          then Some (string_of_list_ascii (rev acc), r)
          else if Ascii.eqb c backslash
          then
            match r with
            | e :: r1 =>
                if Ascii.eqb e quote then parseChars fuel' r1 (quote :: acc)
                else if Ascii.eqb e backslash
                then parseChars fuel' r1 (backslash :: acc)
                else if Ascii.eqb e "/" then parseChars fuel' r1 ("/"%char :: acc)
                else if Ascii.eqb e "b" then parseChars fuel' r1 ("008"%char :: acc)
                else if Ascii.eqb e "f" then parseChars fuel' r1 ("012"%char :: acc)
                else if Ascii.eqb e "n" then parseChars fuel' r1 ("010"%char :: acc)
                else if Ascii.eqb e "r" then parseChars fuel' r1 ("013"%char :: acc)
                else if Ascii.eqb e "t" then parseChars fuel' r1 ("009"%char :: acc)
                else if Ascii.eqb e "u"
                then
                  match r1 with
                  | h1 :: h2 :: h3 :: h4 :: r2 =>
                      match hexDigit h1, hexDigit h2, hexDigit h3,
                            hexDigit h4 with
                      | Some a, Some b, Some c', Some d =>
                          parseChars fuel' r2
                            (rev (utf8 (4096 * a + 256 * b + 16 * c' + d))
                             ++ acc)
                      | _, _, _, _ => None
                      end
                  | _ => None
                  end
                else None
            | [] => None
            end
          else if code c <? 32 then None
          else parseChars fuel' r (c :: acc)
      end
  end.

Definition parseString (s : text) : option (string * text) :=
  parseChars (S (List.length s)) s [].

Definition startsWith (p : string) (s : text) : option text :=
  let l := list_ascii_of_string p in
  if list_eq_dec Ascii.ascii_dec (firstn (List.length l) s) l
  then Some (skipn (List.length l) s)
  else None.

Section Compound.

(** The parser of one value, for the items of arrays and objects. *)
Variable parseItem : text -> option (value * text).

(** The items of an array after its first bracket, at least one. *)
Fixpoint parseItems (fuel : nat) (s : text) (acc : list value)
  : option (list value * text) :=
  match fuel with
  | O => None
  | S fuel' =>
      match parseItem s with
      | Some (v, r) =>
          match skipWhitespace r with
          | c :: r' =>
              if Ascii.eqb c "," then parseItems fuel' r' (v :: acc)
              else if Ascii.eqb c "]" then Some (rev (v :: acc), r')
              else None
          | [] => None
          end
      | None => None
      end
  end.

(** The members of an object after its brace, at least one. *)
Fixpoint parseMembers (fuel : nat) (s : text) (acc : list (string * value))
  : option (list (string * value) * text) :=
  match fuel with
  | O => None
  | S fuel' =>
      match skipWhitespace s with
      | q :: r =>
          if Ascii.eqb q quote
          then
            match parseString r with
            | Some (k, r1) =>
                match skipWhitespace r1 with
                | colon :: r2 =>
                    if Ascii.eqb colon ":"
                    then
                      match parseItem r2 with
                      | Some (v, r3) =>
                          match skipWhitespace r3 with
                          | c :: r4 =>
                              if Ascii.eqb c ","
                              then parseMembers fuel' r4 ((k, v) :: acc)
                              else if Ascii.eqb c "}"
                              then Some (rev ((k, v) :: acc), r4)
                              else None
                          | [] => None
                          end
                      | None => None
                      end
                    else None
                | [] => None
                end
            | None => None
            end
          else None
      | [] => None
      end
  end.

End Compound.

Fixpoint parseValue (fuel : nat) (s : text) : option (value * text) :=
  match fuel with
  | O => None
  | S fuel' =>
      match skipWhitespace s with
      | [] => None
      | c :: r =>
          if Ascii.eqb c "n"
          then option_map (fun t => (JNull, t)) (startsWith "ull" r)
          else if Ascii.eqb c "t"
          then option_map (fun t => (JBool true, t)) (startsWith "rue" r)
          else if Ascii.eqb c "f"
          then option_map (fun t => (JBool false, t)) (startsWith "alse" r)
          else if Ascii.eqb c quote
          then
            match parseString r with
            | Some (str, t) => Some (JString str, t)
            | None => None
            end
          else if Ascii.eqb c "["
          then
            match skipWhitespace r with
            | c1 :: r1 =>
                if Ascii.eqb c1 "]" then Some (JArray [], r1)
                else
                  match parseItems (parseValue fuel') (S (List.length r)) r []
                  with
                  | Some (items, t) => Some (JArray items, t)
                  | None => None
                  end
            | [] => None
            end
          else if Ascii.eqb c "{"
          then
            match skipWhitespace r with
            | c1 :: r1 =>
                if Ascii.eqb c1 "}" then Some (JObject [], r1)
                else
                  match parseMembers (parseValue fuel') (S (List.length r)) r []
                  with
                  | Some (members, t) => Some (JObject members, t)
                  | None => None
                  end
            | [] => None
            end
          else
            match parseNumber (c :: r) with
            | Some (q, t) => Some (JNumber q, t)
            | None => None
            end
      end
  end.

(** [JSON.parse(s)]; [None] is the SyntaxError it throws. *)
Definition parse (s : string) : option value :=
  let l := list_ascii_of_string s in
  match parseValue (S (List.length l)) l with
  | Some (v, r) =>
      match skipWhitespace r with
      | [] => Some v
      | _ :: _ => None
      end
  | None => None
  end.

(** *** [JSON.stringify]: strings and numbers *)

Definition hexChar (n : Z) : ascii :=
  ascii_of_nat (Z.to_nat (if n <? 10 then 48 + n else 87 + n)).

(** QuoteJSONString, one character: the quote, the backslash and the
    control characters are escaped, the five with a short form by it, the
    others by [\u00xx]. *)
Definition quoteChar (c : ascii) : text :=
  if Ascii.eqb c quote then [backslash; quote]
  else if Ascii.eqb c backslash then [backslash; backslash]
  else if Ascii.eqb c "008" then [backslash; "b"%char]
  else if Ascii.eqb c "009" then [backslash; "t"%char]
  else if Ascii.eqb c "010" then [backslash; "n"%char]
  else if Ascii.eqb c "012" then [backslash; "f"%char]
  else if Ascii.eqb c "013" then [backslash; "r"%char]
  else if code c <? 32
  then [backslash; "u"%char; "0"%char; "0"%char; hexChar (code c / 16);
        hexChar (code c mod 16)]
  else [c].

Definition quoteString (s : string) : text :=
  (quote :: flat_map quoteChar (list_ascii_of_string s) ++ [quote])%list.

(** The decimal digits of a non-negative integer of at most [fuel] digits. *)
Fixpoint decimalDigits (fuel : nat) (n : Z) (acc : text) : text :=
  match fuel with
  | O => acc
  | S fuel' =>
      let acc' := JSDate.digit n :: acc in
      if n <? 10 then acc' else decimalDigits fuel' (n / 10) acc'
  end.

(** Number::toString on the numbers a ledger holds: a non-negative
    multiple of one half below ten to the fifteen is written as its
    integer part, followed by [.5] for an odd multiple.  [None] stands
    for every other number; their digits are not modelled. *)
Definition showNumber (q : Q) : option text :=
  let d := Zpos (Qden q) in
  let n := 2 * Qnum q in
  if (n mod d =? 0) && (0 <=? n) && (n / d <? 2 * 10 ^ 15)
  then
    let k := n / d in
    Some (decimalDigits 16 (k / 2) []
          ++ (if k mod 2 =? 0 then [] else ["."%char; "5"%char]))%list
  else None.

End JSON.
(** ** The component [App] *)

Module App.

Import JSDate.

(** A [Date] object: [None] is the invalid date, whose time value is NaN. *)
Definition DateObj : Type := option Z.

(** Relational operators on dates; a comparison with NaN is false. *)
Definition date_le (a b : DateObj) : bool :=
  match a, b with Some x, Some y => x <=? y | _, _ => false end.
Definition date_lt (a b : DateObj) : bool :=
  match a, b with Some x, Some y => x <? y | _, _ => false end.
Definition date_ge (a b : DateObj) : bool := date_le b a.

Definition Date_setUTCHours (d : DateObj) (h m s ms : Z) : DateObj :=
  option_map (fun t => JSDate.setUTCHours t h m s ms) d.

(** *** Numbers *)

Definition Qlt_bool (x y : Q) : bool := negb (Qle_bool y x).

(** [Math.round]: the nearest integer, ties toward plus infinity. *)
Definition Math_round (x : Q) : Z := Qfloor (x + (1 # 2)).

(** [Math.ceil] *)
Definition Math_ceil (x : Q) : Z := Qceiling x.

(** Truthiness of an optional number: [undefined] and [0] are falsy. *)
Definition truthy (x : option Q) : bool :=
  match x with Some q => negb (Qeq_bool q 0) | None => false end.

(** [x || 0] *)
Definition orZero (x : option Q) : Q :=
  match x with Some q => if Qeq_bool q 0 then 0%Q else q | None => 0%Q end.

(** Truthiness of an optional string: [null] and the empty string are falsy. *)
Definition nonEmpty (x : option string) : bool :=
  match x with Some EmptyString => false | Some _ => true | None => false end.

(** *** State *)

Record DayEntry : Type := mkEntry { date : string; hours : Q }.

Record CalendarDay : Type := mkDay { cellDate : Z; isCurrentMonth : bool }.

Record DateRange : Type :=
  mkRange { rangeStart : option string; rangeEnd : option string }.

(** What a handler leaves behind: the entries after [setEntries] (the
    entries it was given when it does not call it) and the message of
    [setError], if any. *)
Record Outcome : Type :=
  mkOutcome { nextEntries : list DayEntry; errorMsg : option string }.

Definition ok (l : list DayEntry) : Outcome := mkOutcome l None.
Definition fail (l : list DayEntry) (msg : string) : Outcome :=
  mkOutcome l (Some msg).

Definition InvalidNumber : string := "Please enter a valid number of hours".
Definition HoursOutOfRange : string := "Hours must be between 0 and 24".
Definition DateOutOfWindow : string :=
  "Cannot add hours for future dates or dates outside 2025".
Definition Before2025 : string := "Cannot add hours before 2025".
Definition CannotExceedMaximum : string := "Cannot exceed 24 hours in a day".
Definition CannotGoNegative : string := "Hours cannot be negative".
Definition RangeTooLarge : string := "Date range cannot exceed one year".

(** *** Array helpers *)

Definition hasDate (d : string) (e : DayEntry) : bool := String.eqb (date e) d.

Fixpoint findIndex (p : DayEntry -> bool) (l : list DayEntry) : option nat :=
  match l with
  | [] => None
  | e :: r => if p e then Some O else option_map S (findIndex p r)
  end.

(** [l[i].hours = v] on a copy of [l] *)
Fixpoint assignHours (i : nat) (v : Q) (l : list DayEntry) : list DayEntry :=
  match l, i with
  | [], _ => []
  | e :: r, O => mkEntry (date e) v :: r
  | e :: r, S j => e :: assignHours j v r
  end.

(** The update both [handleSubmit] and the quick-add handlers end with.
    The copy of the array is shallow, so the assignment also reaches the
    entry object of the previous array; that array is not read again. *)
Definition upsert (d : string) (v : Q) (entries : list DayEntry)
  : list DayEntry :=
  match findIndex (hasDate d) entries with
  | Some i => assignHours i v entries
  | None => (entries ++ [mkEntry d v])%list
  end.

(** [reduce((sum, entry) => sum + entry.hours, 0)]; the sums are exact
    here and rounded by the engine, the same on hours that are multiples
    of one half. *)
Definition sumHours (l : list DayEntry) : Q :=
  fold_left (fun sum entry => (sum + hours entry)%Q) l 0%Q.

Section WithClock.

(** [now] is the time value of [new Date()]; [tz] the zone offset. *)
Variable now : Z.
Variable tz : Z.

Definition isValidDate (d : DateObj) : bool :=
  match d with
  | None => false
  | Some _ =>
      let dateToCheck := Date_setUTCHours d 12 0 0 0 in
      let today := Date_setUTCHours (Some now) 23 59 59 999 in
      let startDate := parse "2025-01-01T12:00:00.000Z" in
      let endDate := parse "2025-12-31T23:59:59.999Z" in
      date_ge dateToCheck startDate && date_le dateToCheck endDate
      && date_le dateToCheck today
  end.

Definition validateAndClampHours (h : Q) : Q :=
  Qmin (Qmax 0 (inject_Z (Math_round (h * 2)) / 2)) 24.

(** [hoursNum] is [parseFloat(hours)], [None] when it is NaN. *)
Definition handleSubmit (entries : list DayEntry) (selectedDate : string)
    (hoursNum : option Q) : Outcome :=
  match hoursNum with
  | None => fail entries InvalidNumber
  | Some h =>
      let validatedHours := validateAndClampHours h in
      if Qeq_bool validatedHours 0 && negb (Qeq_bool h 0)
      then fail entries HoursOutOfRange
      else
        let selectedDateObj := parse (selectedDate ++ "T00:00:00.000Z")%string in
        if negb (isValidDate selectedDateObj)
        then fail entries DateOutOfWindow
        else ok (upsert selectedDate validatedHours entries)
  end.

(** The difference [entry.hours - hoursToDelete] is exact here; the
    engine rounds it to binary64 ([Binary64.deleteEntry64]). *)
Definition deleteEntry (entries : list DayEntry) (d : string)
    (hoursToDelete : option Q) : Outcome :=
  match find (hasDate d) entries with
  | None => ok entries
  | Some existingEntry =>
      match hoursToDelete with
      | Some amount =>
          if truthy hoursToDelete && Qlt_bool amount (hours existingEntry)
          then
            ok (map (fun entry =>
                       if hasDate d entry
                       then mkEntry (date entry) (hours entry - amount)
                       else entry) entries)
          else ok (filter (fun entry => negb (hasDate d entry)) entries)
      | None => ok (filter (fun entry => negb (hasDate d entry)) entries)
      end
  end.

Definition getHoursForDate (entries : list DayEntry) (d : string) : Q :=
  orZero (option_map hours (find (hasDate d) entries)).

(** The part the two quick-add handlers share, from [currentHours] on.
    The sum [currentHours + amount] is exact here; the engine rounds it to
    binary64 before [validateAndClampHours] reads it. *)
Definition addTo (entries : list DayEntry) (d : string) (amount : Q)
  : Outcome :=
  let currentHours := getHoursForDate entries d in
  let newHours := validateAndClampHours (currentHours + amount) in
  if Qeq_bool newHours currentHours
  then
    if Qlt_bool 0 amount then fail entries CannotExceedMaximum
    else if Qlt_bool amount 0 then fail entries CannotGoNegative
    else ok entries
  else ok (upsert d newHours entries).

Definition quickAdd (entries : list DayEntry) (amount : Q) : Outcome :=
  let today := Some now in
  let startDate := parse "2025-01-01T00:00:00.000Z" in
  if date_lt today startDate then fail entries Before2025
  else
    let todayStr := toISODate now in
    addTo entries todayStr amount.

Definition formatDate (t : Z) : string :=
  toISODate (JSDate.setUTCHours t 12 0 0 0).

Definition quickAddForDate (entries : list DayEntry) (d : string)
    (h : Q) : Outcome :=
  let selectedDate := Date_setUTCHours (parse d) 12 0 0 0 in
  match selectedDate with
  | Some t =>
      if negb (isValidDate selectedDate)
      then fail entries DateOutOfWindow
      else addTo entries (formatDate t) h
  | None => fail entries DateOutOfWindow
  end.

(** *** Aggregates *)

Definition totalHours (entries : list DayEntry) : Q := sumHours entries.

Definition validateDateRange (s e : string) : bool :=
  match parse s, parse e with
  | Some startDate, Some endDate =>
      let maxRangeDays := 365 in
      let diffTime := Z.abs (endDate - startDate) in
      let diffDays := Math_ceil (inject_Z diffTime / inject_Z msPerDay) in
      diffDays <=? maxRangeDays
  | _, _ => false
  end.

(** The number returned, and the message of [setError] if it was called. *)
Definition getHoursBetweenDates (entries : list DayEntry) (s e : string)
  : Q * option string :=
  match s, e with
  | EmptyString, _ => (0%Q, None)
  | _, EmptyString => (0%Q, None)
  | _, _ =>
      if negb (validateDateRange s e) then (0%Q, Some RangeTooLarge)
      else
        (sumHours
           (filter (fun entry =>
                      String.leb s (date entry) && String.leb (date entry) e)
                   entries),
         None)
  end.

(** [currentMonth] is the time value of the displayed month. *)
Definition getCurrentMonthHours (currentMonth : Z) (entries : list DayEntry)
  : Q :=
  let displayedMonth := getMonth tz currentMonth in
  fold_left
    (fun sum entry =>
       match option_map (getMonth tz) (parse (date entry)) with
       | Some entryMonth =>
           if entryMonth =? displayedMonth then (sum + hours entry)%Q else sum
       | None => sum
       end)
    entries 0%Q.

(** *** The calendar grid *)

(** [n-1, ..., 1, 0] and [1, 2, ..., n], the index sets of the loops. *)
Definition countDown (n : Z) : list Z :=
  map (fun k => n - 1 - Z.of_nat k) (seq 0 (Z.to_nat n)).
Definition countUp (n : Z) : list Z :=
  map (fun k => Z.of_nat k + 1) (seq 0 (Z.to_nat n)).

Definition getDaysInMonth (d : Z) : list CalendarDay :=
  let year := getFullYear tz d in
  let month := getMonth tz d in
  let firstDay := UTC year month 1 12 in
  let lastDay := UTC year (month + 1) 0 12 in
  let daysInMonth := getDate tz lastDay in
  let startingDay := getDay tz firstDay in
  let previousMonth := UTC year month 0 12 in
  let daysInPreviousMonth := getDate tz previousMonth in
  let days1 :=
    map (fun i => mkDay (UTC year (month - 1) (daysInPreviousMonth - i) 12)
                        false)
        (countDown startingDay) in
  let days2 :=
    (days1 ++ map (fun i => mkDay (UTC year month i 12) true)
                  (countUp daysInMonth))%list in
  let remainingDays := 42 - Z.of_nat (List.length days2) in
  (days2 ++ map (fun i => mkDay (UTC year (month + 1) i 12) false)
                (countUp remainingDays))%list.

(** *** Range selection: the [onClick] handler of a calendar cell *)

(** The second click: order the two keys, validate, store, and sum. *)
Definition selectRange (entries : list DayEntry) (s e : string)
  : DateRange * (Q * option string) :=
  let (startDate, endDate) := if String.ltb e s then (e, s) else (s, e) in
  if negb (validateDateRange startDate endDate)
  then (mkRange None None, (0%Q, Some RangeTooLarge))
  else (mkRange (Some startDate) (Some endDate),
        getHoursBetweenDates entries startDate endDate).

(** A click on the cell [cell]: nothing happens on a cell that is not a
    valid date of the displayed month; otherwise the first click sets the
    start, the second sets the range, a third starts over. *)
Definition onClickDay (entries : list DayEntry) (r : DateRange)
    (cell : CalendarDay) : DateRange * (Q * option string) :=
  let dateToCompare :=
    Date_setUTCHours (Some (cellDate cell)) 0 0 0 0 in
  let isPast := isValidDate dateToCompare in
  if isPast && isCurrentMonth cell
  then
    let clickedDate := formatDate (cellDate cell) in
    match rangeStart r with
    | Some s =>
        if nonEmpty (rangeStart r)
        then
          if negb (nonEmpty (rangeEnd r))
          then selectRange entries s clickedDate
          else (mkRange (Some clickedDate) None, (0%Q, None))
        else (mkRange (Some clickedDate) None, (0%Q, None))
    | None => (mkRange (Some clickedDate) None, (0%Q, None))
    end
  else (r, (0%Q, None)).

End WithClock.

(** *** The rest of the page *)

Section Page.

Variable now : Z.
Variable tz : Z.
Variable zone : Zone.

(** The initializer of [selectedDate]. *)
Definition initialSelectedDate : string :=
  let today := Some now in
  let startDate := parse "2025-01-01T00:00:00.000Z" in
  if date_ge today startDate then toISODate now else "2025-01-01".

Inductive Direction : Type := prev | next.

Definition navigateMonth (direction : Direction) (prevMonth : Z) : Z :=
  match direction with
  | prev => setMonth tz prevMonth (getMonth tz prevMonth - 1)
  | next => setMonth tz prevMonth (getMonth tz prevMonth + 1)
  end.

(** The loop of [getPastDates]; [acc] holds the dates pushed so far, the
    last one first, which is the order [reverse] leaves them in. *)
Fixpoint pastDatesLoop (fuel : nat) (currentDate endDateToUse : Z)
    (acc : list Z) : list Z :=
  match fuel with
  | O => acc
  | S fuel' =>
      if currentDate <=? endDateToUse
      then pastDatesLoop fuel'
             (setDate zone currentDate
                (getDate (offsetAt zone currentDate) currentDate + 1))
             endDateToUse (currentDate :: acc)
      else acc
  end.

Definition getPastDatesWithin (fuel : nat) : list Z :=
  let today := JSDate.setHours zone now 23 59 59 999 in
  match parse "2025-01-01T00:00:00.000Z", parse "2025-12-31T23:59:59.999Z"
  with
  | Some startDate, Some endDate =>
      let endDateToUse := if endDate <? today then endDate else today in
      pastDatesLoop fuel startDate endDateToUse []
  | _, _ => []
  end.

(** The loop, run for 366 turns: the window has 365 days, and with one
    offset all year the loop has ended by then, as is shown below. *)
Definition getPastDates : list Z := getPastDatesWithin 366.

(** The comparator of the recent entries; a NaN result counts as 0. *)
Definition newestFirst (a b : DayEntry) : Z :=
  match parse (date a), parse (date b) with
  | Some ta, Some tb => tb - ta
  | _, _ => 0
  end.

(** [Array.prototype.sort] as a stable insertion sort. *)
Fixpoint insertSorted (x : DayEntry) (l : list DayEntry) : list DayEntry :=
  match l with
  | [] => [x]
  | y :: r =>
      if newestFirst x y <=? 0 then x :: y :: r else y :: insertSorted x r
  end.

Definition sortEntries (entries : list DayEntry) : list DayEntry :=
  fold_right insertSorted [] entries.

(** [entries.sort(...).slice(0, 5)] *)
Definition recentEntries (entries : list DayEntry) : list DayEntry :=
  firstn 5 (sortEntries entries).

(** [handleQuickHourSelect]; [None] is the RangeError that [toISOString]
    throws on the invalid date. *)
Definition handleQuickHourSelect (entries : list DayEntry) (dateStr : string)
    (h : Q) : option Outcome :=
  match Date_setUTCHours (parse dateStr) 12 0 0 0 with
  | Some t => Some (quickAddForDate now entries (formatDate t) h)
  | None => None
  end.

(** Whether the cell takes clicks and shows its quick-add buttons. *)
Definition cellIsActive (cell : CalendarDay) : bool :=
  isValidDate now (Date_setUTCHours (Some (cellDate cell)) 0 0 0 0)
  && isCurrentMonth cell.

(** The click handler of the delete button of the form; [selectedHours]
    is [parseFloat(hours)]. *)
Definition onDeleteClick (entries : list DayEntry) (selectedDate : string)
    (selectedHours : option Q) : Outcome :=
  let currentHours := getHoursForDate entries selectedDate in
  match selectedHours with
  | Some _ =>
      if Qlt_bool 0 currentHours
      then deleteEntry entries selectedDate selectedHours
      else ok entries
  | None => ok entries
  end.

End Page.

(** *** The initial entries *)

(** What the initializer of the [entries] state does: it returns a value,
    or an exception leaves it and the component does not render. *)
Inductive Startup : Type :=
| Throws (exceptionName : string)
| Returns (v : JSON.value).

(** [saved] is [localStorage.getItem('codingHours2025')], [None] for null. *)
Definition initialEntries (saved : option string) : Startup :=
  match saved with
  | Some s =>
      if nonEmpty saved
      then
        match JSON.parse s with
        | Some v => Returns v
        | None => Throws "SyntaxError"
        end
      else Returns (JSON.JArray [])
  | None => Returns (JSON.JArray [])
  end.

(** The returned value read as [DayEntry[]], when it has that shape; the
    source asserts the type without a check. *)
Definition asEntry (v : JSON.value) : option DayEntry :=
  match v with
  | JSON.JObject members =>
      match find (fun kv => String.eqb (fst kv) "date") members,
            find (fun kv => String.eqb (fst kv) "hours") members with
      | Some (_, JSON.JString d), Some (_, JSON.JNumber h) =>
          Some (mkEntry d h)
      | _, _ => None
      end
  | _ => None
  end.

Fixpoint asEntries (items : list JSON.value) : option (list DayEntry) :=
  match items with
  | [] => Some []
  | v :: r =>
      match asEntry v, asEntries r with
      | Some e, Some l => Some (e :: l)
      | _, _ => None
      end
  end.

Definition asLedger (v : JSON.value) : option (list DayEntry) :=
  match v with
  | JSON.JArray items => asEntries items
  | _ => None
  end.

(** *** The snapshot that the effect writes *)

(** [JSON.stringify] of one entry; the handlers build every entry with
    [date] before [hours], and that is the order of the members. *)
Definition stringifyEntry (e : DayEntry) : option JSON.text :=
  match JSON.showNumber (hours e) with
  | Some n =>
      Some ("{"%char :: JSON.quoteString "date" ++ ":"%char
            :: JSON.quoteString (date e) ++ ","%char
            :: JSON.quoteString "hours" ++ ":"%char :: n ++ ["}"%char])%list
  | None => None
  end.

(** The items of the array, with commas between them. *)
Fixpoint stringifyItems (l : list DayEntry) : option JSON.text :=
  match l with
  | [] => Some []
  | e :: r =>
      match r with
      | [] => stringifyEntry e
      | _ :: _ =>
          match stringifyEntry e, stringifyItems r with
          | Some a, Some b => Some (a ++ ","%char :: b)%list
          | _, _ => None
          end
      end
  end.

(** [JSON.stringify(entries)], the value stored under [codingHours2025]. *)
Definition stringifyEntries (entries : list DayEntry) : option string :=
  option_map (fun t => string_of_list_ascii ("["%char :: t ++ ["]"%char]))
    (stringifyItems entries).

End App.

(** ** The numbers of the engine *)

(** The partial delete and the sum of the quick add over binary64, as the
    engine computes them: the operations are those of IEEE 754 with 53
    bits of precision, rounding to nearest, ties to even. *)
Module Binary64.

Definition number : Type := spec_float.

(** The binary64 number nearest to [m] times two to the [e]. *)
Definition double (m e : Z) : number := binary_normalize 53 1024 m e false.

Definition add (x y : number) : number := SFadd 53 1024 x y.
Definition sub (x y : number) : number := SFsub 53 1024 x y.
Definition ltb (x y : number) : bool := SFltb x y.

(** The rational a finite number stands for. *)
Definition value (x : number) : option Q :=
  match x with
  | S754_zero _ => Some 0%Q
  | S754_finite s m e =>
      Some (inject_Z (if s then Zneg m else Zpos m) * Qpower 2 e)%Q
  | S754_infinity _ | S754_nan => None
  end.

(** [x] is finite and stands for [q]. *)
Definition holds (x : number) (q : Q) : bool :=
  match value x with
  | Some v => Qeq_bool v q
  | None => false
  end.

(** Truthiness of an optional number: [undefined], [NaN] and the zeros are
    falsy. *)
Definition truthy64 (x : option number) : bool :=
  match x with
  | Some (S754_finite _ _ _) | Some (S754_infinity _) => true
  | Some (S754_zero _) | Some S754_nan | None => false
  end.

Record Entry64 : Type := mkEntry64 { date64 : string; hours64 : number }.

Definition hasDate64 (d : string) (e : Entry64) : bool :=
  String.eqb (date64 e) d.

(** [deleteEntry], what it passes to [setEntries]. *)
Definition deleteEntry64 (entries : list Entry64) (d : string)
    (hoursToDelete : option number) : list Entry64 :=
  match find (hasDate64 d) entries with
  | None => entries
  | Some existingEntry =>
      match hoursToDelete with
      | Some amount =>
          if truthy64 hoursToDelete && ltb amount (hours64 existingEntry)
          then
            map (fun entry =>
                   if hasDate64 d entry
                   then mkEntry64 (date64 entry) (sub (hours64 entry) amount)
                   else entry) entries
          else filter (fun entry => negb (hasDate64 d entry)) entries
      | None => filter (fun entry => negb (hasDate64 d entry)) entries
      end
  end.

(** [k] half hours, and the counts of half hours from 0 to 24. *)
Definition halfHours (k : Z) : number := double k (-1).
Definition halves : list Z := map Z.of_nat (seq 0 49).

(** The number written [0.1], and 0.25 less one part in two to the 53. *)
Definition tenth : number := double 7205759403792794 (-56).
Definition underQuarter : number := double 2251799813685247 (-53).

End Binary64.

(** ** Vocabulary of the properties *)

Module Spec.

Import JSDate App.

Local Open Scope Q_scope.

Definition halfMultiple (q : Q) : Prop := exists k : Z, q == inject_Z k / 2.

(** [r] is [h] rounded to the nearest 0.5, a tie going up. *)
Definition roundedToHalf (h r : Q) : Prop :=
  halfMultiple r /\ r - (1 # 4) <= h /\ h < r + (1 # 4).

(** The number of half hours [validateAndClampHours] settles on. *)
Definition halfSteps (h : Q) : Z := Z.min (Z.max 0 (Math_round (h * 2))) 48.

(** The length of month [mn] in a year whose leap-day count is [leap]. *)
Definition monthLength (mn leap : Z) : Z :=
  ((if mn =? 11 then 365 + leap else monthStart (mn + 1) leap)
   - monthStart mn leap)%Z.

Definition fourDigitYear (d : Z) : Prop := (0 <= YearFromDay d <= 9999)%Z.

(** Day numbers of 2025-01-01 and 2025-12-31. *)
Definition windowStart : Z := MakeDay 2025 0 1.
Definition windowEnd : Z := MakeDay 2025 11 31.

(** I1 *)
Definition validHours (q : Q) : Prop := 0 <= q <= 24 /\ halfMultiple q.

(** I3 *)
Definition inWindow (s : string) : Prop :=
  exists d, s = isoOfDay d /\ (windowStart <= d <= windowEnd)%Z.

(** I4, with the current date read in UTC as the source does. *)
Definition notAfter (now : Z) (s : string) : Prop :=
  exists d, s = isoOfDay d /\ (d <= Day now)%Z.

Record Invariants (now : Z) (l : list DayEntry) : Prop := mkInvariants {
  inv_hours : Forall (fun e => validHours (hours e)) l;
  inv_unique : NoDup (map date l);
  inv_window : Forall (fun e => inWindow (date e)) l;
  inv_past : Forall (fun e => notAfter now (date e)) l
}.

(** [upsert] as one pass over the array. *)
Fixpoint upsertRec (d : string) (v : Q) (l : list DayEntry)
  : list DayEntry :=
  match l with
  | [] => [mkEntry d v]
  | e :: r =>
      if hasDate d e then mkEntry (date e) v :: r else e :: upsertRec d v r
  end.

(** The two results of [deleteEntry]: one entry reduced, one date removed. *)
Definition reduceBy (d : string) (a : Q) (entry : DayEntry) : DayEntry :=
  if hasDate d entry then mkEntry (date entry) (hours entry - a) else entry.

Definition without (d : string) (entries : list DayEntry) : list DayEntry :=
  filter (fun entry => negb (hasDate d entry)) entries.

(** A key in the form YYYY-MM-DD that names a day. *)
Definition canonicalKey (s : string) : Prop :=
  exists d, fourDigitYear d /\ s = isoOfDay d.

(** A number of binary64: a mantissa below two to the 53 in size, times a
    power of two within the exponent range. *)
Definition binary64 (q : Q) : Prop :=
  exists m e : Z,
    (Z.abs m < 2 ^ 53)%Z /\ (-1074 <= e <= 971)%Z /\
    q == inject_Z m * Qpower 2 e.

(** The write operations of the ledger, as the user can trigger them. *)
Inductive Mutation : Type :=
| SetHours (selectedDate : string) (hoursNum : option Q)
| QuickAdd (amount : Q)
| QuickAddForDate (d : string) (h : Q)
| Delete (d : string) (hoursToDelete : option Q).

Definition perform (now : Z) (m : Mutation) (entries : list DayEntry)
  : Outcome :=
  match m with
  | SetHours s h => handleSubmit now entries s h
  | QuickAdd a => quickAdd now entries a
  | QuickAddForDate d h => quickAddForDate now entries d h
  | Delete d a => deleteEntry entries d a
  end.

(** The inputs on which a mutation keeps the invariants: the keys passed
    in are canonical, a partial delete takes off a non-negative number of
    half hours, and the quick add for today is used while today is not
    past the window. *)
Definition admissible (now : Z) (m : Mutation) : Prop :=
  match m with
  | SetHours s _ => canonicalKey s
  | QuickAdd _ => (Day now <= windowEnd)%Z
  | QuickAddForDate d _ => canonicalKey d
  | Delete _ None => True
  | Delete _ (Some a) => 0 <= a /\ halfMultiple a
  end.

(** The keys a mutation is given are canonical. *)
Definition canonicalKeys (m : Mutation) : Prop :=
  match m with
  | SetHours s _ => canonicalKey s
  | QuickAddForDate d _ => canonicalKey d
  | QuickAdd _ | Delete _ _ => True
  end.

(** An amount as the page passes it to a quick add or to the partial
    delete: a multiple of one half, 24 at most in size. *)
Definition halfAmount (a : Q) : Prop := halfMultiple a /\ -24 <= a <= 24.

Definition halfAmounts (m : Mutation) : Prop :=
  match m with
  | SetHours _ _ => True
  | QuickAdd a => halfAmount a
  | QuickAddForDate _ h => halfAmount h
  | Delete _ None => True
  | Delete _ (Some a) => halfAmount a
  end.

(** The zone keeps the offset [tz] all year. *)
Definition fixedOffset (zone : Zone) (tz : Z) : Prop :=
  forall t, offsetAt zone t = tz /\ offsetOfLocal zone t = tz.

(** The ledgers a session can reach: it starts empty, the clock does not
    run backwards, and every mutation is admissible when it is made. *)
Inductive Reached : Z -> list DayEntry -> Prop :=
| reached_start (now : Z) : Reached now []
| reached_step (now later : Z) (entries : list DayEntry) (m : Mutation) :
    Reached now entries -> (Day now <= Day later)%Z -> admissible later m ->
    Reached later (nextEntries (perform later m entries)).

(** [n] presses of the +0.5 button. *)
Fixpoint pressPlus (now : Z) (n : nat) (entries : list DayEntry)
  : list DayEntry :=
  match n with
  | O => entries
  | S k => nextEntries (quickAdd now (pressPlus now k entries) (1 # 2))
  end.

(** [hoursInRange]: what the second click of a range selection computes. *)
Definition hoursInRange (entries : list DayEntry) (s e : string)
  : Q * option string := snd (selectRange entries s e).

(** The filter of [getHoursBetweenDates]: keys from [s] to [e], inclusive. *)
Definition inRange (s e : string) (entry : DayEntry) : bool :=
  String.leb s (date entry) && String.leb (date entry) e.

(** The month number (0..11) of the date a key names. *)
Definition monthOfKey (s : string) : option Z :=
  option_map getUTCMonth (parse s).

Definition inMonthNumber (month : Z) (entry : DayEntry) : bool :=
  match monthOfKey (date entry) with
  | Some m => m =? month
  | None => false
  end.

(** The record's date falls in month [month] (0..11) of year [year]. *)
Definition inMonthOf (year month : Z) (entry : DayEntry) : bool :=
  match parse (date entry) with
  | Some t => (getUTCFullYear t =? year) && (getUTCMonth t =? month)
  | None => false
  end.

(** A clock reading used in the examples: 2025-06-15T09:00Z. *)
Definition midJune2025 : Z := UTC 2025 5 15 9.

(** A clock reading after the window: 2026-01-05T09:00Z. *)
Definition earlyJanuary2026 : Z := UTC 2026 0 5 9.


(** A ledger with five hours on the first day of the window. *)
Definition fiveOnNewYear : list DayEntry := [mkEntry "2025-01-01" 5].

(** The text of a snapshot holding [fiveOnNewYear]. *)
Definition snapshotOfFive : string :=
  let q := String JSON.quote EmptyString in
  ("[{" ++ q ++ "date" ++ q ++ ":" ++ q ++ "2025-01-01" ++ q ++ ","
   ++ q ++ "hours" ++ q ++ ":5}]")%string.

(** The cell at position [k] of a grid that starts [w] days before day
    [F] and has [N] days in the target month. *)
Definition gridCell (F w N : Z) (k : nat) : CalendarDay :=
  mkDay ((F - w + Z.of_nat k) * msPerDay + 12 * msPerHour)%Z
        ((w <=? Z.of_nat k) && (Z.of_nat k <? w + N))%Z.

(** The time value of [new Date(2025, 0, 1)] in the zone [tz]. *)
Definition january2025 (tz : Z) : Z := (UTC 2025 0 1 0 - tz)%Z.

(** Thirteen hours east of UTC. *)
Definition thirteenEast : Z := (13 * msPerHour)%Z.

(** A key [handleSubmit] accepts at the clock reading [now]: a day of 2025
    that is not after today (UTC). *)
Definition acceptedKey (now : Z) (s : string) : Prop :=
  exists d, s = isoOfDay d /\ (windowStart <= d <= windowEnd)%Z
            /\ (d <= Day now)%Z.

(** The key a mutation writes to, when it writes at all. *)
Definition targetKey (now : Z) (m : Mutation) : option string :=
  match m with
  | SetHours s _ => Some s
  | QuickAdd _ => Some (toISODate now)
  | QuickAddForDate d _ => option_map formatDate (parse d)
  | Delete d _ => Some d
  end.

(** [a] may stand before [b] in a list that runs from the newest date
    to the oldest. *)
Definition notOlder (a b : DayEntry) : Prop :=
  String.leb (date b) (date a) = true.

(** The time value is local midnight on the first of a month. *)
Definition firstOfMonth (tz t : Z) : Prop :=
  exists y m, (0 <= m < 12)%Z /\ (t + tz = MakeDay y m 1 * msPerDay)%Z.

(** The cells of the first and the third of January in the grid of
    January 2025. *)
Definition firstCell : CalendarDay := gridCell 20089 3 31 3.
Definition thirdCell : CalendarDay := gridCell 20089 3 31 5.

(** Five hours west of UTC. *)
Definition fiveWest : Z := (- (5 * msPerHour))%Z.

(** The text of [k] half hours, and the number that text is read as. *)
Definition showHalf (k : Z) : JSON.text :=
  (JSON.decimalDigits 16 (k / 2) []
   ++ (if (k mod 2 =? 0)%Z then [] else ["."%char; "5"%char]))%list.

Definition parsedHalf (k : Z) : Q :=
  if (k mod 2 =? 0)%Z then inject_Z (k / 2) else Qmake (10 * (k / 2) + 5) 10.

(** An entry as [JSON.parse] returns it from its own text. *)
Definition restored (e : DayEntry) : DayEntry :=
  mkEntry (date e) (parsedHalf (halfSteps (hours e))).

Definition asValue (e : DayEntry) : JSON.value :=
  JSON.JObject [("date"%string, JSON.JString (date e));
                ("hours"%string, JSON.JNumber (hours e))].

(** Two ledgers with the same dates in the same order and equal hours. *)
Definition sameLedger (l1 l2 : list DayEntry) : Prop :=
  Forall2 (fun a b => date a = date b /\ hours a == hours b) l1 l2.

(** Months counted from year 0: what one navigation step changes by one. *)
Definition monthIndex (tz t : Z) : Z :=
  (12 * getFullYear tz t + getMonth tz t)%Z.

End Spec.

Import JSDate App Spec.

(** ** Proof automation *)

(** Integer goals with division and remainder by constants. *)
Ltac zdiv := Z.div_mod_to_equations; lia.

(** Split on every integer test in sight, discarding impossible branches. *)
Ltac ite :=
  repeat match goal with
         | |- context [?a =? ?b] => destruct (Z.eqb_spec a b); try lia
         | |- context [?a <? ?b] => destruct (Z.ltb_spec a b); try lia
         | H : context [?a =? ?b] |- _ => destruct (Z.eqb_spec a b); try lia
         | H : context [?a <? ?b] |- _ => destruct (Z.ltb_spec a b); try lia
         end.

(** ** The calendar *)

Section Calendar.

Lemma DayFromYear_succ y : DayFromYear (y + 1) = DayFromYear y + DaysInYear y.
Proof.
  unfold DayFromYear, DaysInYear.
  destruct (Z.eqb_spec (y mod 4) 0), (Z.eqb_spec (y mod 100) 0),
    (Z.eqb_spec (y mod 400) 0); cbn [negb]; zdiv.
Qed.

Lemma DayFromYear_mono y1 y2 : y1 <= y2 -> DayFromYear y1 <= DayFromYear y2.
Proof. unfold DayFromYear. zdiv. Qed.

Lemma YearFromDay_spec d :
  DayFromYear (YearFromDay d) <= d < DayFromYear (YearFromDay d + 1).
Proof.
  unfold YearFromDay.
  set (y := 1970 + d * 400 / 146097).
  assert (Hy : 146097 * (y - 1970) <= d * 400 < 146097 * (y - 1970) + 146097)
    by (unfold y; zdiv).
  clearbody y.
  destruct (Z.ltb_spec d (DayFromYear y)).
  - replace (y - 1 + 1) with y by lia. split; [|lia].
    unfold DayFromYear in *. zdiv.
  - destruct (Z.leb_spec (DayFromYear (y + 1)) d); [|lia].
    split; [lia|]. unfold DayFromYear in *. zdiv.
Qed.

Lemma YearFromDay_unique d y :
  DayFromYear y <= d < DayFromYear (y + 1) -> YearFromDay d = y.
Proof.
  intros Hy. pose proof (YearFromDay_spec d) as Hs.
  destruct (Z.lt_trichotomy (YearFromDay d) y) as [Hlt | [Heq | Hgt]]; auto.
  - pose proof (DayFromYear_mono (YearFromDay d + 1) y). lia.
  - pose proof (DayFromYear_mono (y + 1) (YearFromDay d)). lia.
Qed.

Lemma DaysInYear_cases y :
  (DaysInYear y = 365 /\ InLeapYear y = 0) \/
  (DaysInYear y = 366 /\ InLeapYear y = 1).
Proof.
  unfold InLeapYear, DaysInYear.
  destruct (y mod 4 =? 0), (y mod 100 =? 0), (y mod 400 =? 0); cbn; auto.
Qed.

Lemma MakeDay_in_month y mn dt :
  0 <= mn < 12 ->
  MakeDay y mn dt = DayFromYear y + monthStart mn (InLeapYear y) + dt - 1.
Proof.
  intros Hm. unfold MakeDay.
  rewrite (Z.div_small mn 12), (Z.mod_small mn 12), Z.add_0_r by lia.
  reflexivity.
Qed.

Lemma MakeDay_carry y mn dt : MakeDay y (mn + 12) dt = MakeDay (y + 1) mn dt.
Proof.
  unfold MakeDay.
  replace ((mn + 12) / 12) with (mn / 12 + 1) by zdiv.
  replace ((mn + 12) mod 12) with (mn mod 12) by zdiv.
  replace (y + (mn / 12 + 1)) with (y + 1 + mn / 12) by lia.
  reflexivity.
Qed.

Lemma MakeDay_borrow y mn dt : MakeDay y (mn - 12) dt = MakeDay (y - 1) mn dt.
Proof.
  replace (MakeDay (y - 1) mn dt) with (MakeDay (y - 1) (mn - 12 + 12) dt)
    by (f_equal; lia).
  rewrite MakeDay_carry. f_equal; lia.
Qed.

Lemma DaysInMonth_length y mn :
  0 <= mn < 12 -> DaysInMonth y mn = monthLength mn (InLeapYear y).
Proof.
  intros Hm. unfold DaysInMonth, monthLength.
  destruct (Z.eqb_spec mn 11) as [-> | Hne].
  - change (11 + 1) with (0 + 12). rewrite MakeDay_carry.
    rewrite !MakeDay_in_month by lia. rewrite DayFromYear_succ.
    destruct (DaysInYear_cases y) as [[-> ->] | [-> ->]]; unfold monthStart;
      ite.
  - rewrite !MakeDay_in_month by lia. lia.
Qed.

Lemma monthLength_bounds mn leap :
  0 <= mn < 12 -> 0 <= leap <= 1 -> 28 <= monthLength mn leap <= 31.
Proof. intros Hm Hl. unfold monthLength, monthStart. ite. Qed.

Lemma InLeapYear_range y : 0 <= InLeapYear y <= 1.
Proof. destruct (DaysInYear_cases y) as [[_ ->] | [_ ->]]; lia. Qed.

Lemma DaysInYear_leap y : DaysInYear y = 365 + InLeapYear y.
Proof. destruct (DaysInYear_cases y) as [[-> ->] | [-> ->]]; lia. Qed.

Lemma civil_of_MakeDay y mn dt :
  0 <= mn < 12 -> 1 <= dt <= DaysInMonth y mn ->
  YearFromDay (MakeDay y mn dt) = y /\
  MonthFromDay (MakeDay y mn dt) = mn /\
  DateFromDay (MakeDay y mn dt) = dt.
Proof.
  intros Hm Hd.
  rewrite DaysInMonth_length in Hd by lia.
  rewrite MakeDay_in_month by lia.
  pose proof (InLeapYear_range y) as Hl.
  set (l := InLeapYear y) in *.
  set (d := DayFromYear y + monthStart mn l + dt - 1).
  assert (Hy : YearFromDay d = y).
  { apply YearFromDay_unique. rewrite DayFromYear_succ, DaysInYear_leap.
    fold l. unfold d. clearbody l. unfold monthLength, monthStart in *. ite. }
  assert (Hw : DayWithinYear d = monthStart mn l + dt - 1)
    by (unfold DayWithinYear; rewrite Hy; unfold d; lia).
  assert (Hmn : MonthFromDay d = mn).
  { unfold MonthFromDay. rewrite Hw, Hy. fold l. clearbody l.
    unfold monthLength, monthStart in *. ite. }
  repeat split; auto.
  unfold DateFromDay. rewrite Hmn, Hy, Hw. fold l. lia.
Qed.

Lemma MonthFromDay_range d : 0 <= MonthFromDay d < 12.
Proof. unfold MonthFromDay. ite. Qed.

Lemma MakeDay_of_civil d :
  MakeDay (YearFromDay d) (MonthFromDay d) (DateFromDay d) = d /\
  1 <= DateFromDay d <= DaysInMonth (YearFromDay d) (MonthFromDay d).
Proof.
  pose proof (YearFromDay_spec d) as Hs.
  pose proof (MonthFromDay_range d) as Hm.
  rewrite DayFromYear_succ, DaysInYear_leap in Hs.
  rewrite DaysInMonth_length, MakeDay_in_month by lia.
  unfold DateFromDay.
  split; [unfold DayWithinYear; lia|].
  clear Hm. unfold MonthFromDay.
  pose proof (InLeapYear_range (YearFromDay d)) as Hl.
  set (l := InLeapYear (YearFromDay d)) in *.
  set (w := DayWithinYear d).
  assert (Hw : 0 <= w < 365 + l) by (unfold w, DayWithinYear; lia).
  clearbody w l. clear Hs.
  unfold monthLength, monthStart. ite.
Qed.

(** ** Decimal fields *)

Lemma digitVal_digit n : digitVal (digit n) = Some (n mod 10).
Proof.
  unfold digit.
  assert (H : 0 <= n mod 10 < 10) by zdiv.
  set (k := n mod 10) in *. clearbody k.
  assert (Hk : k = 0 \/ k = 1 \/ k = 2 \/ k = 3 \/ k = 4 \/ k = 5 \/ k = 6
               \/ k = 7 \/ k = 8 \/ k = 9) by lia.
  repeat (destruct Hk as [Hk | Hk]); subst k; reflexivity.
Qed.

Lemma digit_digitVal c v : digitVal c = Some v -> c = digit v /\ 0 <= v <= 9.
Proof.
  destruct c as [[] [] [] [] [] [] [] []]; intros H; vm_compute in H;
    try discriminate H; injection H as <-; split; first [reflexivity | lia].
Qed.

Lemma num2_pad n :
  0 <= n < 100 -> num2 (digit (n / 10)) (digit n) = Some n.
Proof.
  intros H. unfold num2. rewrite !digitVal_digit. f_equal. zdiv.
Qed.

Lemma pad_num2 a b n :
  num2 a b = Some n -> 0 <= n < 100 /\ a = digit (n / 10) /\ b = digit n.
Proof.
  unfold num2.
  destruct (digitVal a) as [x|] eqn:Ha; [|discriminate].
  destruct (digitVal b) as [y|] eqn:Hb; [|discriminate].
  intros H. assert (E : n = 10 * x + y) by congruence. subst n. clear H.
  apply digit_digitVal in Ha as [-> Hx], Hb as [-> Hy].
  split; [lia|]. unfold digit. split; do 3 f_equal; zdiv.
Qed.

Lemma num4_pad n :
  0 <= n < 10000 ->
  num4 (digit (n / 1000)) (digit (n / 100)) (digit (n / 10)) (digit n)
  = Some n.
Proof.
  intros H. unfold num4, num2. rewrite !digitVal_digit. f_equal. zdiv.
Qed.

Lemma pad_num4 a b c d n :
  num4 a b c d = Some n ->
  0 <= n < 10000 /\ a = digit (n / 1000) /\ b = digit (n / 100)
  /\ c = digit (n / 10) /\ d = digit n.
Proof.
  unfold num4.
  destruct (num2 a b) as [x|] eqn:Ha; [|discriminate].
  destruct (num2 c d) as [y|] eqn:Hb; [|discriminate].
  intros H. assert (E : n = 100 * x + y) by congruence. subst n. clear H.
  apply pad_num2 in Ha as (Hx & -> & ->), Hb as (Hy & -> & ->).
  split; [lia|]. unfold digit. repeat split; do 3 f_equal; zdiv.
Qed.

(** ** Calendar keys and [Date.parse] *)

Lemma isoOfDay_chars d :
  fourDigitYear d ->
  isoOfDay d =
  pad4 (YearFromDay d)
    (String "-" (pad2 (MonthFromDay d + 1)
       (String "-" (pad2 (DateFromDay d) EmptyString)))).
Proof.
  intros [H0 H1]. unfold isoOfDay, isoYear.
  destruct (Z.leb_spec 0 (YearFromDay d)); [|lia].
  destruct (Z.leb_spec (YearFromDay d) 9999); [|lia].
  reflexivity.
Qed.

Lemma parseDatePart_civil d :
  fourDigitYear d ->
  let y := YearFromDay d in
  let m := MonthFromDay d + 1 in
  let dt := DateFromDay d in
  parseDatePart (digit (y / 1000)) (digit (y / 100)) (digit (y / 10))
    (digit y) (digit (m / 10)) (digit m) (digit (dt / 10)) (digit dt)
  = Some d.
Proof.
  intros Hy y m dt. unfold parseDatePart.
  pose proof (MonthFromDay_range d) as Hm.
  destruct (MakeDay_of_civil d) as [Hmk Hd].
  pose proof (DaysInMonth_length (YearFromDay d) (MonthFromDay d) Hm) as Hl.
  pose proof (monthLength_bounds (MonthFromDay d) _ Hm
                (InLeapYear_range (YearFromDay d))) as Hb.
  rewrite num4_pad by (unfold y; unfold fourDigitYear in Hy; lia).
  rewrite !num2_pad by (unfold m, dt; lia).
  unfold m, dt, y. replace (MonthFromDay d + 1 - 1) with (MonthFromDay d) by lia.
  rewrite Hmk.
  destruct (Z.leb_spec 1 (MonthFromDay d + 1)); [|lia].
  destruct (Z.leb_spec (MonthFromDay d + 1) 12); [|lia].
  destruct (Z.leb_spec 1 (DateFromDay d)); [|lia].
  destruct (Z.leb_spec (DateFromDay d)
              (DaysInMonth (YearFromDay d) (MonthFromDay d))); [|lia].
  reflexivity.
Qed.

Lemma parse_isoOfDay d :
  fourDigitYear d -> parse (isoOfDay d) = Some (d * msPerDay).
Proof.
  intros Hy. rewrite isoOfDay_chars by assumption.
  unfold pad4, pad2, parse.
  rewrite Ascii.eqb_refl. cbn [andb].
  rewrite (parseDatePart_civil d Hy). reflexivity.
Qed.

Lemma parse_isoOfDay_time d :
  fourDigitYear d ->
  parse (isoOfDay d ++ "T00:00:00.000Z") = Some (d * msPerDay).
Proof.
  intros Hy. rewrite isoOfDay_chars by assumption.
  unfold pad4, pad2. cbn [String.append]. unfold parse.
  rewrite Ascii.eqb_refl. cbn [andb].
  rewrite (parseDatePart_civil d Hy).
  change (parseTimePart "00:00:00.000Z") with (Some 0).
  cbn [Ascii.eqb Bool.eqb option_map]. f_equal. lia.
Qed.

Lemma parseDatePart_inv y1 y2 y3 y4 m1 m2 d1 d2 d :
  parseDatePart y1 y2 y3 y4 m1 m2 d1 d2 = Some d ->
  fourDigitYear d /\
  isoOfDay d =
  String y1 (String y2 (String y3 (String y4 (String "-" (String m1
    (String m2 (String "-" (String d1 (String d2 EmptyString))))))))).
Proof.
  unfold parseDatePart.
  destruct (num4 y1 y2 y3 y4) as [y|] eqn:Hy; [|discriminate].
  destruct (num2 m1 m2) as [m|] eqn:Hm; [|discriminate].
  destruct (num2 d1 d2) as [dt|] eqn:Hd; [|discriminate].
  destruct (Z.leb_spec 1 m); [|discriminate].
  destruct (Z.leb_spec m 12); [|discriminate].
  destruct (Z.leb_spec 1 dt); [|discriminate].
  destruct (Z.leb_spec dt (DaysInMonth y (m - 1))); [|discriminate].
  cbn [andb]. intros Hp.
  assert (E : d = MakeDay y (m - 1) dt) by congruence. subst d. clear Hp.
  destruct (civil_of_MakeDay y (m - 1) dt) as (Ey & Em & Ed); [lia | lia |].
  apply pad_num4 in Hy as (Hy & -> & -> & -> & ->).
  apply pad_num2 in Hm as (Hm & -> & ->), Hd as (Hd & -> & ->).
  assert (H4 : fourDigitYear (MakeDay y (m - 1) dt))
    by (unfold fourDigitYear; rewrite Ey; lia).
  split; [exact H4|].
  rewrite isoOfDay_chars by exact H4. rewrite Ey, Em, Ed.
  replace (m - 1 + 1) with m by lia. reflexivity.
Qed.

Lemma length_append (u v : string) :
  String.length (u ++ v) = (String.length u + String.length v)%nat.
Proof. induction u as [|c u IH]; cbn; [reflexivity | now rewrite IH]. Qed.

(** A key that parses, alone or with the midnight suffix, is the canonical
    key of the day it denotes. *)
Lemma parse_key_inv s t :
  parse (s ++ "T00:00:00.000Z") = Some t ->
  exists d, fourDigitYear d /\ s = isoOfDay d /\ t = d * msPerDay.
Proof.
  assert (Hlen : forall u v, parse u = Some v ->
                 String.length u = 10%nat \/ String.length u = 24%nat).
  { intros u v. unfold parse.
    do 10 (destruct u as [|? u]; [discriminate|]).
    destruct (_ && _); [|discriminate].
    destruct (parseDatePart _ _ _ _ _ _ _ _); [|discriminate].
    destruct u as [|c u]; [left; reflexivity|].
    destruct (Ascii.eqb c "T"); [|discriminate].
    unfold parseTimePart.
    do 13 (destruct u as [|? u]; [discriminate|]).
    destruct u; [right; reflexivity | discriminate]. }
  intros H. pose proof (Hlen _ _ H) as Hl.
  rewrite length_append in Hl. cbn [String.length] in Hl.
  assert (Hs : String.length s = 10%nat) by lia. clear Hl Hlen.
  do 10 (destruct s as [|? s]; [discriminate Hs|]).
  destruct s; [|discriminate Hs]. clear Hs.
  cbn [String.append] in H. unfold parse in H.
  destruct (Ascii.eqb_spec a3 "-") as [-> | ]; [|discriminate].
  destruct (Ascii.eqb_spec a6 "-") as [-> | ]; [|discriminate].
  cbn [andb] in H.
  destruct (parseDatePart a a0 a1 a2 a4 a5 a7 a8) as [d|] eqn:Hd;
    [|discriminate].
  change (parseTimePart "00:00:00.000Z") with (Some 0) in H.
  cbn [Ascii.eqb Bool.eqb option_map] in H.
  assert (Et : t = d * msPerDay + 0) by congruence.
  apply parseDatePart_inv in Hd as [H4 E].
  exists d. split; [exact H4|].
  split; [symmetry; exact E | rewrite Et; apply Z.add_0_r].
Qed.

End Calendar.

(** ** The lexicographic order of calendar keys *)

Section KeyOrder.

Lemma digit_compare x y :
  Ascii.compare (digit x) (digit y) = (x mod 10 ?= y mod 10).
Proof.
  unfold digit.
  assert (Hx : 0 <= x mod 10 < 10) by zdiv.
  assert (Hy : 0 <= y mod 10 < 10) by zdiv.
  set (i := x mod 10) in *. set (j := y mod 10) in *. clearbody i j.
  assert (Hi : i = 0 \/ i = 1 \/ i = 2 \/ i = 3 \/ i = 4 \/ i = 5 \/ i = 6
               \/ i = 7 \/ i = 8 \/ i = 9) by lia.
  assert (Hj : j = 0 \/ j = 1 \/ j = 2 \/ j = 3 \/ j = 4 \/ j = 5 \/ j = 6
               \/ j = 7 \/ j = 8 \/ j = 9) by lia.
  repeat (destruct Hi as [Hi | Hi]); subst i;
    repeat (destruct Hj as [Hj | Hj]); subst j; reflexivity.
Qed.

(** Comparing two numbers digit by digit, most significant first. *)
Lemma lex_compare (q1 r1 q2 r2 : Z) :
  0 <= r1 < 10 -> 0 <= r2 < 10 ->
  (10 * q1 + r1 ?= 10 * q2 + r2)
  = match q1 ?= q2 with Eq => r1 ?= r2 | c => c end.
Proof.
  intros H1 H2.
  destruct (Z.compare_spec q1 q2) as [-> | Hq | Hq].
  - destruct (Z.compare_spec r1 r2) as [-> | Hr | Hr].
    + apply Z.compare_refl.
    + apply Z.compare_lt_iff. lia.
    + apply Z.compare_gt_iff. lia.
  - apply Z.compare_lt_iff. lia.
  - apply Z.compare_gt_iff. lia.
Qed.

Lemma compare_pad2 x y k1 k2 :
  0 <= x < 100 -> 0 <= y < 100 ->
  String.compare (pad2 x k1) (pad2 y k2)
  = match x ?= y with Eq => String.compare k1 k2 | c => c end.
Proof.
  intros Hx Hy. unfold pad2. cbn [String.compare].
  rewrite !digit_compare.
  replace (x ?= y) with (10 * (x / 10) + x mod 10 ?= 10 * (y / 10) + y mod 10)
    by (f_equal; zdiv).
  rewrite lex_compare by zdiv.
  rewrite (Z.mod_small (x / 10)), (Z.mod_small (y / 10)) by zdiv.
  destruct (x / 10 ?= y / 10); [|reflexivity..].
  destruct (x mod 10 ?= y mod 10); reflexivity.
Qed.

Lemma compare_pad4 x y k1 k2 :
  0 <= x < 10000 -> 0 <= y < 10000 ->
  String.compare (pad4 x k1) (pad4 y k2)
  = match x ?= y with Eq => String.compare k1 k2 | c => c end.
Proof.
  intros Hx Hy.
  assert (E : forall n k, 0 <= n < 10000 ->
              pad4 n k = pad2 (n / 100) (pad2 (n mod 100) k)).
  { intros n k Hn. unfold pad4, pad2.
    repeat match goal with |- String _ _ = String _ _ => f_equal end;
      unfold digit; do 3 f_equal; zdiv. }
  rewrite !E by assumption.
  rewrite compare_pad2 by zdiv.
  replace (x ?= y)
    with (100 * (x / 100) + x mod 100 ?= 100 * (y / 100) + y mod 100)
    by (f_equal; zdiv).
  set (c := 100 * (x / 100) + x mod 100 ?= 100 * (y / 100) + y mod 100).
  assert (Hr : 0 <= x mod 100 < 100 /\ 0 <= y mod 100 < 100) by zdiv.
  destruct (Z.compare_spec (x / 100) (y / 100)) as [Eq | Hlt | Hgt].
  - rewrite compare_pad2 by zdiv.
    destruct (Z.compare_spec (x mod 100) (y mod 100)) as [Er | Hlt | Hgt].
    + replace c with Datatypes.Eq; [reflexivity|].
      symmetry. apply Z.compare_eq_iff. lia.
    + replace c with Lt; [reflexivity|].
      symmetry. apply Z.compare_lt_iff. lia.
    + replace c with Gt; [reflexivity|].
      symmetry. apply Z.compare_gt_iff. lia.
  - replace c with Lt; [reflexivity|].
    symmetry. apply Z.compare_lt_iff. lia.
  - replace c with Gt; [reflexivity|].
    symmetry. apply Z.compare_gt_iff. lia.
Qed.

Lemma monthStart_step mn leap :
  0 <= mn < 11 -> 0 <= leap <= 1 ->
  monthStart (mn + 1) leap = monthStart mn leap + monthLength mn leap.
Proof. intros Hm Hl. unfold monthLength, monthStart. ite. Qed.

Lemma monthStart_mono m1 m2 leap :
  0 <= m1 -> m1 <= m2 -> m2 < 12 -> 0 <= leap <= 1 ->
  monthStart m1 leap <= monthStart m2 leap.
Proof. intros H1 H2 H3 Hl. unfold monthStart. ite. Qed.

(** Day numbers compare as their (year, month, date) triples do. *)
Lemma civil_compare a b :
  (a ?= b)
  = match YearFromDay a ?= YearFromDay b with
    | Eq => match MonthFromDay a + 1 ?= MonthFromDay b + 1 with
            | Eq => DateFromDay a ?= DateFromDay b
            | c => c
            end
    | c => c
    end.
Proof.
  destruct (MakeDay_of_civil a) as [Ea Ha].
  destruct (MakeDay_of_civil b) as [Eb Hb].
  pose proof (MonthFromDay_range a) as Hma.
  pose proof (MonthFromDay_range b) as Hmb.
  pose proof (YearFromDay_spec a) as Hya.
  pose proof (YearFromDay_spec b) as Hyb.
  rewrite MakeDay_in_month in Ea, Eb by assumption.
  rewrite DaysInMonth_length in Ha, Hb by assumption.
  destruct (Z.compare_spec (YearFromDay a) (YearFromDay b)) as [Ey | Hy | Hy].
  - rewrite Ey in *.
    pose proof (InLeapYear_range (YearFromDay b)) as Hl.
    set (l := InLeapYear (YearFromDay b)) in *. clearbody l.
    destruct (Z.compare_spec (MonthFromDay a + 1) (MonthFromDay b + 1))
      as [Em | Hm | Hm].
    + assert (Em' : MonthFromDay a = MonthFromDay b) by lia.
      rewrite Em' in *.
      destruct (Z.compare_spec (DateFromDay a) (DateFromDay b)).
      * apply Z.compare_eq_iff. lia.
      * apply Z.compare_lt_iff. lia.
      * apply Z.compare_gt_iff. lia.
    + apply Z.compare_lt_iff.
      pose proof (monthStart_step (MonthFromDay a) l ltac:(lia) Hl).
      pose proof (monthStart_mono (MonthFromDay a + 1) (MonthFromDay b) l
                    ltac:(lia) ltac:(lia) ltac:(lia) Hl).
      lia.
    + apply Z.compare_gt_iff.
      pose proof (monthStart_step (MonthFromDay b) l ltac:(lia) Hl).
      pose proof (monthStart_mono (MonthFromDay b + 1) (MonthFromDay a) l
                    ltac:(lia) ltac:(lia) ltac:(lia) Hl).
      lia.
  - apply Z.compare_lt_iff.
    pose proof (DayFromYear_mono (YearFromDay a + 1) (YearFromDay b)). lia.
  - apply Z.compare_gt_iff.
    pose proof (DayFromYear_mono (YearFromDay b + 1) (YearFromDay a)). lia.
Qed.

(** Canonical keys sort as the days they name. *)
Lemma compare_isoOfDay a b :
  fourDigitYear a -> fourDigitYear b ->
  String.compare (isoOfDay a) (isoOfDay b) = (a ?= b).
Proof.
  intros Ha Hb. rewrite !isoOfDay_chars by assumption.
  pose proof (MonthFromDay_range a) as Hma.
  pose proof (MonthFromDay_range b) as Hmb.
  destruct (MakeDay_of_civil a) as [_ Hda].
  destruct (MakeDay_of_civil b) as [_ Hdb].
  rewrite DaysInMonth_length in Hda, Hdb by assumption.
  pose proof (monthLength_bounds _ _ Hma (InLeapYear_range (YearFromDay a))).
  pose proof (monthLength_bounds _ _ Hmb (InLeapYear_range (YearFromDay b))).
  unfold fourDigitYear in Ha, Hb.
  rewrite compare_pad4 by lia. cbn [String.compare Ascii.compare].
  rewrite (civil_compare a b).
  destruct (YearFromDay a ?= YearFromDay b); [|reflexivity..].
  change (Ascii.compare "-" "-") with Eq. cbv iota.
  rewrite compare_pad2 by lia.
  destruct (MonthFromDay a + 1 ?= MonthFromDay b + 1); [|reflexivity..].
  cbn [String.compare]. change (Ascii.compare "-" "-") with Eq. cbv iota.
  rewrite compare_pad2 by lia. cbn [String.compare].
  destruct (DateFromDay a ?= DateFromDay b); reflexivity.
Qed.

Lemma leb_isoOfDay a b :
  fourDigitYear a -> fourDigitYear b ->
  String.leb (isoOfDay a) (isoOfDay b) = (a <=? b).
Proof.
  intros Ha Hb. unfold String.leb. rewrite compare_isoOfDay by assumption.
  unfold Z.leb. destruct (a ?= b); reflexivity.
Qed.

Lemma ltb_isoOfDay a b :
  fourDigitYear a -> fourDigitYear b ->
  String.ltb (isoOfDay a) (isoOfDay b) = (a <? b).
Proof.
  intros Ha Hb. unfold String.ltb. rewrite compare_isoOfDay by assumption.
  unfold Z.ltb. destruct (a ?= b); reflexivity.
Qed.

End KeyOrder.

(** ** Half-hour arithmetic *)

Section Numbers.

Local Open Scope Q_scope.

Lemma half_le (a b : Z) : inject_Z a / 2 <= inject_Z b / 2 <-> (a <= b)%Z.
Proof. unfold Qle, Qdiv, Qmult, Qinv; cbn. lia. Qed.

Lemma half_eq (a b : Z) : inject_Z a / 2 == inject_Z b / 2 <-> a = b.
Proof. unfold Qeq, Qdiv, Qmult, Qinv; cbn. lia. Qed.

Lemma Math_round_spec (x : Q) :
  inject_Z (Math_round x) - (1 # 2) <= x /\ x < inject_Z (Math_round x) + (1 # 2).
Proof.
  unfold Math_round.
  pose proof (Qfloor_le (x + (1 # 2))) as Hl.
  pose proof (Qlt_floor (x + (1 # 2))) as Hu.
  rewrite inject_Z_plus in Hu. change (inject_Z 1) with 1 in Hu.
  split; lra.
Qed.

Lemma Math_round_unique (x : Q) (r : Z) :
  inject_Z r - (1 # 2) <= x -> x < inject_Z r + (1 # 2) -> Math_round x = r.
Proof.
  intros Hl Hu. destruct (Math_round_spec x) as [Hl' Hu'].
  assert (H1 : inject_Z (Math_round x) < inject_Z r + 1) by lra.
  assert (H2 : inject_Z r < inject_Z (Math_round x) + 1) by lra.
  change 1 with (inject_Z 1) in H1, H2.
  rewrite <- inject_Z_plus in H1, H2.
  rewrite <- Zlt_Qlt in H1, H2. lia.
Qed.

Lemma half_pos (r : Z) : 0 < inject_Z r / 2 <-> (0 < r)%Z.
Proof. unfold Qlt, Qdiv, Qmult, Qinv; cbn. lia. Qed.

Lemma half_lt_24 (r : Z) : inject_Z r / 2 < 24 <-> (r < 48)%Z.
Proof. unfold Qlt, Qdiv, Qmult, Qinv; cbn. lia. Qed.

Lemma validateAndClampHours_steps (h : Q) :
  validateAndClampHours h == inject_Z (halfSteps h) / 2.
Proof.
  unfold validateAndClampHours, halfSteps.
  set (r := Math_round (h * 2)).
  destruct (Q.min_spec (Qmax 0 (inject_Z r / 2)) 24) as [[Hn ->] | [Hn ->]];
    destruct (Q.max_spec 0 (inject_Z r / 2)) as [[Hm Em] | [Hm Em]];
    rewrite Em in Hn; try rewrite Em.
  - apply (proj1 (half_pos r)) in Hm. apply (proj1 (half_lt_24 r)) in Hn.
    rewrite Z.max_r, Z.min_l by lia. reflexivity.
  - apply Qle_not_lt in Hm.
    assert (Hr : ~ (0 < r)%Z) by (intros Hc; apply Hm, half_pos, Hc).
    rewrite Z.max_l, Z.min_l by lia. reflexivity.
  - apply Qle_not_lt in Hn.
    assert (Hr : ~ (r < 48)%Z) by (intros Hc; apply Hn, half_lt_24, Hc).
    apply (proj1 (half_pos r)) in Hm.
    rewrite Z.min_r by lia. reflexivity.
  - exfalso. apply (Qle_not_lt _ _ Hn). reflexivity.
Qed.

Lemma halfSteps_range (h : Q) : (0 <= halfSteps h <= 48)%Z.
Proof. unfold halfSteps. lia. Qed.

Lemma validateAndClampHours_range (h : Q) :
  0 <= validateAndClampHours h <= 24.
Proof.
  rewrite validateAndClampHours_steps.
  pose proof (halfSteps_range h) as [H0 H1].
  apply (proj2 (half_le _ _)) in H0, H1.
  change (inject_Z 0 / 2) with (0 # 2) in H0.
  change (inject_Z 48 / 2) with (48 # 2) in H1. lra.
Qed.

Lemma validateAndClampHours_half (h : Q) :
  halfMultiple (validateAndClampHours h).
Proof. exists (halfSteps h). apply validateAndClampHours_steps. Qed.

(** Inside the range the clamp is idle and the result is the rounding. *)
Lemma validateAndClampHours_rounds (h : Q) :
  0 <= h <= 24 -> roundedToHalf h (validateAndClampHours h).
Proof.
  intros [H0 H1]. split; [apply validateAndClampHours_half|].
  rewrite validateAndClampHours_steps. unfold halfSteps.
  destruct (Math_round_spec (h * 2)) as [Hl Hu].
  set (r := Math_round (h * 2)) in *.
  assert (Hr0 : (0 <= r)%Z).
  { apply Z.nlt_ge. intros Hc.
    assert (Hc' : (r + 1 <= 0)%Z) by lia.
    rewrite Zle_Qle, inject_Z_plus in Hc'.
    change (inject_Z 1) with 1 in Hc'. change (inject_Z 0) with 0 in Hc'. lra. }
  assert (Hr1 : (r <= 48)%Z).
  { apply Z.nlt_ge. intros Hc.
    assert (Hc' : (48 + 1 <= r)%Z) by lia.
    rewrite Zle_Qle in Hc'. change (inject_Z (48 + 1)) with 49 in Hc'. lra. }
  rewrite Z.max_r, Z.min_l by lia.
  assert (E : inject_Z r / 2 == inject_Z r * (1 # 2)) by (unfold Qdiv; reflexivity).
  rewrite E. split; lra.
Qed.

Lemma validateAndClampHours_zero (h : Q) :
  0 <= h <= 24 -> (validateAndClampHours h == 0 <-> h < 1 # 4).
Proof.
  intros Hh. destruct (validateAndClampHours_rounds h Hh) as (_ & Hl & Hu).
  destruct (validateAndClampHours_half h) as [k Hk].
  split; intros H.
  - lra.
  - rewrite Hk in *.
    assert (E : inject_Z k / 2 == inject_Z k * (1 # 2)) by (unfold Qdiv; reflexivity).
    destruct (Z.lt_trichotomy k 0) as [Hn | [-> | Hp]]; [| reflexivity |].
    + assert (Hc : (k + 1 <= 0)%Z) by lia.
      rewrite Zle_Qle, inject_Z_plus in Hc.
      change (inject_Z 1) with 1 in Hc. change (inject_Z 0) with 0 in Hc. lra.
    + assert (Hc : (0 + 1 <= k)%Z) by lia.
      rewrite Zle_Qle in Hc. change (inject_Z (0 + 1)) with 1 in Hc. lra.
Qed.

End Numbers.

Section Arrays.

Local Open Scope Q_scope.

(** ** Arrays of entries *)

Lemma Qlt_bool_iff (x y : Q) : Qlt_bool x y = true <-> x < y.
Proof.
  unfold Qlt_bool. rewrite negb_true_iff.
  split; intros H.
  - apply Qnot_le_lt. intros Hc. apply Qle_bool_iff in Hc. congruence.
  - apply not_true_is_false. intros Hc. apply Qle_bool_iff in Hc.
    exact (Qlt_not_le _ _ H Hc).
Qed.

Lemma Qeq_bool_false (x y : Q) : Qeq_bool x y = false <-> ~ x == y.
Proof.
  split.
  - intros H Hc. apply Qeq_bool_iff in Hc. congruence.
  - intros H. apply not_true_is_false. intros Hc. apply H, Qeq_bool_iff, Hc.
Qed.

Lemma orZero_eq (q : Q) : orZero (Some q) == q.
Proof.
  unfold orZero. destruct (Qeq_bool q 0) eqn:E; [|reflexivity].
  apply Qeq_bool_iff in E. symmetry. exact E.
Qed.

Lemma hasDate_true d e : hasDate d e = true <-> date e = d.
Proof. apply String.eqb_eq. Qed.

Lemma hasDate_false d e : hasDate d e = false <-> date e <> d.
Proof. apply String.eqb_neq. Qed.

Lemma upsert_rec d v l : upsert d v l = upsertRec d v l.
Proof.
  unfold upsert. induction l as [|e r IH]; [reflexivity|].
  cbn [findIndex upsertRec]. destruct (hasDate d e); [reflexivity|].
  rewrite <- IH. destruct (findIndex (hasDate d) r); reflexivity.
Qed.

Lemma find_upsert_same d v l :
  find (hasDate d) (upsert d v l) = Some (mkEntry d v).
Proof.
  rewrite upsert_rec. induction l as [|e r IH]; cbn [upsertRec find].
  - unfold hasDate at 1. cbn [date]. now rewrite String.eqb_refl.
  - destruct (hasDate d e) eqn:E.
    + cbn [find]. unfold hasDate at 1. cbn [date].
      apply hasDate_true in E. rewrite E, String.eqb_refl. now rewrite <- E.
    + cbn [find]. now rewrite E.
Qed.

Lemma find_upsert_other d d' v l :
  d' <> d -> find (hasDate d') (upsert d v l) = find (hasDate d') l.
Proof.
  intros Hne. rewrite upsert_rec.
  induction l as [|e r IH]; cbn [upsertRec find].
  - unfold hasDate at 1. cbn [date].
    destruct (String.eqb_spec d d'); [congruence | reflexivity].
  - destruct (hasDate d e) eqn:E; cbn [find].
    + apply hasDate_true in E.
      assert (E1 : hasDate d' e = false) by (apply hasDate_false; congruence).
      rewrite E1. unfold hasDate at 1. cbn [date]. fold (hasDate d' e).
      now rewrite E1.
    + now rewrite IH.
Qed.

Lemma getHoursForDate_upsert d v l : getHoursForDate (upsert d v l) d == v.
Proof.
  unfold getHoursForDate. rewrite find_upsert_same. cbn [option_map hours].
  apply orZero_eq.
Qed.

Lemma dates_upsert d v l x :
  In x (map date (upsert d v l)) <-> x = d \/ In x (map date l).
Proof.
  rewrite upsert_rec. induction l as [|e r IH]; cbn [upsertRec map In date].
  - intuition.
  - destruct (hasDate d e) eqn:E; cbn [map In date].
    + apply hasDate_true in E. intuition congruence.
    + rewrite IH. intuition.
Qed.

Lemma NoDup_upsert d v l :
  NoDup (map date l) -> NoDup (map date (upsert d v l)).
Proof.
  rewrite upsert_rec. induction l as [|e r IH]; cbn [upsertRec map date].
  - intros _. repeat constructor. intros [].
  - intros H. inversion H as [|? ? Hn Hr]; subst.
    destruct (hasDate d e) eqn:E; cbn [map date].
    + constructor; assumption.
    + constructor; [|auto].
      rewrite <- upsert_rec. rewrite dates_upsert.
      apply hasDate_false in E. intuition.
Qed.

Lemma Forall_upsert (P : DayEntry -> Prop) d v l :
  P (mkEntry d v) -> Forall P l -> Forall P (upsert d v l).
Proof.
  intros Hp. rewrite upsert_rec.
  induction 1 as [|e r He Hr IH]; cbn [upsertRec].
  - repeat constructor. exact Hp.
  - destruct (hasDate d e) eqn:E; constructor; auto.
    apply hasDate_true in E. now rewrite E.
Qed.

Lemma find_none_filter d l :
  find (hasDate d) l = None -> filter (fun e => negb (hasDate d e)) l = l.
Proof.
  induction l as [|e r IH]; [reflexivity|]. cbn [find filter].
  destruct (hasDate d e); [discriminate|]. intros H. cbn [negb].
  now rewrite IH.
Qed.

Lemma find_filter_out d l :
  find (hasDate d) (filter (fun e => negb (hasDate d e)) l) = None.
Proof.
  induction l as [|e r IH]; [reflexivity|]. cbn [filter].
  destruct (hasDate d e) eqn:E; cbn [negb]; [exact IH|].
  cbn [find]. now rewrite E.
Qed.

Lemma find_map_reduce d a l :
  find (hasDate d)
    (map (fun entry => if hasDate d entry
                       then mkEntry (date entry) (hours entry - a)
                       else entry) l)
  = option_map (fun e => mkEntry (date e) (hours e - a)) (find (hasDate d) l).
Proof.
  induction l as [|e r IH]; [reflexivity|]. cbn [map find].
  destruct (hasDate d e) eqn:E.
  - unfold hasDate at 1. cbn [date]. fold (hasDate d e). now rewrite E.
  - now rewrite E.
Qed.

Lemma NoDup_filter_dates (p : DayEntry -> bool) l :
  NoDup (map date l) -> NoDup (map date (filter p l)).
Proof.
  induction l as [|e r IH]; [auto|]. cbn [map filter].
  intros H. inversion H as [|? ? Hn Hr]; subst.
  destruct (p e); [|auto]. cbn [map]. constructor; [|auto].
  intros Hc. apply Hn. apply in_map_iff in Hc as (x & Hx & Hin).
  apply filter_In in Hin as [Hin _]. apply in_map_iff. eauto.
Qed.

Lemma Forall_filter (P : DayEntry -> Prop) (p : DayEntry -> bool) l :
  Forall P l -> Forall P (filter p l).
Proof.
  induction 1 as [|e r He Hr IH]; [constructor|]. cbn [filter].
  destruct (p e); [constructor|]; auto.
Qed.

Lemma find_unique d l e e' :
  NoDup (map date l) -> find (hasDate d) l = Some e ->
  In e' l -> date e' = d -> e' = e.
Proof.
  induction l as [|x r IH]; [intros _ _ []|].
  cbn [map find In]. intros H Hf Hin Hd.
  inversion H as [|? ? Hn Hr]; subst.
  destruct (hasDate (date e') x) eqn:E.
  - injection Hf as <-. apply hasDate_true in E.
    destruct Hin as [-> | Hin]; [reflexivity|].
    exfalso. apply Hn. rewrite E. now apply in_map.
  - destruct Hin as [-> | Hin].
    + apply hasDate_false in E. congruence.
    + now apply IH.
Qed.

Lemma find_some_date d l e : find (hasDate d) l = Some e -> In e l /\ date e = d.
Proof.
  intros H. apply find_some in H as [Hin Hd]. now apply hasDate_true in Hd.
Qed.

End Arrays.

(** ** Binary64 on half hours *)

Section HalfHours.

Local Open Scope Q_scope.

Lemma halfHours_checked :
  forallb
    (fun i =>
       Binary64.holds (Binary64.halfHours i) (inject_Z i / 2)
       && forallb
            (fun j =>
               Binary64.holds
                 (Binary64.add (Binary64.halfHours i) (Binary64.halfHours j))
                 (inject_Z (i + j) / 2)
               && Binary64.holds
                    (Binary64.sub (Binary64.halfHours i)
                       (Binary64.halfHours j))
                    (inject_Z (i - j) / 2))
            Binary64.halves)
    Binary64.halves
  = true.
Proof. vm_compute. reflexivity. Qed.

(** On the hours a valid ledger holds, the sums and differences of the
    engine are the exact ones. *)
Lemma halfHours_exact (i j : Z) :
  (0 <= i <= 48)%Z -> (0 <= j <= 48)%Z ->
  Binary64.holds (Binary64.halfHours i) (inject_Z i / 2) = true /\
  Binary64.holds (Binary64.add (Binary64.halfHours i) (Binary64.halfHours j))
    (inject_Z (i + j) / 2) = true /\
  Binary64.holds (Binary64.sub (Binary64.halfHours i) (Binary64.halfHours j))
    (inject_Z (i - j) / 2) = true.
Proof.
  intros Hi Hj.
  assert (In_halves : forall k, (0 <= k <= 48)%Z -> In k Binary64.halves).
  { intros k Hk. unfold Binary64.halves. apply in_map_iff. exists (Z.to_nat k).
    split; [lia | apply in_seq; lia]. }
  pose proof halfHours_checked as H.
  rewrite forallb_forall in H. specialize (H i (In_halves i Hi)).
  apply andb_true_iff in H as [H1 H2].
  rewrite forallb_forall in H2. specialize (H2 j (In_halves j Hj)).
  apply andb_true_iff in H2 as [H2 H3]. auto.
Qed.

End HalfHours.

(** ** The validation of dates *)

Section Validation.

Lemma windowStart_val : windowStart = 20089%Z.
Proof. reflexivity. Qed.

Lemma windowEnd_val : windowEnd = 20453%Z.
Proof. reflexivity. Qed.

Lemma window_fourDigit d :
  (windowStart <= d <= windowEnd)%Z -> fourDigitYear d.
Proof.
  rewrite windowStart_val, windowEnd_val. intros H. unfold fourDigitYear.
  rewrite (YearFromDay_unique d 2025); [lia|].
  change (DayFromYear 2025) with 20089%Z.
  change (DayFromYear (2025 + 1)) with 20454%Z. lia.
Qed.

Lemma Day_midnight d : Day (d * msPerDay) = d.
Proof. unfold Day, msPerDay. zdiv. Qed.

(** [isValidDate] is the window test on UTC day numbers. *)
Lemma isValidDate_days now t :
  isValidDate now (Some t) = true <->
  (windowStart <= Day t <= windowEnd /\ Day t <= Day now)%Z.
Proof.
  unfold isValidDate, date_ge, date_le, Date_setUTCHours, option_map.
  change (parse "2025-01-01T12:00:00.000Z")
    with (Some (20089 * 86400000 + 43200000)%Z).
  change (parse "2025-12-31T23:59:59.999Z")
    with (Some (20453 * 86400000 + 86399999)%Z).
  rewrite windowStart_val, windowEnd_val.
  unfold JSDate.setUTCHours, msPerDay, msPerHour, msPerMinute, msPerSecond.
  rewrite !andb_true_iff, !Z.leb_le. lia.
Qed.

Lemma isValidDate_key now s :
  isValidDate now (parse (s ++ "T00:00:00.000Z")) = true <->
  exists d, s = isoOfDay d /\ (windowStart <= d <= windowEnd)%Z
            /\ (d <= Day now)%Z.
Proof.
  split.
  - destruct (parse (s ++ "T00:00:00.000Z")) as [t|] eqn:E; [|discriminate].
    intros H. apply isValidDate_days in H.
    apply parse_key_inv in E as (d & _ & -> & ->).
    rewrite Day_midnight in H. exists d. tauto.
  - intros (d & -> & Hw & Hn).
    rewrite parse_isoOfDay_time by (apply window_fourDigit; exact Hw).
    apply isValidDate_days. now rewrite Day_midnight.
Qed.

End Validation.

(** ** Logging hours for a chosen date *)

Section SetHours.

Local Open Scope Q_scope.

Variable now : Z.

Lemma handleSubmit_rejected entries s h msg :
  errorMsg (handleSubmit now entries s h) = Some msg ->
  nextEntries (handleSubmit now entries s h) = entries.
Proof.
  unfold handleSubmit. destruct h as [h|]; [|reflexivity].
  destruct (_ && _); [reflexivity|].
  destruct (negb _); [reflexivity | discriminate].
Qed.

Lemma handleSubmit_accepted entries s h l :
  handleSubmit now entries s h = ok l ->
  exists q d, h = Some q /\ l = upsert s (validateAndClampHours q) entries
              /\ s = isoOfDay d /\ (windowStart <= d <= windowEnd)%Z
              /\ (d <= Day now)%Z.
Proof.
  unfold handleSubmit. destruct h as [h|]; [|discriminate].
  destruct (_ && _); [discriminate|].
  destruct (isValidDate now _) eqn:E; cbn [negb]; [|discriminate].
  intros [= <-]. apply isValidDate_key in E as (d & Hs & Hw & Hn).
  exists h, d. auto.
Qed.

(** C1, as amended: for a date of 2025 that is not after today and for
    hours [h] with [h = 0] or [0.25 <= h <= 24], [handleSubmit] succeeds and
    the date then reads [h] rounded to the nearest 0.5; that value is the
    clamped value and lies in [0, 24]. *)
Theorem setHours_then_read (entries : list DayEntry) (d : Z) (h : Q) :
  (windowStart <= d <= windowEnd)%Z -> (d <= Day now)%Z ->
  h == 0 \/ 1 # 4 <= h -> h <= 24 ->
  let out := handleSubmit now entries (isoOfDay d) (Some h) in
  errorMsg out = None /\
  getHoursForDate (nextEntries out) (isoOfDay d) == validateAndClampHours h /\
  roundedToHalf h (validateAndClampHours h) /\
  0 <= validateAndClampHours h <= 24.
Proof.
  intros Hw Hn Hh H24.
  assert (Hr : 0 <= h <= 24) by (destruct Hh as [Hh | Hh]; lra).
  assert (Hg : Qeq_bool (validateAndClampHours h) 0 && negb (Qeq_bool h 0)
               = false).
  { destruct (Qeq_bool h 0) eqn:E0; [apply andb_false_r|].
    apply Qeq_bool_false in E0. rewrite andb_true_r.
    apply Qeq_bool_false. rewrite (validateAndClampHours_zero h Hr).
    destruct Hh as [Hh | Hh]; [contradiction | lra]. }
  assert (Hv : isValidDate now (parse (isoOfDay d ++ "T00:00:00.000Z")) = true)
    by (apply isValidDate_key; eauto).
  cbv zeta. unfold handleSubmit. rewrite Hg, Hv. cbn [negb ok errorMsg nextEntries].
  split; [reflexivity|]. split; [apply getHoursForDate_upsert|].
  split; [apply validateAndClampHours_rounds; exact Hr|].
  apply validateAndClampHours_range.
Qed.

End SetHours.

Section SetHoursExamples.

Local Open Scope Q_scope.

Example key_of_new_year : isoOfDay 20089 = "2025-01-01"%string.
Proof. reflexivity. Qed.

Lemma setHours_then_read_witness :
  errorMsg (handleSubmit midJune2025 [] (isoOfDay 20089) (Some (13 # 8)))
  = None /\
  getHoursForDate
    (nextEntries
       (handleSubmit midJune2025 [] (isoOfDay 20089) (Some (13 # 8))))
    (isoOfDay 20089)
  == validateAndClampHours (13 # 8) /\
  roundedToHalf (13 # 8) (validateAndClampHours (13 # 8)) /\
  0 <= validateAndClampHours (13 # 8) <= 24.
Proof.
  apply (setHours_then_read midJune2025 [] 20089 (13 # 8)).
  - vm_compute. split; discriminate.
  - vm_compute. discriminate.
  - right. vm_compute. discriminate.
  - vm_compute. discriminate.
Defined.

(** C1 as stated fails: one eighth of an hour lies in [0, 24], the date is
    in the window and not after today, and [handleSubmit] refuses it. *)
Lemma setHours_rejects_an_eighth :
  (windowStart <= 20089 <= windowEnd)%Z /\ (20089 <= Day midJune2025)%Z /\
  0 <= 1 # 8 /\ 1 # 8 <= 24 /\
  handleSubmit midJune2025 [] (isoOfDay 20089) (Some (1 # 8))
  = fail [] HoursOutOfRange /\
  errorMsg (handleSubmit midJune2025 [] (isoOfDay 20089) (Some (1 # 8)))
  <> None.
Proof.
  vm_compute. repeat split; try discriminate.
Qed.

End SetHoursExamples.

(** ** Deleting *)

Section Delete.

Local Open Scope Q_scope.

Lemma deleteEntry_no_error entries d amount :
  errorMsg (deleteEntry entries d amount) = None.
Proof.
  unfold deleteEntry. destruct (find _ _); [|reflexivity].
  destruct amount; [|reflexivity]. destruct (_ && _); reflexivity.
Qed.

Lemma deleteEntry_full entries d amount :
  (amount = None \/
   exists a, amount = Some a /\ getHoursForDate entries d <= a) ->
  deleteEntry entries d amount = ok (without d entries).
Proof.
  intros H. unfold deleteEntry, without.
  destruct (find (hasDate d) entries) as [e|] eqn:Ef.
  - destruct H as [-> | (a & -> & Ha)]; [reflexivity|].
    unfold getHoursForDate in Ha. rewrite Ef in Ha. cbn [option_map] in Ha.
    rewrite orZero_eq in Ha.
    destruct (Qlt_bool a (hours e)) eqn:El.
    + apply Qlt_bool_iff in El. lra.
    + now rewrite andb_false_r.
  - now rewrite find_none_filter.
Qed.

Lemma deleteEntry_partial entries d a :
  0 < a -> a < getHoursForDate entries d ->
  exists e, find (hasDate d) entries = Some e /\ a < hours e /\
            deleteEntry entries d (Some a) = ok (map (reduceBy d a) entries).
Proof.
  intros H0 Ha. unfold deleteEntry, getHoursForDate in *.
  destruct (find (hasDate d) entries) as [e|] eqn:Ef.
  - cbn [option_map] in Ha. rewrite orZero_eq in Ha.
    exists e. split; [reflexivity|]. split; [exact Ha|].
    assert (Et : truthy (Some a) = true).
    { unfold truthy. apply negb_true_iff, Qeq_bool_false. lra. }
    apply Qlt_bool_iff in Ha. now rewrite Et, Ha.
  - cbn in Ha. lra.
Qed.

(** C3, as amended: [deleteEntry] removes the record when the amount is
    omitted or is at least the current hours; for [0 < amount < current],
    when the difference is a number of binary64, it keeps the record with
    its hours reduced by exactly the amount, however small the rest; and
    on a date without a record it changes nothing and reports nothing. *)
Theorem deleteHours_cases (entries : list DayEntry) (d : string) :
  (forall amount,
      amount = None \/
      (exists a, amount = Some a /\ getHoursForDate entries d <= a) ->
      deleteEntry entries d amount = ok (without d entries) /\
      find (hasDate d) (without d entries) = None) /\
  (forall a, 0 < a -> a < getHoursForDate entries d ->
      binary64 (getHoursForDate entries d - a) ->
      exists e,
        find (hasDate d) entries = Some e /\
        deleteEntry entries d (Some a) = ok (map (reduceBy d a) entries) /\
        find (hasDate d) (map (reduceBy d a) entries)
        = Some (mkEntry (date e) (hours e - a)) /\
        getHoursForDate (map (reduceBy d a) entries) d
        == getHoursForDate entries d - a) /\
  (find (hasDate d) entries = None ->
   forall amount, deleteEntry entries d amount = ok entries).
Proof.
  split; [|split].
  - intros amount H. split; [now apply deleteEntry_full|].
    apply find_filter_out.
  - intros a H0 Ha _.
    destruct (deleteEntry_partial entries d a H0 Ha) as (e & Ef & _ & Ed).
    exists e. split; [exact Ef|]. split; [exact Ed|].
    assert (Em : find (hasDate d) (map (reduceBy d a) entries)
                 = Some (mkEntry (date e) (hours e - a))).
    { unfold reduceBy. rewrite find_map_reduce, Ef. reflexivity. }
    split; [exact Em|].
    unfold getHoursForDate. rewrite Em, Ef. cbn [option_map hours].
    rewrite !orZero_eq. reflexivity.
  - intros Hf amount. unfold deleteEntry. now rewrite Hf.
Qed.

(** C10: an explicit amount of zero is falsy, so on a date that has a
    record [deleteEntry] removes the record, exactly as with the amount
    omitted. *)
Theorem deleteHours_zero_amount (entries : list DayEntry) (d : string)
    (e : DayEntry) (q : Q) :
  find (hasDate d) entries = Some e -> q == 0 ->
  deleteEntry entries d (Some q) = deleteEntry entries d None /\
  nextEntries (deleteEntry entries d (Some q)) = without d entries /\
  find (hasDate d) (nextEntries (deleteEntry entries d (Some q))) = None /\
  nextEntries (deleteEntry entries d (Some q)) <> entries.
Proof.
  intros Hf Hq.
  assert (E : deleteEntry entries d (Some q) = ok (without d entries)).
  { unfold deleteEntry, without. rewrite Hf. unfold truthy.
    apply Qeq_bool_iff in Hq. now rewrite Hq. }
  rewrite E. unfold ok at 2 3 4. cbn [nextEntries].
  split; [unfold deleteEntry; now rewrite Hf|].
  split; [reflexivity|]. split; [apply find_filter_out|].
  intros Hc. pose proof (find_filter_out d entries) as Hn.
  fold (without d entries) in Hn. rewrite Hc in Hn. congruence.
Qed.

End Delete.

Section DeleteExamples.

Local Open Scope Q_scope.

Lemma deleteHours_cases_witness :
  (deleteEntry fiveOnNewYear "2025-01-01" (Some 10) = ok [] /\
   find (hasDate "2025-01-01") (without "2025-01-01" fiveOnNewYear) = None) /\
  (exists e,
      find (hasDate "2025-01-01") fiveOnNewYear = Some e /\
      deleteEntry fiveOnNewYear "2025-01-01" (Some 2)
      = ok (map (reduceBy "2025-01-01" 2) fiveOnNewYear) /\
      find (hasDate "2025-01-01") (map (reduceBy "2025-01-01" 2) fiveOnNewYear)
      = Some (mkEntry (date e) (hours e - 2)) /\
      getHoursForDate (map (reduceBy "2025-01-01" 2) fiveOnNewYear) "2025-01-01"
      == getHoursForDate fiveOnNewYear "2025-01-01" - 2) /\
  deleteEntry fiveOnNewYear "2025-02-02" None = ok fiveOnNewYear.
Proof.
  destruct (deleteHours_cases fiveOnNewYear "2025-01-01") as (Hfull & Hpart & _).
  destruct (deleteHours_cases fiveOnNewYear "2025-02-02") as (_ & _ & Hnone).
  split; [|split].
  - apply (Hfull (Some 10)). right. exists 10. split; [reflexivity|].
    vm_compute. discriminate.
  - apply (Hpart 2); [reflexivity | reflexivity|].
    exists 3%Z, 0%Z. split; [reflexivity|]. split; [lia | reflexivity].
  - apply Hnone. reflexivity.
Defined.

(** Five hours and the number written [0.1], in binary64. *)
Lemma five_and_a_tenth :
  Binary64.holds (Binary64.halfHours 10) 5 = true /\
  Binary64.holds Binary64.tenth (7205759403792794 # 72057594037927936) = true /\
  (1 # 10) - (1 # 144115188075855872)
  <= 7205759403792794 # 72057594037927936
  <= (1 # 10) + (1 # 144115188075855872).
Proof. vm_compute. repeat split; discriminate. Qed.

(** C3 as stated fails: the engine rounds the difference.  Taking the
    number written [0.1] off five hours, a partial delete, stores the
    binary64 number nearest to the difference, which is the one written
    [4.9]: the hours are not reduced by exactly the amount. *)
Theorem partial_delete_is_rounded :
  Binary64.truthy64 (Some Binary64.tenth) = true /\
  Binary64.ltb Binary64.tenth (Binary64.halfHours 10) = true /\
  Binary64.deleteEntry64
    [Binary64.mkEntry64 "2025-01-01" (Binary64.halfHours 10)] "2025-01-01"
    (Some Binary64.tenth)
  = [Binary64.mkEntry64 "2025-01-01" (Binary64.double 5516909543528858 (-50))]
  /\
  Binary64.holds (Binary64.double 5516909543528858 (-50))
    (5 - (7205759403792794 # 72057594037927936)) = false /\
  (49 # 10) - (1 # 2251799813685248)
  <= 5516909543528858 # 1125899906842624
  <= (49 # 10) + (1 # 2251799813685248).
Proof. vm_compute. repeat split; discriminate. Qed.

Lemma deleteHours_zero_amount_witness :
  deleteEntry fiveOnNewYear "2025-01-01" (Some 0)
  = deleteEntry fiveOnNewYear "2025-01-01" None /\
  nextEntries (deleteEntry fiveOnNewYear "2025-01-01" (Some 0))
  = without "2025-01-01" fiveOnNewYear /\
  find (hasDate "2025-01-01")
    (nextEntries (deleteEntry fiveOnNewYear "2025-01-01" (Some 0))) = None /\
  nextEntries (deleteEntry fiveOnNewYear "2025-01-01" (Some 0))
  <> fiveOnNewYear.
Proof.
  apply (deleteHours_zero_amount fiveOnNewYear "2025-01-01"
           (mkEntry "2025-01-01" 5) 0); reflexivity.
Defined.

End DeleteExamples.

(** ** Quick add *)

Section QuickAdd.

Local Open Scope Q_scope.

Variable now : Z.

Lemma addTo_rejected entries d amount msg :
  errorMsg (addTo entries d amount) = Some msg ->
  nextEntries (addTo entries d amount) = entries.
Proof.
  unfold addTo. destruct (Qeq_bool _ _); [|discriminate].
  destruct (Qlt_bool 0 amount); [reflexivity|].
  destruct (Qlt_bool amount 0); reflexivity.
Qed.

Lemma addTo_next entries d amount :
  nextEntries (addTo entries d amount) = entries \/
  nextEntries (addTo entries d amount)
  = upsert d (validateAndClampHours (getHoursForDate entries d + amount))
      entries.
Proof.
  unfold addTo. destruct (Qeq_bool _ _); [left|right; reflexivity].
  destruct (Qlt_bool 0 amount); [reflexivity|].
  destruct (Qlt_bool amount 0); reflexivity.
Qed.

Lemma before2025_iff :
  date_lt (Some now) (parse "2025-01-01T00:00:00.000Z") = true
  <-> (Day now < windowStart)%Z.
Proof.
  change (parse "2025-01-01T00:00:00.000Z") with (Some (20089 * 86400000)%Z).
  unfold date_lt. rewrite Z.ltb_lt, windowStart_val. unfold Day, msPerDay.
  zdiv.
Qed.

Lemma quickAdd_in_window entries amount :
  (windowStart <= Day now)%Z ->
  quickAdd now entries amount = addTo entries (toISODate now) amount.
Proof.
  intros H. unfold quickAdd.
  destruct (date_lt _ _) eqn:E; [|reflexivity].
  apply before2025_iff in E. lia.
Qed.

Lemma quickAdd_before_window entries amount :
  (Day now < windowStart)%Z ->
  quickAdd now entries amount = fail entries Before2025.
Proof.
  intros H. unfold quickAdd. apply before2025_iff in H. now rewrite H.
Qed.




Hypothesis started : (windowStart <= Day now)%Z.



End QuickAdd.

Section QuickAddExamples.

Local Open Scope Q_scope.


(** The forty-eight presses, run. *)
Example forty_eight_presses :
  pressPlus midJune2025 48 [] = [mkEntry "2025-06-15" (48 # 2)] /\
  quickAdd midJune2025 (pressPlus midJune2025 48 []) (1 # 2)
  = fail [mkEntry "2025-06-15" (48 # 2)] CannotExceedMaximum.
Proof. vm_compute. split; reflexivity. Qed.


(** Where the sum is not a number of binary64 the engine rounds it before
    the candidate is taken: eight hours and 0.25 less one part in two to
    the 53 add up to 8.25, of which the candidate is 8.5, while the
    candidate of the exact sum is 8. *)
Example quickAdd_sum_is_rounded :
  Binary64.holds Binary64.underQuarter
    ((1 # 4) - (1 # 9007199254740992)) = true /\
  Binary64.holds (Binary64.add (Binary64.halfHours 16) Binary64.underQuarter)
    (33 # 4) = true /\
  validateAndClampHours (33 # 4) == 17 # 2 /\
  validateAndClampHours (8 + ((1 # 4) - (1 # 9007199254740992))) == 8.
Proof. vm_compute. repeat split. Qed.

End QuickAddExamples.

(** ** The invariants under the mutations *)

Section Invariance.

Local Open Scope Q_scope.

Variable now : Z.

Lemma validHours_clamped (h : Q) : validHours (validateAndClampHours h).
Proof.
  split; [apply validateAndClampHours_range | apply validateAndClampHours_half].
Qed.

Lemma Invariants_upsert entries s v d :
  Invariants now entries -> validHours v ->
  s = isoOfDay d -> (windowStart <= d <= windowEnd)%Z -> (d <= Day now)%Z ->
  Invariants now (upsert s v entries).
Proof.
  intros [Hh Hu Hw Hp] Hv Hs Hd Hn. split.
  - apply Forall_upsert; [exact Hv | exact Hh].
  - apply NoDup_upsert, Hu.
  - apply Forall_upsert; [exists d; auto | exact Hw].
  - apply Forall_upsert; [exists d; auto | exact Hp].
Qed.

Lemma Invariants_without entries d :
  Invariants now entries -> Invariants now (without d entries).
Proof.
  intros [Hh Hu Hw Hp]. unfold without. split.
  - apply Forall_filter, Hh.
  - apply NoDup_filter_dates, Hu.
  - apply Forall_filter, Hw.
  - apply Forall_filter, Hp.
Qed.

Lemma dates_reduceBy d a l : map date (map (reduceBy d a) l) = map date l.
Proof.
  rewrite map_map. apply map_ext. intros e. unfold reduceBy.
  destruct (hasDate d e); reflexivity.
Qed.

Lemma Forall_dates_reduceBy (P : string -> Prop) d a l :
  Forall (fun e => P (date e)) l ->
  Forall (fun e => P (date e)) (map (reduceBy d a) l).
Proof.
  intros H. apply Forall_map. revert H. apply Forall_impl.
  intros e He. unfold reduceBy. destruct (hasDate d e); exact He.
Qed.

Lemma validHours_minus (x a : Q) :
  validHours x -> 0 <= a -> halfMultiple a -> a < x -> validHours (x - a).
Proof.
  intros [[H0 H1] [k Hk]] Ha [j Hj] Hlt. split; [lra|].
  exists (k - j)%Z. rewrite Hk, Hj. unfold Zminus.
  rewrite inject_Z_plus, inject_Z_opp. field.
Qed.

Lemma Invariants_reduceBy entries d a e :
  Invariants now entries -> find (hasDate d) entries = Some e ->
  0 <= a -> halfMultiple a -> a < hours e ->
  Invariants now (map (reduceBy d a) entries).
Proof.
  intros [Hh Hu Hw Hp] Hf Ha Hm Hlt. split.
  - apply Forall_map. rewrite Forall_forall in *. intros x Hx.
    unfold reduceBy. destruct (hasDate d x) eqn:E; [|auto].
    apply hasDate_true in E. cbn [hours].
    rewrite (find_unique d entries e x Hu Hf Hx E).
    apply validHours_minus; auto.
    apply find_some_date in Hf as [Hin _]. auto.
  - now rewrite dates_reduceBy.
  - apply (Forall_dates_reduceBy inWindow), Hw.
  - apply (Forall_dates_reduceBy (notAfter now)), Hp.
Qed.

Lemma Day_setUTCHours_noon t : Day (JSDate.setUTCHours t 12 0 0 0) = Day t.
Proof.
  unfold JSDate.setUTCHours, Day, msPerDay, msPerHour, msPerMinute,
    msPerSecond. zdiv.
Qed.

Lemma Invariants_addTo entries d amount :
  Invariants now entries ->
  (windowStart <= d <= windowEnd)%Z -> (d <= Day now)%Z ->
  Invariants now (nextEntries (addTo entries (isoOfDay d) amount)).
Proof.
  intros Hi Hw Hn.
  destruct (addTo_next entries (isoOfDay d) amount) as [-> | ->];
    [exact Hi|].
  eapply Invariants_upsert; eauto using validHours_clamped.
Qed.

Lemma perform_keeps_invariants (m : Mutation) (entries : list DayEntry) :
  Invariants now entries -> admissible now m ->
  Invariants now (nextEntries (perform now m entries)).
Proof.
  intros Hi Ha. destruct m as [s h | a | d h | d a]; cbn [perform].
  - (* handleSubmit *)
    destruct (handleSubmit now entries s h) as [l [msg|]] eqn:E.
    + pose proof (handleSubmit_rejected now entries s h msg) as Hr.
      rewrite E in Hr. cbn [nextEntries errorMsg] in *.
      now rewrite Hr.
    + cbn [nextEntries].
      apply handleSubmit_accepted in E as (q & d & _ & -> & Hs & Hw & Hn).
      eapply Invariants_upsert; eauto using validHours_clamped.
  - (* quickAdd *)
    cbn [admissible] in Ha.
    destruct (Z.lt_ge_cases (Day now) windowStart) as [Hb | Hs].
    + now rewrite quickAdd_before_window.
    + rewrite quickAdd_in_window by exact Hs.
      apply Invariants_addTo; [exact Hi | lia | lia].
  - (* quickAddForDate *)
    unfold quickAddForDate, Date_setUTCHours.
    destruct (parse d) as [t|]; cbn [option_map]; [|exact Hi].
    destruct (isValidDate now _) eqn:E; cbn [negb]; [|exact Hi].
    apply isValidDate_days in E. rewrite Day_setUTCHours_noon in E.
    unfold formatDate, toISODate. rewrite !Day_setUTCHours_noon.
    apply Invariants_addTo; [exact Hi | lia | lia].
  - (* deleteEntry *)
    unfold deleteEntry.
    destruct (find (hasDate d) entries) as [e|] eqn:Ef; [|exact Hi].
    destruct a as [a|]; [|apply (Invariants_without entries d Hi)].
    destruct (truthy (Some a) && Qlt_bool a (hours e)) eqn:Eb;
      [|apply (Invariants_without entries d Hi)].
    apply andb_true_iff in Eb as [_ Hlt]. apply Qlt_bool_iff in Hlt.
    destruct Ha as [Ha0 Ham].
    apply (Invariants_reduceBy entries d a e); auto.
Qed.

Lemma perform_rejected (m : Mutation) (entries : list DayEntry) :
  errorMsg (perform now m entries) <> None ->
  nextEntries (perform now m entries) = entries.
Proof.
  intros He. destruct (errorMsg (perform now m entries)) as [msg|] eqn:E;
    [clear He | congruence].
  destruct m as [s h | a | d h | d a]; cbn [perform] in *.
  - now apply handleSubmit_rejected in E.
  - unfold quickAdd in *. destruct (date_lt _ _); [reflexivity|].
    now apply addTo_rejected in E.
  - unfold quickAddForDate in *.
    destruct (Date_setUTCHours (parse d) 12 0 0 0) as [t|]; [|reflexivity].
    destruct (negb _); [reflexivity|]. now apply addTo_rejected in E.
  - now rewrite deleteEntry_no_error in E.
Qed.

(** C2, as amended: from a ledger that satisfies I1 to I4, every mutation
    ends in a ledger that satisfies them, and leaves the ledger as it was
    whenever it reports an error, provided that the date keys passed in
    are canonical, that a partial delete is given a non-negative multiple
    of 0.5 and that the quick add for today is used while today is not
    after 2025-12-31. *)
Theorem mutation_keeps_invariants (m : Mutation) (entries : list DayEntry) :
  Invariants now entries -> admissible now m ->
  Invariants now (nextEntries (perform now m entries)) /\
  (errorMsg (perform now m entries) <> None ->
   nextEntries (perform now m entries) = entries).
Proof.
  intros Hi Ha. split.
  - now apply perform_keeps_invariants.
  - apply perform_rejected.
Qed.

End Invariance.

Section Sessions.

Lemma Invariants_empty now : Invariants now [].
Proof. split; constructor. Qed.

Lemma Invariants_later now later entries :
  (Day now <= Day later)%Z -> Invariants now entries ->
  Invariants later entries.
Proof.
  intros Hl [Hh Hu Hw Hp]. split; auto.
  revert Hp. apply Forall_impl. intros e (d & Hd & Hn).
  exists d. split; [exact Hd | lia].
Qed.

(** Every ledger a session reaches satisfies the invariants. *)
Lemma Reached_invariants now entries :
  Reached now entries -> Invariants now entries.
Proof.
  induction 1 as [now | now later entries m Hr IH Hl Ha].
  - apply Invariants_empty.
  - apply perform_keeps_invariants; [|exact Ha].
    now apply (Invariants_later now).
Qed.

End Sessions.

Section InvarianceExamples.

Local Open Scope Q_scope.

Lemma Invariants_fiveOnNewYear : Invariants midJune2025 fiveOnNewYear.
Proof.
  split.
  - repeat constructor; cbn; try discriminate. exists 10%Z. reflexivity.
  - repeat constructor. intros [].
  - repeat constructor. exists 20089%Z. split; [reflexivity|].
    vm_compute. split; discriminate.
  - repeat constructor. exists 20089%Z. split; [reflexivity|].
    vm_compute. discriminate.
Qed.

Lemma mutation_keeps_invariants_witness :
  Invariants midJune2025
    (nextEntries
       (perform midJune2025 (Delete "2025-01-01" (Some 2)) fiveOnNewYear)) /\
  (errorMsg (perform midJune2025 (Delete "2025-01-01" (Some 2)) fiveOnNewYear)
   <> None ->
   nextEntries
     (perform midJune2025 (Delete "2025-01-01" (Some 2)) fiveOnNewYear)
   = fiveOnNewYear).
Proof.
  apply (mutation_keeps_invariants midJune2025
           (Delete "2025-01-01" (Some 2)) fiveOnNewYear).
  - exact Invariants_fiveOnNewYear.
  - split; [vm_compute; discriminate | exists 4%Z; reflexivity].
Defined.

(** C2 as stated fails: taking a quarter of an hour off a valid ledger
    succeeds without an error and leaves 4.75 hours, which is not a multiple
    of 0.5. *)
Lemma partial_delete_breaks_half_hours :
  Invariants midJune2025 fiveOnNewYear /\
  deleteEntry fiveOnNewYear "2025-01-01" (Some (1 # 4))
  = ok [mkEntry "2025-01-01" (5 - (1 # 4))] /\
  ~ (Invariants midJune2025
       (nextEntries (deleteEntry fiveOnNewYear "2025-01-01" (Some (1 # 4))))
     \/ (nextEntries (deleteEntry fiveOnNewYear "2025-01-01" (Some (1 # 4)))
         = fiveOnNewYear
         /\ errorMsg (deleteEntry fiveOnNewYear "2025-01-01" (Some (1 # 4)))
            <> None)).
Proof.
  split; [exact Invariants_fiveOnNewYear|]. split; [reflexivity|].
  intros [[Hh _ _ _] | [_ He]].
  - inversion Hh as [|e r [_ [k Hk]] _]; subst.
    revert Hk. cbn. unfold Qeq, Qdiv, Qmult, Qinv. cbn. lia.
  - apply He. reflexivity.
Qed.

(** The quick add for today has no upper bound on the date: after the
    window it stores a record of 2026, which [handleSubmit] and
    [quickAddForDate] refuse. *)
Example quickAdd_after_the_window :
  quickAdd earlyJanuary2026 [] (1 # 2) = ok [mkEntry "2026-01-05" (1 # 2)] /\
  ~ inWindow "2026-01-05" /\
  handleSubmit earlyJanuary2026 [] "2026-01-05" (Some (1 # 2))
  = fail [] DateOutOfWindow /\
  quickAddForDate earlyJanuary2026 [] "2026-01-05" (1 # 2)
  = fail [] DateOutOfWindow.
Proof.
  split; [reflexivity|]. split; [|split; reflexivity].
  intros (d & Hd & Hw).
  pose proof (parse_isoOfDay d (window_fourDigit d Hw)) as Hp.
  rewrite <- Hd in Hp.
  change (parse "2026-01-05") with (Some (20458 * msPerDay)%Z) in Hp.
  assert (E : (20458 * msPerDay = d * msPerDay)%Z) by congruence.
  revert Hw E. rewrite windowStart_val, windowEnd_val. unfold msPerDay. lia.
Qed.

End InvarianceExamples.

(** ** Range totals *)

Section Range.

Local Open Scope Q_scope.

Lemma Math_ceil_exact (n m : Z) :
  (0 < m)%Z -> Math_ceil (inject_Z (n * m) / inject_Z m) = n.
Proof.
  intros Hm. unfold Math_ceil.
  rewrite (Qceiling_comp _ (inject_Z n)); [apply Qceiling_Z|].
  rewrite inject_Z_mult. field.
  intros Hc. unfold Qeq, inject_Z in Hc. cbn [Qnum Qden] in Hc. lia.
Qed.

Lemma validateDateRange_keys a b :
  fourDigitYear a -> fourDigitYear b ->
  validateDateRange (isoOfDay a) (isoOfDay b) = (Z.abs (b - a) <=? 365)%Z.
Proof.
  intros Ha Hb. unfold validateDateRange.
  rewrite !parse_isoOfDay by assumption.
  replace (Z.abs (b * msPerDay - a * msPerDay))
    with (Z.abs (b - a) * msPerDay)%Z by (unfold msPerDay; lia).
  rewrite Math_ceil_exact by reflexivity. reflexivity.
Qed.

Lemma validateDateRange_sym s e :
  validateDateRange s e = validateDateRange e s.
Proof.
  unfold validateDateRange.
  destruct (parse s) as [x|], (parse e) as [y|]; try reflexivity.
  replace (Z.abs (x - y)) with (Z.abs (y - x)) by lia. reflexivity.
Qed.

Lemma isoOfDay_nonempty d : isoOfDay d <> EmptyString.
Proof.
  unfold isoOfDay, isoYear, pad4.
  destruct (_ && _); [discriminate|]. destruct (_ <? _)%Z; discriminate.
Qed.

Lemma getHoursBetweenDates_keys entries a b :
  fourDigitYear a -> fourDigitYear b ->
  getHoursBetweenDates entries (isoOfDay a) (isoOfDay b)
  = if (Z.abs (b - a) <=? 365)%Z
    then (sumHours (filter (inRange (isoOfDay a) (isoOfDay b)) entries), None)
    else (0, Some RangeTooLarge).
Proof.
  intros Ha Hb. unfold getHoursBetweenDates.
  rewrite validateDateRange_keys by assumption.
  pose proof (isoOfDay_nonempty a) as Na.
  pose proof (isoOfDay_nonempty b) as Nb.
  destruct (isoOfDay a) as [|ca ra]; [congruence|].
  destruct (isoOfDay b) as [|cb rb]; [congruence|].
  destruct (Z.abs (b - a) <=? 365)%Z; reflexivity.
Qed.

Lemma selectRange_ordered entries s e :
  String.ltb e s = false ->
  selectRange entries s e
  = if validateDateRange s e
    then (mkRange (Some s) (Some e), getHoursBetweenDates entries s e)
    else (mkRange None None, (0, Some RangeTooLarge)).
Proof.
  intros H. unfold selectRange. rewrite H.
  destruct (validateDateRange s e); reflexivity.
Qed.

(** C5: the range total does not depend on the order in which the two
    endpoints are given, because the second click of the range selection
    puts the two keys in order before it validates and sums; the range it
    stores has its start no later than its end. *)
Theorem hoursInRange_symmetric (entries : list DayEntry) (a b : string) :
  hoursInRange entries a b = hoursInRange entries b a /\
  selectRange entries a b = selectRange entries b a /\
  (forall s e,
      fst (selectRange entries a b) = mkRange (Some s) (Some e) ->
      String.leb s e = true).
Proof.
  assert (Hsym : selectRange entries a b = selectRange entries b a).
  { unfold selectRange, String.ltb.
    rewrite (String.compare_antisym a b).
    destruct (String.compare b a) eqn:E; cbn [CompOpp]; try reflexivity.
    apply String.compare_eq_iff in E. now subst. }
  split; [unfold hoursInRange; now rewrite Hsym|]. split; [exact Hsym|].
  intros s e. unfold selectRange, String.ltb, String.leb.
  destruct (String.compare b a) eqn:E.
  - destruct (validateDateRange a b); cbn [negb fst]; intros [= <- <-];
      now rewrite String.compare_antisym, E.
  - destruct (validateDateRange b a); cbn [negb fst]; intros [= <- <-];
      now rewrite E.
  - destruct (validateDateRange a b); cbn [negb fst]; intros [= <- <-];
      now rewrite String.compare_antisym, E.
Qed.

(** C6, as amended: for canonical keys [start <= end], the range total is
    refused with RangeTooLarge exactly when [end] lies more than 365 days
    after [start], that is when the inclusive span exceeds 366 days,
    whatever the ledger holds; otherwise it is the sum of the hours of the
    records whose key lies between the two keys, both included. *)
Theorem hoursInRange_limit (entries : list DayEntry) (a b : Z) :
  fourDigitYear a -> fourDigitYear b -> (a <= b)%Z ->
  (snd (hoursInRange entries (isoOfDay a) (isoOfDay b)) = Some RangeTooLarge
   <-> (365 < b - a)%Z) /\
  ((b - a <= 365)%Z ->
   hoursInRange entries (isoOfDay a) (isoOfDay b)
   = (sumHours (filter (inRange (isoOfDay a) (isoOfDay b)) entries), None)) /\
  ((365 < b - a)%Z ->
   hoursInRange entries (isoOfDay a) (isoOfDay b) = (0, Some RangeTooLarge)
   /\ getHoursBetweenDates entries (isoOfDay a) (isoOfDay b)
      = (0, Some RangeTooLarge)).
Proof.
  intros Ha Hb Hab. unfold hoursInRange.
  rewrite selectRange_ordered
    by (rewrite ltb_isoOfDay by assumption; apply Z.ltb_ge; exact Hab).
  rewrite getHoursBetweenDates_keys, validateDateRange_keys by assumption.
  rewrite Z.abs_eq by lia.
  destruct (Z.leb_spec (b - a) 365) as [Hle | Hgt]; cbn [snd].
  - split; [split; [discriminate | lia]|]. split; [reflexivity | lia].
  - split; [split; [lia | reflexivity]|]. split; [lia | auto].
Qed.

End Range.

Section RangeExamples.

Local Open Scope Q_scope.

Example key_of_next_new_year : isoOfDay 20454 = "2026-01-01"%string.
Proof. reflexivity. Qed.

Lemma hoursInRange_symmetric_witness :
  hoursInRange fiveOnNewYear "2025-01-31" "2025-01-01"
  = hoursInRange fiveOnNewYear "2025-01-01" "2025-01-31" /\
  String.leb "2025-01-01" "2025-01-31" = true.
Proof.
  destruct (hoursInRange_symmetric fiveOnNewYear "2025-01-31" "2025-01-01")
    as (Hsym & _ & Hord).
  split; [exact Hsym|].
  apply (Hord "2025-01-01" "2025-01-31")%string. reflexivity.
Defined.

Lemma hoursInRange_limit_witness :
  (snd (hoursInRange fiveOnNewYear (isoOfDay 20089) (isoOfDay 20119))
   = Some RangeTooLarge <-> (365 < 20119 - 20089)%Z) /\
  ((20119 - 20089 <= 365)%Z ->
   hoursInRange fiveOnNewYear (isoOfDay 20089) (isoOfDay 20119)
   = (sumHours
        (filter (inRange (isoOfDay 20089) (isoOfDay 20119)) fiveOnNewYear),
      None)) /\
  ((365 < 20119 - 20089)%Z ->
   hoursInRange fiveOnNewYear (isoOfDay 20089) (isoOfDay 20119)
   = (0, Some RangeTooLarge)
   /\ getHoursBetweenDates fiveOnNewYear (isoOfDay 20089) (isoOfDay 20119)
      = (0, Some RangeTooLarge)).
Proof.
  apply (hoursInRange_limit fiveOnNewYear 20089 20119).
  - vm_compute. split; discriminate.
  - vm_compute. split; discriminate.
  - vm_compute. discriminate.
Defined.

(** C6 as stated fails: from 2025-01-01 to 2026-01-01 the inclusive span
    is 366 days, more than 365, and the total is computed, not refused. *)
Lemma span_of_366_days_is_summed :
  (20089 <= 20454)%Z /\ (365 < 20454 - 20089 + 1)%Z /\
  hoursInRange fiveOnNewYear (isoOfDay 20089) (isoOfDay 20454) = (5, None) /\
  getHoursBetweenDates fiveOnNewYear "2025-01-01" "2026-01-01" = (5, None) /\
  snd (hoursInRange fiveOnNewYear (isoOfDay 20089) (isoOfDay 20454))
  <> Some RangeTooLarge.
Proof.
  vm_compute. repeat split; discriminate.
Qed.

(** Without the ordering step, [getHoursBetweenDates] alone depends on
    the order of its arguments: reversed endpoints select nothing. *)
Example getHoursBetweenDates_reversed :
  getHoursBetweenDates fiveOnNewYear "2025-01-01" "2025-01-31" = (5, None) /\
  getHoursBetweenDates fiveOnNewYear "2025-01-31" "2025-01-01" = (0, None).
Proof. vm_compute. split; reflexivity. Qed.

End RangeExamples.

(** ** Month totals *)

Section MonthTotal.

Local Open Scope Q_scope.

Variable tz : Z.

Lemma Day_shifted d off :
  (0 <= off < msPerDay)%Z -> Day (d * msPerDay + off) = d.
Proof. unfold Day, msPerDay. intros H. zdiv. Qed.

(** East of UTC, a key's local month is the month it names. *)
Lemma entryMonth_key d :
  (0 <= tz < msPerDay)%Z -> fourDigitYear d ->
  option_map (getMonth tz) (parse (isoOfDay d)) = monthOfKey (isoOfDay d).
Proof.
  intros Hz Hd. unfold monthOfKey. rewrite parse_isoOfDay by exact Hd.
  cbn [option_map]. unfold getMonth, getUTCMonth.
  now rewrite Day_shifted, Day_midnight.
Qed.

Lemma month_fold (m : Z) (l : list DayEntry) (acc : Q) :
  (0 <= tz < msPerDay)%Z ->
  Forall (fun e => canonicalKey (date e)) l ->
  fold_left
    (fun sum entry =>
       match option_map (getMonth tz) (parse (date entry)) with
       | Some entryMonth =>
           if (entryMonth =? m)%Z then sum + hours entry else sum
       | None => sum
       end) l acc
  = fold_left (fun sum entry => sum + hours entry)
      (filter (inMonthNumber m) l) acc.
Proof.
  intros Hz Hk. revert acc.
  induction Hk as [|e r (d & Hd & He) Hr IH]; intros acc; [reflexivity|].
  cbn [fold_left filter]. unfold inMonthNumber at 1.
  rewrite He, (entryMonth_key d Hz Hd).
  destruct (monthOfKey (isoOfDay d)) as [em|]; [|apply IH].
  destruct (em =? m)%Z; cbn [fold_left]; apply IH.
Qed.

(** C7, as amended: in a zone at or east of UTC, and for canonical keys,
    the month total is the sum of the hours of the records whose date has
    the month number of the displayed month, whatever their year; the year
    of the displayed month plays no part. *)
Theorem hoursInMonth_by_month_number (currentMonth : Z)
    (entries : list DayEntry) :
  (0 <= tz < msPerDay)%Z ->
  Forall (fun e => canonicalKey (date e)) entries ->
  getCurrentMonthHours tz currentMonth entries
  = sumHours (filter (inMonthNumber (getMonth tz currentMonth)) entries) /\
  (forall other,
      getMonth tz other = getMonth tz currentMonth ->
      getCurrentMonthHours tz other entries
      = getCurrentMonthHours tz currentMonth entries).
Proof.
  intros Hz Hk. split.
  - unfold getCurrentMonthHours, sumHours. now apply month_fold.
  - intros other Ho. unfold getCurrentMonthHours. now rewrite Ho.
Qed.

End MonthTotal.

Section MonthTotalExamples.

Local Open Scope Q_scope.

Lemma canonical_fiveOnNewYear :
  Forall (fun e => canonicalKey (date e)) fiveOnNewYear.
Proof.
  repeat constructor. exists 20089%Z. split; [|reflexivity].
  vm_compute. split; discriminate.
Qed.

Lemma hoursInMonth_by_month_number_witness :
  getCurrentMonthHours 0 (UTC 2025 0 1 0) fiveOnNewYear
  = sumHours
      (filter (inMonthNumber (getMonth 0 (UTC 2025 0 1 0))) fiveOnNewYear) /\
  (forall other,
      getMonth 0 other = getMonth 0 (UTC 2025 0 1 0) ->
      getCurrentMonthHours 0 other fiveOnNewYear
      = getCurrentMonthHours 0 (UTC 2025 0 1 0) fiveOnNewYear).
Proof.
  apply (hoursInMonth_by_month_number 0 (UTC 2025 0 1 0) fiveOnNewYear).
  - vm_compute. split; [discriminate | reflexivity].
  - exact canonical_fiveOnNewYear.
Defined.

(** C7 as stated fails: with January 2026 displayed, the five hours of
    2025-01-01 are counted, although no record falls in January 2026. *)
Lemma january_2026_counts_january_2025 :
  getFullYear 0 (UTC 2026 0 1 0) = 2026%Z /\
  getMonth 0 (UTC 2026 0 1 0) = 0%Z /\
  filter (inMonthOf 2026 0) fiveOnNewYear = [] /\
  getCurrentMonthHours 0 (UTC 2026 0 1 0) fiveOnNewYear = 5 /\
  ~ getCurrentMonthHours 0 (UTC 2026 0 1 0) fiveOnNewYear
    == sumHours (filter (inMonthOf 2026 0) fiveOnNewYear).
Proof.
  vm_compute. repeat split; discriminate.
Qed.

(** West of UTC the local month of a key is read one day early: five
    hours west, the hours of 2025-02-01 are counted in January 2025 and not
    in February 2025. *)
Example first_of_month_west_of_UTC :
  getMonth (-5 * msPerHour) (UTC 2025 0 1 5) = 0%Z /\
  getMonth (-5 * msPerHour) (UTC 2025 1 1 5) = 1%Z /\
  getCurrentMonthHours (-5 * msPerHour) (UTC 2025 0 1 5)
    [mkEntry "2025-02-01" 3] = 3 /\
  getCurrentMonthHours (-5 * msPerHour) (UTC 2025 1 1 5)
    [mkEntry "2025-02-01" 3] = 0.
Proof. vm_compute. repeat split; reflexivity. Qed.

End MonthTotalExamples.

(** ** The calendar grid *)

Section Grid.

Lemma MakeDay_shift Y M k dt : MakeDay Y (M + 12 * k) dt = MakeDay (Y + k) M dt.
Proof.
  unfold MakeDay.
  replace ((M + 12 * k) / 12) with (M / 12 + k) by zdiv.
  replace ((M + 12 * k) mod 12) with (M mod 12) by zdiv.
  replace (Y + (M / 12 + k)) with (Y + k + M / 12) by lia.
  reflexivity.
Qed.

Lemma MakeDay_date Y M dt : MakeDay Y M dt = MakeDay Y M 1 + dt - 1.
Proof. unfold MakeDay. lia. Qed.

(** The day before the first of month [M + 1] is the last of month [M]:
    its date is the length of month [M], for any month index. *)
Lemma DateFromDay_last Y M :
  DateFromDay (MakeDay Y (M + 1) 1 - 1) = MakeDay Y (M + 1) 1 - MakeDay Y M 1
  /\ 28 <= MakeDay Y (M + 1) 1 - MakeDay Y M 1 <= 31.
Proof.
  set (y := Y + M / 12). set (m := M mod 12).
  assert (Hm : 0 <= m < 12) by (unfold m; zdiv).
  assert (E0 : MakeDay Y M 1 = MakeDay y m 1).
  { replace M with (m + 12 * (M / 12)) at 1 by (unfold m; zdiv).
    apply MakeDay_shift. }
  assert (E1 : MakeDay Y (M + 1) 1 = MakeDay y (m + 1) 1).
  { replace (M + 1) with (m + 1 + 12 * (M / 12)) by (unfold m; zdiv).
    apply MakeDay_shift. }
  rewrite E0, E1. fold (DaysInMonth y m).
  pose proof (DaysInMonth_length y m Hm) as Hl.
  pose proof (monthLength_bounds m _ Hm (InLeapYear_range y)) as Hb.
  split; [|lia].
  replace (MakeDay y (m + 1) 1 - 1) with (MakeDay y m (DaysInMonth y m))
    by (rewrite (MakeDay_date y m (DaysInMonth y m)); unfold DaysInMonth; lia).
  apply civil_of_MakeDay; lia.
Qed.

Lemma Day_noon D tz :
  - (12 * msPerHour) <= tz < 12 * msPerHour ->
  Day (D * msPerDay + 12 * msPerHour + tz) = D.
Proof. unfold Day, msPerDay, msPerHour. intros H. zdiv. Qed.

Lemma UTC_plain y M dt h :
  ~ 0 <= y <= 99 -> UTC y M dt h = MakeDay y M dt * msPerDay + h * msPerHour.
Proof.
  intros Hy. unfold UTC.
  destruct (Z.leb_spec 0 y), (Z.leb_spec y 99); cbn [andb]; try reflexivity.
  lia.
Qed.

Lemma WeekDay_range d : 0 <= WeekDay d < 7.
Proof. unfold WeekDay. zdiv. Qed.

Lemma map_seq_from {A : Type} (f : nat -> A) (a n : nat) :
  map f (seq a n) = map (fun k => f (a + k)%nat) (seq 0 n).
Proof.
  revert f a. induction n as [|n IH]; intros f a; [reflexivity|].
  cbn [seq map]. rewrite Nat.add_0_r. f_equal.
  rewrite (IH f (S a)), (IH (fun k => f (a + k)%nat) 1%nat).
  apply map_ext. intros k. f_equal. lia.
Qed.

(** Within twelve hours of UTC, and outside the years 0 to 99, the grid
    is forty-two consecutive days starting on the Sunday on or before the
    first of the displayed month, the days of that month being the ones
    flagged. *)
Lemma getDaysInMonth_grid tz t :
  - (12 * msPerHour) <= tz < 12 * msPerHour ->
  ~ 0 <= getFullYear tz t <= 99 ->
  let y := getFullYear tz t in
  let m := getMonth tz t in
  let F := MakeDay y m 1 in
  getDaysInMonth tz t
  = map (gridCell F (WeekDay F) (DaysInMonth y m)) (seq 0 42).
Proof.
  intros Hz Hy y m F. unfold getDaysInMonth. fold y m.
  set (w := WeekDay F). set (N := DaysInMonth y m).
  pose proof (WeekDay_range F) as Hw. fold w in Hw.
  assert (HN : DateFromDay (MakeDay y (m + 1) 1 - 1) = N /\ 28 <= N <= 31)
    by apply DateFromDay_last.
  destruct HN as [EN HN].
  assert (HP : DateFromDay (F - 1) = F - MakeDay y (m - 1) 1).
  { pose proof (DateFromDay_last y (m - 1)) as [EP _].
    replace (m - 1 + 1) with m in EP by lia. exact EP. }
  rewrite !(UTC_plain y _ _ 12) by exact Hy.
  assert (Estart : getDay tz (F * msPerDay + 12 * msPerHour) = w)
    by (unfold getDay; now rewrite Day_noon).
  assert (Elast : getDate tz (MakeDay y (m + 1) 0 * msPerDay + 12 * msPerHour)
                  = N).
  { unfold getDate. rewrite Day_noon by exact Hz.
    rewrite (MakeDay_date y (m + 1) 0), <- EN. f_equal. lia. }
  assert (Eprev : getDate tz (MakeDay y m 0 * msPerDay + 12 * msPerHour)
                  = F - MakeDay y (m - 1) 1).
  { unfold getDate. rewrite Day_noon by exact Hz.
    rewrite (MakeDay_date y m 0), <- HP. fold F. f_equal. lia. }
  fold F. rewrite Estart, Elast, Eprev.
  unfold countDown, countUp. rewrite !map_map, !length_app, !length_map,
    !length_seq.
  replace (42 - Z.of_nat (Z.to_nat w + Z.to_nat N))
    with (42 - w - N) by lia.
  replace 42%nat
    with (Z.to_nat w + (Z.to_nat N + Z.to_nat (42 - w - N)))%nat by lia.
  rewrite !seq_app, !map_app, <- app_assoc. cbn [Nat.add].
  f_equal; [|f_equal].
  - apply map_ext_in. intros k Hk. apply in_seq in Hk. unfold gridCell.
    rewrite UTC_plain by exact Hy.
    rewrite (MakeDay_date y (m - 1) (_ - _)).
    destruct (Z.leb_spec w (Z.of_nat k)); [lia|]. cbn [andb].
    f_equal. unfold msPerDay, msPerHour. lia.
  - rewrite (map_seq_from _ (Z.to_nat w)).
    apply map_ext_in. intros k Hk. apply in_seq in Hk. unfold gridCell.
    rewrite UTC_plain by exact Hy.
    rewrite (MakeDay_date y m (_ + _)). fold F.
    destruct (Z.leb_spec w (Z.of_nat (Z.to_nat w + k))); [|lia].
    destruct (Z.ltb_spec (Z.of_nat (Z.to_nat w + k)) (w + N)); [|lia].
    cbn [andb]. f_equal. unfold msPerDay, msPerHour. lia.
  - rewrite (map_seq_from _ (Z.to_nat w + Z.to_nat N)).
    apply map_ext_in. intros k Hk. apply in_seq in Hk. unfold gridCell.
    rewrite UTC_plain by exact Hy.
    rewrite (MakeDay_date y (m + 1) (_ + _)).
    destruct (Z.ltb_spec (Z.of_nat (Z.to_nat w + Z.to_nat N + k)) (w + N));
      [lia|].
    rewrite andb_false_r. f_equal.
    assert (EF : MakeDay y (m + 1) 1 = F + N) by (unfold N, DaysInMonth, F; lia).
    rewrite EF. unfold msPerDay, msPerHour. lia.
Qed.

Lemma map_constant {A B : Type} (f : A -> B) (c : B) (l : list A) :
  (forall x, In x l -> f x = c) -> map f l = repeat c (List.length l).
Proof.
  induction l as [|x r IH]; intros H; [reflexivity|].
  cbn [map List.length repeat]. rewrite (H x) by (left; reflexivity).
  f_equal. apply IH. intros y Hy. apply H. now right.
Qed.

(** The same in the words of the grid: [w] cells of the previous month,
    then the [N] days of the displayed month in order, then the next
    month, forty-two cells in all, [w] being the weekday of the first. *)
Lemma getDaysInMonth_shape tz t :
  - (12 * msPerHour) <= tz < 12 * msPerHour ->
  ~ 0 <= getFullYear tz t <= 99 ->
  let y := getFullYear tz t in
  let m := getMonth tz t in
  let F := MakeDay y m 1 in
  let w := Z.to_nat (WeekDay F) in
  let N := Z.to_nat (DaysInMonth y m) in
  List.length (getDaysInMonth tz t) = 42%nat /\
  (w < 7)%nat /\ (28 <= N <= 31)%nat /\
  map isCurrentMonth (getDaysInMonth tz t)
  = (repeat false w ++ repeat true N ++ repeat false (42 - w - N))%list /\
  map (fun c => Day (cellDate c)) (getDaysInMonth tz t)
  = map (fun k => F - Z.of_nat w + Z.of_nat k) (seq 0 42) /\
  (forall j, 0 <= j < Z.of_nat N ->
     YearFromDay (F + j) = y /\ MonthFromDay (F + j) = m
     /\ DateFromDay (F + j) = j + 1).
Proof.
  intros Hz Hy y m F w N.
  pose proof (getDaysInMonth_grid tz t Hz Hy) as E. cbv zeta in E.
  fold y m F in E. rewrite E. clear E.
  pose proof (WeekDay_range F) as Hw.
  pose proof (MonthFromDay_range (Day (t + tz))) as Hm.
  fold (getMonth tz t) in Hm. fold m in Hm.
  pose proof (DaysInMonth_length y m Hm) as Hl.
  pose proof (monthLength_bounds m _ Hm (InLeapYear_range y)) as Hb.
  rewrite <- Hl in Hb.
  split; [now rewrite length_map, length_seq|].
  split; [unfold w; lia|]. split; [unfold N; lia|].
  split; [|split].
  - rewrite map_map.
    replace 42%nat with (w + (N + (42 - w - N)))%nat at 1
      by (unfold w, N; lia).
    rewrite !seq_app, !map_app. cbn [Nat.add].
    f_equal; [|f_equal].
    + transitivity (repeat false (List.length (seq 0 w)));
        [|now rewrite length_seq]. apply map_constant.
      intros k Hk. apply in_seq in Hk. unfold gridCell. cbn [isCurrentMonth].
      destruct (Z.leb_spec (WeekDay F) (Z.of_nat k)); [unfold w in Hk; lia|].
      reflexivity.
    + transitivity (repeat true (List.length (seq w N)));
        [|now rewrite length_seq]. apply map_constant.
      intros k Hk. apply in_seq in Hk. unfold gridCell. cbn [isCurrentMonth].
      destruct (Z.leb_spec (WeekDay F) (Z.of_nat k)); [|unfold w in Hk; lia].
      destruct (Z.ltb_spec (Z.of_nat k) (WeekDay F + DaysInMonth y m));
        [reflexivity | unfold w, N in Hk; lia].
    + transitivity (repeat false (List.length (seq (w + N) (42 - w - N))));
        [|now rewrite length_seq]. apply map_constant.
      intros k Hk. apply in_seq in Hk. unfold gridCell. cbn [isCurrentMonth].
      destruct (Z.ltb_spec (Z.of_nat k) (WeekDay F + DaysInMonth y m));
        [unfold w, N in Hk; lia|].
      apply andb_false_r.
  - rewrite map_map. apply map_ext. intros k. unfold gridCell.
    cbn [cellDate]. unfold w. rewrite Z2Nat.id by lia.
    unfold Day, msPerDay, msPerHour. zdiv.
  - intros j Hj.
    replace (F + j) with (MakeDay y m (j + 1))
      by (rewrite (MakeDay_date y m (j + 1)); fold F; lia).
    apply civil_of_MakeDay; [exact Hm | unfold N in Hj; lia].
Qed.

End Grid.

Section GridExamples.

(** January 2025 in UTC: forty-two cells, the first of the month in the
    fourth position. *)
Example january_2025_in_UTC :
  List.length (getDaysInMonth 0 (january2025 0)) = 42%nat /\
  map isCurrentMonth (getDaysInMonth 0 (january2025 0))
  = (repeat false 3 ++ repeat true 31 ++ repeat false 8)%list /\
  option_map (fun c => toISODate (cellDate c))
    (nth_error (getDaysInMonth 0 (january2025 0)) 3)
  = Some "2025-01-01"%string.
Proof. vm_compute. repeat split; reflexivity. Qed.

(** C8 at a failing input: thirteen hours east of UTC, with January 2025
    displayed, the noon-UTC dates are read in local time one day late: the
    grid opens with four cells, not three, and flags a single day. *)
Theorem january_2025_thirteen_hours_east :
  getFullYear thirteenEast (january2025 thirteenEast) = 2025 /\
  getMonth thirteenEast (january2025 thirteenEast) = 0 /\
  List.length (getDaysInMonth thirteenEast (january2025 thirteenEast))
  = 42%nat /\
  map isCurrentMonth (getDaysInMonth thirteenEast (january2025 thirteenEast))
  = (repeat false 4 ++ [true] ++ repeat false 37)%list /\
  map (fun c => toISODate (cellDate c))
    (firstn 6 (getDaysInMonth thirteenEast (january2025 thirteenEast)))
  = ["2024-11-28"; "2024-11-29"; "2024-11-30"; "2024-12-01"; "2025-01-01";
     "2025-02-01"]%string.
Proof. vm_compute. repeat split; reflexivity. Qed.

(** A two-digit year is taken by [Date.UTC] for a year of the 1900s: the
    grid of January of the year 50 is laid out as January 1950. *)
Example january_of_year_50 :
  getFullYear 0 (MakeDay 50 0 1 * msPerDay) = 50 /\
  option_map (fun c => toISODate (cellDate c))
    (nth_error (getDaysInMonth 0 (MakeDay 50 0 1 * msPerDay)) 0)
  = Some "1950-01-01"%string.
Proof. vm_compute. split; reflexivity. Qed.

End GridExamples.

(** ** Restoring the entries *)

Section Startup.

Lemma initialEntries_throws (s : string) :
  s <> EmptyString -> JSON.parse s = None ->
  initialEntries (Some s) = Throws "SyntaxError".
Proof.
  intros Hs Hp. unfold initialEntries, nonEmpty.
  destruct s; [congruence|]. now rewrite Hp.
Qed.

Example initialEntries_absent :
  initialEntries None = Returns (JSON.JArray []) /\
  initialEntries (Some ""%string) = Returns (JSON.JArray []).
Proof. split; reflexivity. Qed.

Example initialEntries_snapshot :
  option_map asLedger (JSON.parse snapshotOfFive) = Some (Some fiveOnNewYear)
  /\ exists v, initialEntries (Some snapshotOfFive) = Returns v
               /\ asLedger v = Some fiveOnNewYear.
Proof.
  split; [reflexivity|]. eexists. split; reflexivity.
Qed.

(** C9 at a failing input: a stored text that is not JSON makes
    [JSON.parse] throw inside the initializer, which has no handler; no
    ledger, empty or otherwise, is produced.  A stored text that is JSON
    but not an array is returned as it is, and is not a ledger. *)
Theorem malformed_snapshot_throws :
  JSON.parse "not json" = None /\
  initialEntries (Some "not json"%string) = Throws "SyntaxError" /\
  initialEntries (Some "not json"%string) <> Returns (JSON.JArray []) /\
  initialEntries (Some "{"%string) = Throws "SyntaxError" /\
  (exists v, initialEntries (Some "42"%string) = Returns v
             /\ asLedger v = None).
Proof.
  split; [reflexivity|]. split; [reflexivity|]. split; [discriminate|].
  split; [reflexivity|]. eexists. split; reflexivity.
Qed.

End Startup.

(** ** Further properties of the ledger operations *)

Section Clamp.

Local Open Scope Q_scope.

Lemma halfSteps_of_half (k : Z) (q : Q) :
  q == inject_Z k / 2 -> Math_round (q * 2) = k.
Proof.
  intros Hq. apply Math_round_unique; rewrite Hq; unfold Qdiv;
    change (/ 2) with (1 # 2); lra.
Qed.

Lemma validHours_steps (q : Q) :
  validHours q -> exists k, (0 <= k <= 48)%Z /\ q == inject_Z k / 2.
Proof.
  intros [[H0 H1] [k Hk]]. exists k. split; [|exact Hk].
  rewrite Hk in H0, H1. unfold Qle, Qdiv, Qmult, Qinv in H0, H1.
  cbn in H0, H1. lia.
Qed.

Lemma validateAndClampHours_fixed (q : Q) :
  validHours q -> validateAndClampHours q == q.
Proof.
  intros Hv. destruct (validHours_steps q Hv) as (k & Hk & Hq).
  rewrite validateAndClampHours_steps. unfold halfSteps.
  rewrite (halfSteps_of_half k q Hq), Z.max_r, Z.min_l by lia.
  symmetry. exact Hq.
Qed.

Lemma validHours_compat (p q : Q) : p == q -> validHours p -> validHours q.
Proof.
  intros E [[H0 H1] [k Hk]]. split; [rewrite <- E; auto|].
  exists k. now rewrite <- E.
Qed.

Lemma Math_round_mono (x y : Q) : x <= y -> (Math_round x <= Math_round y)%Z.
Proof. intros H. unfold Math_round. apply Qfloor_resp_le. lra. Qed.

Lemma half_is_zero (k : Z) : inject_Z k / 2 == 0 <-> k = 0%Z.
Proof. unfold Qeq, Qdiv, Qmult, Qinv; cbn. lia. Qed.

Lemma half_is_24 (k : Z) : inject_Z k / 2 == 24 <-> k = 48%Z.
Proof. unfold Qeq, Qdiv, Qmult, Qinv; cbn. lia. Qed.

Lemma validateAndClampHours_zero_iff (h : Q) :
  validateAndClampHours h == 0 <-> h < 1 # 4.
Proof.
  rewrite validateAndClampHours_steps, half_is_zero.
  unfold halfSteps. destruct (Math_round_spec (h * 2)) as [Hl Hu].
  set (r := Math_round (h * 2)) in *. split; intros H.
  - assert (Hr : (r <= 0)%Z) by lia.
    rewrite Zle_Qle in Hr. change (inject_Z 0) with 0 in Hr. lra.
  - assert (Hr : (r < 1)%Z).
    { rewrite Zlt_Qlt. change (inject_Z 1) with 1. lra. }
    lia.
Qed.

Lemma validateAndClampHours_cap (h : Q) :
  (47 # 2) + (1 # 4) <= h -> validateAndClampHours h == 24.
Proof.
  intros H. rewrite validateAndClampHours_steps, half_is_24.
  unfold halfSteps. destruct (Math_round_spec (h * 2)) as [Hl Hu].
  set (r := Math_round (h * 2)) in *.
  assert (Hr : (47 < r)%Z).
  { rewrite Zlt_Qlt. change (inject_Z 47) with 47. lra. }
  lia.
Qed.

(** X1: [validateAndClampHours] always yields a value the ledger may hold; it
    leaves exactly those values as they are, so it is idempotent; and it
    never reverses the order of two inputs. *)
Theorem validateAndClampHours_projection (h1 h2 : Q) :
  validHours (validateAndClampHours h1) /\
  (validateAndClampHours h1 == h1 <-> validHours h1) /\
  validateAndClampHours (validateAndClampHours h1)
  == validateAndClampHours h1 /\
  (h1 <= h2 -> validateAndClampHours h1 <= validateAndClampHours h2).
Proof.
  split; [apply validHours_clamped|]. split; [|split].
  - split; [|apply validateAndClampHours_fixed].
    intros E. apply (validHours_compat _ _ E), validHours_clamped.
  - apply validateAndClampHours_fixed, validHours_clamped.
  - intros H. rewrite !validateAndClampHours_steps. apply half_le.
    unfold halfSteps.
    assert (Hm : (Math_round (h1 * 2) <= Math_round (h2 * 2))%Z)
      by (apply Math_round_mono; lra).
    lia.
Qed.

End Clamp.

Section SubmitTable.

Local Open Scope Q_scope.

Variable now : Z.

Lemma acceptedKey_valid s :
  isValidDate now (parse (s ++ "T00:00:00.000Z")) = true <-> acceptedKey now s.
Proof. apply isValidDate_key. Qed.

Lemma handleSubmit_guard (h : Q) :
  h == 0 \/ 1 # 4 <= h ->
  Qeq_bool (validateAndClampHours h) 0 && negb (Qeq_bool h 0) = false.
Proof.
  intros Hh. destruct (Qeq_bool h 0) eqn:E0; [apply andb_false_r|].
  apply Qeq_bool_false in E0. rewrite andb_true_r.
  apply Qeq_bool_false. rewrite validateAndClampHours_zero_iff.
  destruct Hh as [Hh | Hh]; [contradiction | lra].
Qed.

Lemma handleSubmit_stores entries s (h : Q) :
  h == 0 \/ 1 # 4 <= h -> acceptedKey now s ->
  handleSubmit now entries s (Some h)
  = ok (upsert s (validateAndClampHours h) entries).
Proof.
  intros Hh Hk. unfold handleSubmit. rewrite (handleSubmit_guard h Hh).
  apply acceptedKey_valid in Hk. now rewrite Hk.
Qed.

Lemma handleSubmit_refuses_key entries s (h : Q) :
  h == 0 \/ 1 # 4 <= h -> ~ acceptedKey now s ->
  handleSubmit now entries s (Some h) = fail entries DateOutOfWindow.
Proof.
  intros Hh Hk. unfold handleSubmit. rewrite (handleSubmit_guard h Hh).
  destruct (isValidDate now _) eqn:E; [|reflexivity].
  apply acceptedKey_valid in E. contradiction.
Qed.

(** X2: the checks of [handleSubmit] in their order.  A text that is not a
    number is refused first; then every number below 0.25 other than 0,
    negative ones included, whatever the key; then, of the canonical keys,
    every one that is not a day of 2025 up to today; a day of 2025 up to
    today gets the hours stored, clamped and rounded, a number from 23.75
    up being stored as 24.  A refusal keeps the entries. *)
Theorem handleSubmit_table (entries : list DayEntry) (s : string) :
  handleSubmit now entries s None = fail entries InvalidNumber /\
  (forall h, h < 1 # 4 -> ~ h == 0 ->
     handleSubmit now entries s (Some h) = fail entries HoursOutOfRange) /\
  (forall h, h == 0 \/ 1 # 4 <= h -> canonicalKey s -> ~ acceptedKey now s ->
     handleSubmit now entries s (Some h) = fail entries DateOutOfWindow) /\
  (forall h, h == 0 \/ 1 # 4 <= h -> acceptedKey now s ->
     handleSubmit now entries s (Some h)
     = ok (upsert s (validateAndClampHours h) entries) /\
     ((47 # 2) + (1 # 4) <= h ->
      getHoursForDate (upsert s (validateAndClampHours h) entries) s == 24)).
Proof.
  split; [reflexivity|]. split; [|split].
  - intros h Hlt Hne. unfold handleSubmit.
    apply validateAndClampHours_zero_iff, Qeq_bool_iff in Hlt.
    apply Qeq_bool_false in Hne. now rewrite Hlt, Hne.
  - intros h Hh _ Hk. now apply handleSubmit_refuses_key.
  - intros h Hh Hk. split; [now apply handleSubmit_stores|]. intros Hcap.
    rewrite getHoursForDate_upsert. now apply validateAndClampHours_cap.
Qed.

Lemma upsert_idem d v l : upsert d v (upsert d v l) = upsert d v l.
Proof.
  rewrite !upsert_rec. induction l as [|e r IH]; cbn [upsertRec].
  - unfold hasDate at 1. cbn [date]. now rewrite String.eqb_refl.
  - destruct (hasDate d e) eqn:E; cbn [upsertRec].
    + unfold hasDate at 1. cbn [date]. fold (hasDate d e). now rewrite E.
    + now rewrite E, IH.
Qed.

(** X3: submitting the same date and hours twice in a row leaves exactly
    the entries, and reports exactly the outcome, of submitting once. *)
Theorem handleSubmit_idempotent (entries : list DayEntry) (s : string)
    (h : option Q) :
  handleSubmit now (nextEntries (handleSubmit now entries s h)) s h
  = handleSubmit now entries s h.
Proof.
  unfold handleSubmit. destruct h as [h|]; [|reflexivity].
  destruct (_ && _); [reflexivity|].
  destruct (negb _); [reflexivity|].
  cbn [ok nextEntries]. now rewrite upsert_idem.
Qed.

End SubmitTable.

Section Frame.

Local Open Scope Q_scope.

Variable now : Z.

Lemma find_without_other d d' l :
  d' <> d -> find (hasDate d') (without d l) = find (hasDate d') l.
Proof.
  intros Hne. unfold without. induction l as [|e r IH]; [reflexivity|].
  cbn [filter find]. destruct (hasDate d e) eqn:E; cbn [negb find].
  - apply hasDate_true in E.
    assert (E1 : hasDate d' e = false) by (apply hasDate_false; congruence).
    now rewrite E1.
  - now rewrite IH.
Qed.

Lemma find_reduceBy_other d d' a l :
  d' <> d ->
  find (hasDate d') (map (reduceBy d a) l) = find (hasDate d') l.
Proof.
  intros Hne. induction l as [|e r IH]; [reflexivity|].
  cbn [map find].
  assert (Ed : hasDate d' (reduceBy d a e) = hasDate d' e)
    by (unfold reduceBy; destruct (hasDate d e); reflexivity).
  rewrite Ed. destruct (hasDate d' e) eqn:E1; [|exact IH].
  unfold reduceBy. destruct (hasDate d e) eqn:E; [|reflexivity].
  apply hasDate_true in E, E1. congruence.
Qed.

Lemma find_addTo_other entries d d' amount :
  d' <> d ->
  find (hasDate d') (nextEntries (addTo entries d amount))
  = find (hasDate d') entries.
Proof.
  intros Hne. destruct (addTo_next entries d amount) as [-> | ->];
    [reflexivity | now apply find_upsert_other].
Qed.

(** X4: a mutation touches one date only.  Whatever the mutation, given
    canonical keys, and whatever its outcome, the record found for any
    other date is the one that was there before. *)
Theorem mutation_frame (m : Mutation) (entries : list DayEntry)
    (other : string) :
  canonicalKeys m ->
  targetKey now m <> Some other ->
  find (hasDate other) (nextEntries (perform now m entries))
  = find (hasDate other) entries /\
  getHoursForDate (nextEntries (perform now m entries)) other
  = getHoursForDate entries other.
Proof.
  intros _ Ht.
  assert (Hf : find (hasDate other) (nextEntries (perform now m entries))
               = find (hasDate other) entries).
  { destruct m as [s h | a | d h | d a]; cbn [perform targetKey] in *.
    - assert (Hne : other <> s) by congruence.
      unfold handleSubmit. destruct h as [h|]; [|reflexivity].
      destruct (_ && _); [reflexivity|].
      destruct (negb _); [reflexivity|].
      now apply find_upsert_other.
    - assert (Hne : other <> toISODate now) by congruence.
      unfold quickAdd. destruct (date_lt _ _); [reflexivity|].
      now apply find_addTo_other.
    - unfold quickAddForDate, Date_setUTCHours.
      destruct (parse d) as [t|]; cbn [option_map] in *; [|reflexivity].
      destruct (negb _); [reflexivity|].
      apply find_addTo_other. unfold formatDate, toISODate in *.
      rewrite !Day_setUTCHours_noon. rewrite !Day_setUTCHours_noon in Ht.
      congruence.
    - assert (Hne : other <> d) by congruence.
      unfold deleteEntry. destruct (find (hasDate d) entries); [|reflexivity].
      destruct a as [a|]; [|now apply find_without_other].
      destruct (_ && _); cbn [ok nextEntries].
      + now apply (find_reduceBy_other d other a).
      + now apply find_without_other. }
  split; [exact Hf|]. unfold getHoursForDate. now rewrite Hf.
Qed.

Lemma deleteEntry_upsert (entries : list DayEntry) (d : string) (v : Q) :
  deleteEntry (upsert d v entries) d None = ok (without d entries).
Proof.
  unfold deleteEntry. rewrite find_upsert_same. f_equal.
  fold (without d (upsert d v entries)). unfold without.
  rewrite upsert_rec. induction entries as [|e r IH]; cbn [upsertRec filter].
  - unfold hasDate at 1. cbn [date]. now rewrite String.eqb_refl.
  - destruct (hasDate d e) eqn:Ee; cbn [filter].
    + unfold hasDate at 1. cbn [date]. fold (hasDate d e). now rewrite Ee.
    + rewrite Ee. cbn [negb]. now rewrite IH.
Qed.

(** X6: deleting a date right after hours were stored for it removes what
    was stored and nothing else; when the date had no record before, the
    ledger is back to what it was. *)
Theorem delete_after_submit (entries : list DayEntry) (s : string) (h : Q) :
  h == 0 \/ 1 # 4 <= h -> acceptedKey now s ->
  deleteEntry (nextEntries (handleSubmit now entries s (Some h))) s None
  = ok (without s entries) /\
  (find (hasDate s) entries = None ->
   deleteEntry (nextEntries (handleSubmit now entries s (Some h))) s None
   = ok entries).
Proof.
  intros Hh Hk. rewrite (handleSubmit_stores now entries s h Hh Hk).
  cbn [ok nextEntries]. rewrite deleteEntry_upsert.
  split; [reflexivity|]. intros Hn. unfold without.
  now rewrite find_none_filter.
Qed.

End Frame.

Section QuickAddMore.

Local Open Scope Q_scope.

Variable now : Z.

Lemma setUTCHours_noon_key t :
  formatDate (JSDate.setUTCHours t 12 0 0 0) = isoOfDay (Day t).
Proof. unfold formatDate, toISODate. now rewrite !Day_setUTCHours_noon. Qed.

Lemma formatDate_key t : formatDate t = isoOfDay (Day t).
Proof. unfold formatDate, toISODate. now rewrite Day_setUTCHours_noon. Qed.

Lemma quickAddForDate_key entries d h :
  fourDigitYear d ->
  quickAddForDate now entries (isoOfDay d) h
  = if isValidDate now (Some (d * msPerDay)%Z)
    then addTo entries (isoOfDay d) h
    else fail entries DateOutOfWindow.
Proof.
  intros Hd. unfold quickAddForDate, Date_setUTCHours.
  rewrite parse_isoOfDay by exact Hd. cbn [option_map].
  rewrite setUTCHours_noon_key, Day_midnight.
  assert (E : isValidDate now
                (Some (JSDate.setUTCHours (d * msPerDay) 12 0 0 0))
              = isValidDate now (Some (d * msPerDay)%Z)).
  { apply eq_true_iff_eq. rewrite !isValidDate_days.
    now rewrite Day_setUTCHours_noon. }
  rewrite E. destruct (isValidDate now (Some (d * msPerDay)%Z)); reflexivity.
Qed.

(** X7: while today is a day of 2025, the quick add of the calendar cell
    of today and the quick add for today are the same operation. *)
Theorem quickAddForDate_today (entries : list DayEntry) (h : Q) :
  (windowStart <= Day now <= windowEnd)%Z ->
  quickAddForDate now entries (toISODate now) h = quickAdd now entries h.
Proof.
  intros Hw. rewrite quickAdd_in_window by lia. unfold toISODate.
  rewrite quickAddForDate_key by (apply window_fourDigit; exact Hw).
  assert (E : isValidDate now (Some (Day now * msPerDay)%Z) = true)
    by (apply isValidDate_days; rewrite Day_midnight; lia).
  now rewrite E.
Qed.

Lemma getHoursForDate_some entries d e :
  find (hasDate d) entries = Some e -> getHoursForDate entries d == hours e.
Proof.
  intros H. unfold getHoursForDate. rewrite H. apply orZero_eq.
Qed.

Lemma length_upsert d v l :
  List.length (upsert d v l)
  = match find (hasDate d) l with
    | Some _ => List.length l
    | None => S (List.length l)
    end.
Proof.
  rewrite upsert_rec. induction l as [|e r IH]; [reflexivity|].
  cbn [upsertRec find]. destruct (hasDate d e); [reflexivity|].
  cbn [List.length]. rewrite IH. destruct (find (hasDate d) r); reflexivity.
Qed.

Lemma addTo_exact entries d (k j : Z) :
  (0 <= k + j <= 48)%Z -> j <> 0%Z ->
  getHoursForDate entries d == inject_Z k / 2 ->
  addTo entries d (inject_Z j / 2)
  = ok (upsert d (validateAndClampHours
                    (getHoursForDate entries d + inject_Z j / 2)) entries) /\
  getHoursForDate (nextEntries (addTo entries d (inject_Z j / 2))) d
  == inject_Z (k + j) / 2.
Proof.
  intros Hk Hj Hc.
  assert (Ek : forall z, inject_Z z / 2 == inject_Z z * (1 # 2))
    by (intros z; unfold Qdiv; reflexivity).
  assert (Hs : halfSteps (getHoursForDate entries d + inject_Z j / 2)
               = (k + j)%Z).
  { unfold halfSteps. rewrite (Math_round_unique _ (k + j)).
    - lia.
    - rewrite Hc, !Ek, inject_Z_plus. lra.
    - rewrite Hc, !Ek, inject_Z_plus. lra. }
  assert (Hv : validateAndClampHours
                 (getHoursForDate entries d + inject_Z j / 2)
               == inject_Z (k + j) / 2)
    by (rewrite validateAndClampHours_steps, Hs; reflexivity).
  assert (Hne : ~ validateAndClampHours
                    (getHoursForDate entries d + inject_Z j / 2)
                  == getHoursForDate entries d).
  { rewrite Hv, Hc. rewrite half_eq. lia. }
  unfold addTo. apply Qeq_bool_false in Hne. rewrite Hne.
  cbn [ok nextEntries]. split; [reflexivity|].
  rewrite getHoursForDate_upsert. exact Hv.
Qed.

(** X8: a quick add never takes a record away.  From the first day of
    2025 on, adding [j] half hours to today and then taking them off again,
    both within 0..24, succeeds twice and restores the hours read for
    today; a day that had no record is left with a record of zero hours. *)
Theorem quickAdd_then_undo (entries : list DayEntry) (k j : Z) :
  (windowStart <= Day now)%Z ->
  (0 <= k)%Z -> (0 < j)%Z -> (k + j <= 48)%Z ->
  getHoursForDate entries (toISODate now) == inject_Z k / 2 ->
  let once := nextEntries (quickAdd now entries (inject_Z j / 2)) in
  let twice := nextEntries (quickAdd now once (inject_Z (- j) / 2)) in
  errorMsg (quickAdd now entries (inject_Z j / 2)) = None /\
  errorMsg (quickAdd now once (inject_Z (- j) / 2)) = None /\
  getHoursForDate twice (toISODate now)
  == getHoursForDate entries (toISODate now) /\
  find (hasDate (toISODate now)) twice <> None /\
  (List.length entries <= List.length twice)%nat.
Proof.
  intros Hw Hk Hj Hkj Hc. cbv zeta. rewrite !quickAdd_in_window by exact Hw.
  set (d := toISODate now) in *.
  set (once := nextEntries (addTo entries d (inject_Z j / 2))).
  set (twice := nextEntries (addTo once d (inject_Z (- j) / 2))).
  destruct (addTo_exact entries d k j) as [E1 R1]; [lia | lia | exact Hc |].
  fold once in R1.
  destruct (addTo_exact once d (k + j) (- j)) as [E2 R2];
    [lia | lia | exact R1 |].
  fold twice in R2.
  split; [now rewrite E1|]. split; [now rewrite E2|].
  split; [rewrite R2, Hc; now replace (k + j + - j)%Z with k by lia|].
  assert (T : twice = upsert d (validateAndClampHours
                 (getHoursForDate once d + inject_Z (- j) / 2)) once)
    by (unfold twice; now rewrite E2).
  assert (O : once = upsert d (validateAndClampHours
                 (getHoursForDate entries d + inject_Z j / 2)) entries)
    by (unfold once; now rewrite E1).
  split.
  - rewrite T, find_upsert_same. discriminate.
  - rewrite T, length_upsert, O, find_upsert_same, length_upsert.
    destruct (find (hasDate d) entries); lia.
Qed.

End QuickAddMore.

Section WholeWindow.

Local Open Scope Q_scope.

Lemma inRange_window (e : DayEntry) :
  inWindow (date e) -> inRange "2025-01-01" "2025-12-31" e = true.
Proof.
  intros (d & Hd & Hw). unfold inRange. rewrite Hd.
  change "2025-01-01"%string with (isoOfDay 20089).
  change "2025-12-31"%string with (isoOfDay 20453).
  pose proof (window_fourDigit d Hw) as H4.
  rewrite !leb_isoOfDay;
    try exact H4; try (vm_compute; split; discriminate).
  rewrite windowStart_val, windowEnd_val in Hw.
  apply andb_true_iff. split; apply Z.leb_le; lia.
Qed.

(** X10: when every record lies in 2025, the range total from 2025-01-01
    to 2025-12-31 is the total of the year, and no error is reported. *)
Theorem whole_year_range_is_total (entries : list DayEntry) :
  Forall (fun e => inWindow (date e)) entries ->
  getHoursBetweenDates entries "2025-01-01" "2025-12-31"
  = (totalHours entries, None) /\
  hoursInRange entries "2025-12-31" "2025-01-01" = (totalHours entries, None).
Proof.
  intros Hw.
  assert (Hf : filter (inRange "2025-01-01" "2025-12-31") entries = entries).
  { induction Hw as [|e r He Hr IH]; [reflexivity|]. cbn [filter].
    now rewrite (inRange_window e He), IH. }
  assert (E : getHoursBetweenDates entries "2025-01-01" "2025-12-31"
              = (totalHours entries, None)).
  { change "2025-01-01"%string with (isoOfDay 20089).
    change "2025-12-31"%string with (isoOfDay 20453).
    rewrite getHoursBetweenDates_keys by (vm_compute; split; discriminate).
    change (Z.abs (20453 - 20089) <=? 365)%Z with true. cbv iota.
    change (isoOfDay 20089) with "2025-01-01"%string.
    change (isoOfDay 20453) with "2025-12-31"%string.
    now rewrite Hf. }
  split; [exact E|].
  unfold hoursInRange, selectRange.
  change (String.ltb "2025-01-01" "2025-12-31") with true. cbv iota.
  change (validateDateRange "2025-01-01" "2025-12-31") with true.
  cbn [negb snd]. exact E.
Qed.

End WholeWindow.

(** ** The controls of the page *)

Section Selection.

Local Open Scope Q_scope.

Variable now : Z.

Lemma digit_not_sign n c :
  c = "+"%char \/ c = "-"%char -> digit n <> c.
Proof.
  intros Hc. unfold digit.
  assert (H : (0 <= n mod 10 < 10)%Z) by zdiv.
  set (k := (n mod 10)%Z) in *. clearbody k.
  assert (Hk : (k = 0 \/ k = 1 \/ k = 2 \/ k = 3 \/ k = 4 \/ k = 5 \/ k = 6
               \/ k = 7 \/ k = 8 \/ k = 9)%Z) by lia.
  repeat (destruct Hk as [Hk | Hk]); subst k;
    destruct Hc as [-> | ->]; discriminate.
Qed.

(** A key of a four-digit year names one day only. *)
Lemma isoOfDay_inj a b :
  fourDigitYear a -> isoOfDay a = isoOfDay b -> a = b.
Proof.
  intros Ha E.
  assert (Hb : fourDigitYear b).
  { unfold fourDigitYear.
    destruct (Z.leb_spec 0 (YearFromDay b)) as [H0|H0];
      [destruct (Z.leb_spec (YearFromDay b) 9999) as [H1|H1]; [lia|]|];
      exfalso; rewrite (isoOfDay_chars a Ha) in E;
      unfold isoOfDay, isoYear, pad4 in E.
    - destruct (Z.leb_spec 0 (YearFromDay b)); [|lia].
      destruct (Z.leb_spec (YearFromDay b) 9999); [lia|]. cbn [andb] in E.
      destruct (Z.ltb_spec (YearFromDay b) 0); [lia|].
      injection E as E _. revert E. apply digit_not_sign. now left.
    - destruct (Z.leb_spec 0 (YearFromDay b)); [lia|]. cbn [andb] in E.
      destruct (Z.ltb_spec (YearFromDay b) 0); [|lia].
      injection E as E _. revert E. apply digit_not_sign. now right. }
  pose proof (parse_isoOfDay a Ha) as Pa.
  pose proof (parse_isoOfDay b Hb) as Pb.
  rewrite E in Pa. rewrite Pa in Pb.
  assert (Em : (a * msPerDay = b * msPerDay)%Z) by congruence.
  unfold msPerDay in Em. lia.
Qed.

Lemma acceptedKey_day d :
  fourDigitYear d ->
  acceptedKey now (isoOfDay d)
  <-> (windowStart <= d <= windowEnd)%Z /\ (d <= Day now)%Z.
Proof.
  intros Hd. split.
  - intros (d' & E & Hw & Hn).
    apply eq_sym, isoOfDay_inj in E; [subst d'; auto|].
    now apply window_fourDigit.
  - intros [Hw Hn]. exists d. auto.
Qed.

(** X11: the date selected when the page opens is one [handleSubmit]
    accepts exactly while today is a day of 2025: before 2025 the page
    opens on 2025-01-01, which is still in the future, and after 2025 it
    opens on today, which is outside the window. *)
Theorem initialSelectedDate_accepted :
  acceptedKey now (initialSelectedDate now)
  <-> (windowStart <= Day now <= windowEnd)%Z.
Proof.
  unfold initialSelectedDate, date_ge, date_le.
  change (parse "2025-01-01T00:00:00.000Z") with (Some 1735689600000%Z).
  cbv beta iota zeta.
  destruct (Z.leb_spec 1735689600000 now) as [Hs | Hs].
  - assert (Hd : (windowStart <= Day now)%Z)
      by (rewrite windowStart_val; unfold Day, msPerDay; zdiv).
    unfold toISODate. split.
    + intros (d & E & Hw & Hn).
      apply eq_sym, isoOfDay_inj in E; [subst d; auto|].
      now apply window_fourDigit.
    + intros Hw. exists (Day now). split; [reflexivity|]. split; [exact Hw|lia].
  - assert (Hd : (Day now < windowStart)%Z)
      by (rewrite windowStart_val; unfold Day, msPerDay; zdiv).
    change "2025-01-01"%string with (isoOfDay 20089).
    rewrite acceptedKey_day by (vm_compute; split; discriminate).
    rewrite windowStart_val in *. lia.
Qed.

Lemma cellIsActive_key cell :
  cellIsActive now cell = true ->
  formatDate (cellDate cell) = isoOfDay (Day (cellDate cell)) /\
  (windowStart <= Day (cellDate cell) <= windowEnd)%Z /\
  (Day (cellDate cell) <= Day now)%Z.
Proof.
  unfold cellIsActive, Date_setUTCHours, option_map.
  intros H. apply andb_true_iff in H as [H _].
  apply isValidDate_days in H.
  assert (E : Day (JSDate.setUTCHours (cellDate cell) 0 0 0 0)
              = Day (cellDate cell)).
  { unfold JSDate.setUTCHours, Day, msPerDay, msPerHour, msPerMinute,
      msPerSecond. zdiv. }
  rewrite E in H. split; [apply formatDate_key | exact H].
Qed.

(** X12: a date taken from an active calendar cell is never refused for
    its date: [handleSubmit] stores the hours for it, and the quick-add
    buttons of the cell add to that very date without throwing. *)
Theorem active_cell_is_accepted (entries : list DayEntry)
    (cell : CalendarDay) (h : Q) :
  cellIsActive now cell = true ->
  acceptedKey now (formatDate (cellDate cell)) /\
  (h == 0 \/ 1 # 4 <= h ->
   handleSubmit now entries (formatDate (cellDate cell)) (Some h)
   = ok (upsert (formatDate (cellDate cell)) (validateAndClampHours h)
           entries)) /\
  handleQuickHourSelect now entries (formatDate (cellDate cell)) h
  = Some (addTo entries (formatDate (cellDate cell)) h).
Proof.
  intros Ha. destruct (cellIsActive_key cell Ha) as (Ek & Hw & Hn).
  assert (Hk : acceptedKey now (formatDate (cellDate cell)))
    by (rewrite Ek; exists (Day (cellDate cell)); auto).
  split; [exact Hk|]. split.
  - intros Hh. now apply handleSubmit_stores.
  - unfold handleQuickHourSelect, Date_setUTCHours. rewrite Ek.
    pose proof (window_fourDigit _ Hw) as H4.
    rewrite parse_isoOfDay by exact H4. cbn [option_map]. f_equal.
    rewrite setUTCHours_noon_key, Day_midnight.
    rewrite quickAddForDate_key by exact H4.
    assert (E : isValidDate now (Some (Day (cellDate cell) * msPerDay)%Z)
                = true)
      by (apply isValidDate_days; now rewrite Day_midnight).
    now rewrite E.
Qed.

(** X13: two clicks on active cells always select a range: the stored
    range runs from the earlier key to the later one, the total is the sum
    of the records between them, and the range-too-large error cannot
    occur, the cells being days of one year; a third click starts over. *)
Theorem two_clicks_select_a_range (entries : list DayEntry)
    (c1 c2 c3 : CalendarDay) :
  cellIsActive now c1 = true -> cellIsActive now c2 = true ->
  cellIsActive now c3 = true ->
  let k1 := formatDate (cellDate c1) in
  let k2 := formatDate (cellDate c2) in
  let lo := if String.ltb k2 k1 then k2 else k1 in
  let hi := if String.ltb k2 k1 then k1 else k2 in
  let first := onClickDay now entries (mkRange None None) c1 in
  let second := onClickDay now entries (fst first) c2 in
  let third := onClickDay now entries (fst second) c3 in
  fst first = mkRange (Some k1) None /\
  second = (mkRange (Some lo) (Some hi),
            (sumHours (filter (inRange lo hi) entries), None)) /\
  fst third = mkRange (Some (formatDate (cellDate c3))) None.
Proof.
  intros A1 A2 A3 k1 k2 lo hi first second third.
  destruct (cellIsActive_key c1 A1) as (E1 & W1 & _).
  destruct (cellIsActive_key c2 A2) as (E2 & W2 & _).
  pose proof (window_fourDigit _ W1) as F1.
  pose proof (window_fourDigit _ W2) as F2.
  assert (Nk : forall d, nonEmpty (Some (isoOfDay d)) = true).
  { intros d. pose proof (isoOfDay_nonempty d). unfold nonEmpty.
    destruct (isoOfDay d); congruence. }
  assert (N1 : nonEmpty (Some k1) = true)
    by (unfold k1; rewrite E1; apply Nk).
  assert (Nlo : nonEmpty (Some lo) = true)
    by (unfold lo, k1, k2; rewrite E1, E2;
        match goal with |- context [if ?c then _ else _] => destruct c end;
        apply Nk).
  assert (Nhi : nonEmpty (Some hi) = true)
    by (unfold hi, k1, k2; rewrite E1, E2;
        match goal with |- context [if ?c then _ else _] => destruct c end;
        apply Nk).
  assert (Hfirst : first = (mkRange (Some k1) None, (0, None))).
  { unfold first, onClickDay. fold (cellIsActive now c1). now rewrite A1. }
  assert (Hsel : selectRange entries k1 k2
                 = (mkRange (Some lo) (Some hi),
                    (sumHours (filter (inRange lo hi) entries), None))).
  { assert (Hok : forall a b, (20089 <= a <= 20453)%Z ->
              (20089 <= b <= 20453)%Z -> (Z.abs (b - a) <=? 365)%Z = true)
      by (intros a b Ha Hb; apply Z.leb_le; lia).
    rewrite windowStart_val, windowEnd_val in W1, W2.
    unfold selectRange. subst lo hi. unfold k1, k2. rewrite E1, E2.
    match goal with |- context [if ?c then _ else _] => destruct c end;
      rewrite validateDateRange_keys, getHoursBetweenDates_keys, Hok
        by assumption; reflexivity. }
  split; [now rewrite Hfirst|]. split.
  - unfold second. rewrite Hfirst. cbn [fst].
    unfold onClickDay. fold (cellIsActive now c2). rewrite A2.
    cbn [rangeStart rangeEnd]. rewrite N1. cbn [nonEmpty negb].
    fold k2. exact Hsel.
  - unfold third, onClickDay. fold (cellIsActive now c3). rewrite A3.
    unfold second, onClickDay. fold (cellIsActive now c2). rewrite A2.
    rewrite Hfirst. cbn [fst rangeStart rangeEnd]. rewrite N1.
    cbn [nonEmpty negb]. fold k2. rewrite Hsel. cbn [fst rangeStart rangeEnd].
    rewrite Nlo, Nhi. reflexivity.
Qed.

End Selection.

(** ** The recent entries and the sort that render applies *)

Section Sorting.

Local Open Scope Q_scope.

Lemma insertSorted_perm x l : Permutation (insertSorted x l) (x :: l).
Proof.
  induction l as [|y r IH]; [reflexivity|]. cbn [insertSorted].
  destruct (newestFirst x y <=? 0)%Z; [reflexivity|].
  rewrite IH. apply perm_swap.
Qed.

Lemma sortEntries_perm l : Permutation (sortEntries l) l.
Proof.
  induction l as [|x r IH]; [reflexivity|]. cbn [sortEntries fold_right].
  fold (sortEntries r). rewrite insertSorted_perm. now constructor.
Qed.

Lemma newestFirst_keys a b x y :
  fourDigitYear a -> fourDigitYear b ->
  date x = isoOfDay a -> date y = isoOfDay b ->
  (newestFirst x y <= 0)%Z <-> notOlder x y.
Proof.
  intros Ha Hb Ex Ey. unfold newestFirst, notOlder.
  rewrite Ex, Ey, !parse_isoOfDay, leb_isoOfDay by assumption.
  rewrite Z.leb_le. unfold msPerDay. lia.
Qed.

Lemma notOlder_trans x y z :
  canonicalKey (date x) -> canonicalKey (date y) -> canonicalKey (date z) ->
  notOlder x y -> notOlder y z -> notOlder x z.
Proof.
  intros (a & Ha & Ea) (b & Hb & Eb) (c & Hc & Ec). unfold notOlder.
  rewrite Ea, Eb, Ec, !leb_isoOfDay, !Z.leb_le by assumption. lia.
Qed.

Lemma insertSorted_sorted x l :
  canonicalKey (date x) -> Forall (fun e => canonicalKey (date e)) l ->
  StronglySorted notOlder l -> StronglySorted notOlder (insertSorted x l).
Proof.
  intros Hx Hl Hs. induction l as [|y r IH]; cbn [insertSorted].
  - repeat constructor.
  - inversion Hl as [|? ? Hy Hr]; subst.
    inversion Hs as [|? ? Hsr Hall]; subst.
    pose proof Hx as (a & Ha & Ea). pose proof Hy as (b & Hb & Eb).
    destruct (Z.leb_spec (newestFirst x y) 0) as [Hle | Hgt].
    + apply (newestFirst_keys a b x y Ha Hb Ea Eb) in Hle.
      constructor; [exact Hs|]. constructor; [exact Hle|].
      rewrite Forall_forall in *. intros z Hz.
      apply (notOlder_trans x y z); eauto.
    + assert (Hyx : notOlder y x).
      { unfold notOlder. rewrite Ea, Eb, leb_isoOfDay by assumption.
        unfold newestFirst in Hgt.
        rewrite Ea, Eb, !parse_isoOfDay in Hgt by assumption.
        apply Z.leb_le. unfold msPerDay in Hgt. lia. }
      constructor; [apply IH; eauto|].
      rewrite Forall_forall in *. intros z Hz.
      apply (Permutation_in _ (insertSorted_perm x r)) in Hz.
      destruct Hz as [<- | Hz]; auto.
Qed.

Lemma sortEntries_sorted l :
  Forall (fun e => canonicalKey (date e)) l ->
  StronglySorted notOlder (sortEntries l).
Proof.
  induction 1 as [|x r Hx Hr IH]; [constructor|].
  cbn [sortEntries fold_right]. fold (sortEntries r).
  apply insertSorted_sorted; auto.
  rewrite Forall_forall in *. intros e He. apply Hr.
  now apply (Permutation_in _ (sortEntries_perm r)).
Qed.

Lemma StronglySorted_split (R : DayEntry -> DayEntry -> Prop) l1 l2 :
  StronglySorted R (l1 ++ l2) ->
  StronglySorted R l1 /\
  (forall x y, In x l1 -> In y l2 -> R x y).
Proof.
  induction l1 as [|a r IH]; cbn [app]; intros H.
  - split; [constructor | intros x y []].
  - inversion H as [|? ? Hs Hall]; subst. destruct (IH Hs) as [Hr Hxy].
    rewrite Forall_forall in Hall. split.
    + constructor; [exact Hr|]. rewrite Forall_forall. intros z Hz.
      apply Hall, in_or_app. now left.
    + intros x y [<- | Hx] Hy; [|auto]. apply Hall, in_or_app. now right.
Qed.

(** X14: the recent entries of a ledger of canonical dates are at most
    five of its records, the newest first, and no record left out is
    newer than one that is shown. *)
Theorem recentEntries_newest (entries : list DayEntry) :
  Forall (fun e => canonicalKey (date e)) entries ->
  List.length (recentEntries entries) = Nat.min 5 (List.length entries) /\
  (forall e, In e (recentEntries entries) -> In e entries) /\
  StronglySorted notOlder (recentEntries entries) /\
  (forall shown hidden,
      In shown (recentEntries entries) -> In hidden entries ->
      ~ In hidden (recentEntries entries) -> notOlder shown hidden).
Proof.
  intros Hk. unfold recentEntries.
  pose proof (sortEntries_perm entries) as Hp.
  pose proof (sortEntries_sorted entries Hk) as Hs.
  rewrite <- (firstn_skipn 5 (sortEntries entries)) in Hs.
  apply StronglySorted_split in Hs as [Hs Hxy].
  split; [rewrite length_firstn; now rewrite (Permutation_length Hp)|].
  split; [|split; [exact Hs|]].
  - intros e He. apply (Permutation_in _ Hp).
    rewrite <- (firstn_skipn 5 (sortEntries entries)). apply in_or_app.
    now left.
  - intros x y Hx Hy Hn. apply Hxy; [exact Hx|].
    apply (Permutation_in _ (Permutation_sym Hp)) in Hy.
    rewrite <- (firstn_skipn 5 (sortEntries entries)) in Hy.
    apply in_app_or in Hy as [Hy | Hy]; [contradiction | exact Hy].
Qed.

Lemma find_perm d l l' :
  NoDup (map date l) -> Permutation l l' ->
  find (hasDate d) l' = find (hasDate d) l.
Proof.
  intros Hn Hp.
  destruct (find (hasDate d) l) as [e|] eqn:El.
  - destruct (find_some_date d l e El) as [Hin Hd].
    destruct (find (hasDate d) l') as [e'|] eqn:El'.
    + destruct (find_some_date d l' e' El') as [Hin' Hd'].
      f_equal. apply (find_unique d l e e' Hn El); [|exact Hd'].
      now apply (Permutation_in _ (Permutation_sym Hp)).
    + apply (Permutation_in _ Hp) in Hin.
      apply (find_none _ _ El') in Hin.
      apply hasDate_false in Hin. contradiction.
  - destruct (find (hasDate d) l') as [e'|] eqn:El'; [|reflexivity].
    destruct (find_some_date d l' e' El') as [Hin' Hd'].
    apply (Permutation_in _ (Permutation_sym Hp)) in Hin'.
    apply (find_none _ _ El) in Hin'. apply hasDate_false in Hin'.
    contradiction.
Qed.

Lemma sumHours_from (l : list DayEntry) (acc : Q) :
  fold_left (fun sum entry => sum + hours entry) l acc
  == acc + fold_right (fun entry sum => hours entry + sum) 0 l.
Proof.
  revert acc. induction l as [|e r IH]; intros acc; cbn [fold_left fold_right].
  - ring.
  - rewrite IH. ring.
Qed.

Lemma sumHours_perm l l' : Permutation l l' -> sumHours l == sumHours l'.
Proof.
  intros Hp. unfold sumHours. rewrite !sumHours_from.
  apply Qplus_inj_l.
  induction Hp as [|x l1 l2 Hp IH | x y l1 | l1 l2 l3 H1 IH1 H2 IH2];
    cbn [fold_right].
  - reflexivity.
  - now rewrite IH.
  - ring.
  - now rewrite IH1.
Qed.

Lemma Invariants_perm now l l' :
  Permutation l l' -> Invariants now l -> Invariants now l'.
Proof.
  intros Hp [Hh Hu Hw Hpast]. split.
  - now apply (Permutation_Forall Hp).
  - apply (Permutation_NoDup (Permutation_map date Hp)), Hu.
  - now apply (Permutation_Forall Hp).
  - now apply (Permutation_Forall Hp).
Qed.

(** X15: the sort that render applies to the entries in place changes
    nothing that is read from them: with one record per date and hours
    that are multiples of one half from 0 to 24, every date reads the same
    hours, the total is the same, and the invariants keep holding. *)
Theorem sortEntries_harmless (now : Z) (entries : list DayEntry)
    (d : string) :
  NoDup (map date entries) ->
  Forall (fun e => validHours (hours e)) entries ->
  getHoursForDate (sortEntries entries) d = getHoursForDate entries d /\
  totalHours (sortEntries entries) == totalHours entries /\
  Forall (fun e => validHours (hours e)) (sortEntries entries) /\
  (Invariants now entries -> Invariants now (sortEntries entries)).
Proof.
  intros Hn Hv. pose proof (sortEntries_perm entries) as Hp.
  split; [|split; [|split]].
  - unfold getHoursForDate.
    now rewrite (find_perm d entries _ Hn (Permutation_sym Hp)).
  - unfold totalHours. now apply sumHours_perm.
  - now apply (Permutation_Forall (Permutation_sym Hp)).
  - apply Invariants_perm. now apply Permutation_sym.
Qed.

End Sorting.

(** ** The dates of the date picker *)

Section Picker.

Variable now : Z.
Variable zone : Zone.
Variable tz : Z.

(** The zone keeps one offset all year: no daylight saving. *)
Hypothesis fixed : fixedOffset zone tz.

Lemma setHours_fixed t h m s ms :
  setHours zone t h m s ms
  = Day (t + tz) * msPerDay + h * msPerHour + m * msPerMinute
    + s * msPerSecond + ms - tz.
Proof.
  unfold setHours, LocalTime, UTCOfLocal. cbv zeta.
  now rewrite (proj1 (fixed _)), (proj2 (fixed _)).
Qed.

(** With one offset, setting the local date to the next one moves the
    time by one day. *)
Lemma setDate_next t :
  setDate zone t (getDate (offsetAt zone t) t + 1) = t + msPerDay.
Proof.
  unfold setDate, getDate, LocalTime, UTCOfLocal. cbv zeta.
  rewrite (proj1 (fixed _)), (proj2 (fixed _)). set (D := Day (t + tz)).
  destruct (MakeDay_of_civil D) as [E _].
  rewrite (MakeDay_date _ _ (DateFromDay D + 1)).
  rewrite (MakeDay_date _ _ (DateFromDay D)) in E.
  replace (MakeDay (YearFromDay D) (MonthFromDay D) 1 + (DateFromDay D + 1) - 1)
    with (D + 1) by lia.
  unfold D, Day, TimeWithinDay, msPerDay. zdiv.
Qed.

Lemma pastDatesLoop_run fuel : forall c endT acc,
  (Z.to_nat (Day endT + 1 - c) <= fuel)%nat ->
  pastDatesLoop zone fuel (c * msPerDay) endT acc
  = (map (fun k => (Day endT - Z.of_nat k) * msPerDay)
       (seq 0 (Z.to_nat (Day endT + 1 - c))) ++ acc)%list.
Proof.
  induction fuel as [|fuel IH]; intros c endT acc Hf.
  - replace (Z.to_nat (Day endT + 1 - c)) with 0%nat by lia. reflexivity.
  - cbn [pastDatesLoop].
    destruct (Z.leb_spec (c * msPerDay) endT) as [Hle | Hgt].
    + assert (Hc : c <= Day endT) by (unfold Day, msPerDay in *; zdiv).
      rewrite setDate_next.
      replace (c * msPerDay + msPerDay) with ((c + 1) * msPerDay) by lia.
      rewrite IH by lia.
      replace (Z.to_nat (Day endT + 1 - c))
        with (S (Z.to_nat (Day endT + 1 - (c + 1)))) by lia.
      rewrite seq_S, map_app, <- app_assoc. cbn [map app Nat.add].
      do 3 f_equal. lia.
    + assert (Hc : Day endT < c) by (unfold Day, msPerDay in *; zdiv).
      replace (Z.to_nat (Day endT + 1 - c)) with 0%nat by lia. reflexivity.
Qed.

(** The last day the picker lists: the end of the window, or the day on
    which the local day ends if that comes first. *)
Lemma Day_endDateToUse today :
  Day (if 1767225599999 <? today then 1767225599999 else today)
  = Z.min windowEnd (Day today).
Proof.
  rewrite windowEnd_val.
  destruct (Z.ltb_spec 1767225599999 today); unfold Day, msPerDay in *; zdiv.
Qed.

Lemma getPastDatesWithin_run fuel :
  (366 <= fuel)%nat ->
  let last := Z.min windowEnd (Day (setHours zone now 23 59 59 999)) in
  getPastDatesWithin now zone fuel
  = map (fun k => (last - Z.of_nat k) * msPerDay)
      (seq 0 (Z.to_nat (last + 1 - windowStart))).
Proof.
  intros Hf last. unfold getPastDatesWithin.
  change (parse "2025-01-01T00:00:00.000Z") with (Some (20089 * msPerDay)).
  change (parse "2025-12-31T23:59:59.999Z") with (Some 1767225599999).
  cbv beta iota zeta.
  rewrite pastDatesLoop_run; rewrite Day_endDateToUse; fold last.
  - rewrite windowStart_val. apply app_nil_r.
  - unfold last. rewrite windowEnd_val. lia.
Qed.

(** X16: in a zone that keeps one offset all year, the picker lists the
    days of the window from its first day to the day on which today ends
    in local time, or to the last day of the window if that comes first,
    the latest day first, each as midnight UTC; the loop needs no more
    turns than the window has days. *)
Theorem getPastDates_days :
  let last := Z.min windowEnd (Day (setHours zone now 23 59 59 999)) in
  getPastDates now zone
  = map (fun k => (last - Z.of_nat k) * msPerDay)
      (seq 0 (Z.to_nat (last + 1 - windowStart))) /\
  (List.length (getPastDates now zone) <= 365)%nat /\
  (forall fuel, (366 <= fuel)%nat ->
     getPastDatesWithin now zone fuel = getPastDates now zone).
Proof.
  intros last. unfold getPastDates.
  pose proof (getPastDatesWithin_run 366 (le_n _)) as E. cbv zeta in E.
  fold last in E. split; [exact E|]. split.
  - rewrite E, length_map, length_seq. unfold last.
    rewrite windowStart_val, windowEnd_val. lia.
  - intros fuel Hf. rewrite E. apply (getPastDatesWithin_run fuel Hf).
Qed.

Lemma offered_keys key :
  In key (map formatDate (getPastDates now zone)) <->
  exists d, key = isoOfDay d /\ windowStart <= d <= windowEnd
            /\ d <= Day (setHours zone now 23 59 59 999).
Proof.
  unfold getPastDates.
  pose proof (getPastDatesWithin_run 366 (le_n _)) as E. cbv zeta in E.
  rewrite E, map_map, in_map_iff. clear E.
  set (last := Z.min windowEnd (Day (setHours zone now 23 59 59 999))).
  split.
  - intros (k & <- & Hk). apply in_seq in Hk.
    exists (last - Z.of_nat k). rewrite formatDate_key.
    split; [f_equal; unfold Day, msPerDay; zdiv|]. unfold last in *. lia.
  - intros (d & -> & Hw & Hd).
    exists (Z.to_nat (last - d)). rewrite formatDate_key. split.
    + f_equal. rewrite Z2Nat.id by (unfold last; lia).
      unfold Day, msPerDay. zdiv.
    + apply in_seq. unfold last. lia.
Qed.

(** X17: in a zone that keeps one offset all year, whatever the offset,
    every key that [handleSubmit] accepts is among the keys the picker
    offers; when the offset is zero the picker offers no other key. *)
Theorem picker_offers_accepted_keys (key : string) :
  (acceptedKey now key -> In key (map formatDate (getPastDates now zone))) /\
  (tz = 0 ->
   In key (map formatDate (getPastDates now zone)) -> acceptedKey now key).
Proof.
  split.
  - intros (d & -> & Hw & Hd). apply offered_keys. exists d.
    split; [reflexivity|]. split; [exact Hw|]. rewrite setHours_fixed.
    unfold Day, msPerDay, msPerHour, msPerMinute, msPerSecond in *.
    zdiv.
  - intros Hz Hin. apply offered_keys in Hin as (d & -> & Hw & Hd).
    exists d. split; [reflexivity|]. split; [exact Hw|].
    rewrite setHours_fixed in Hd. subst tz.
    unfold Day, msPerDay, msPerHour, msPerMinute, msPerSecond in *.
    zdiv.
Qed.

Lemma handleSubmit_refused entries key h :
  ~ acceptedKey now key ->
  nextEntries (handleSubmit now entries key h) = entries /\
  errorMsg (handleSubmit now entries key h) <> None.
Proof.
  intros Hk. unfold handleSubmit.
  destruct h as [q|]; [|split; [reflexivity | discriminate]].
  destruct (_ && _); [split; [reflexivity | discriminate]|].
  destruct (isValidDate now _) eqn:E; cbn [negb];
    [|split; [reflexivity | discriminate]].
  apply acceptedKey_valid in E. contradiction.
Qed.

(** X18: in a zone that keeps one offset all year, other than UTC, the
    picker can run ahead of the form.  When the local day ends on a later
    UTC day than the present one, the picker offers the key of tomorrow
    (UTC), and [handleSubmit] refuses that key whatever the hours: it
    keeps the entries and reports an error, which for hours that pass the
    hours check is the one of the date. *)
Theorem picker_ahead_of_clock (entries : list DayEntry) (h : option Q) :
  Day now < Day (setHours zone now 23 59 59 999) ->
  windowStart <= Day now + 1 <= windowEnd ->
  In (isoOfDay (Day now + 1)) (map formatDate (getPastDates now zone)) /\
  ~ acceptedKey now (isoOfDay (Day now + 1)) /\
  nextEntries (handleSubmit now entries (isoOfDay (Day now + 1)) h)
  = entries /\
  errorMsg (handleSubmit now entries (isoOfDay (Day now + 1)) h) <> None /\
  (forall q, (q == 0 \/ 1 # 4 <= q)%Q ->
     handleSubmit now entries (isoOfDay (Day now + 1)) (Some q)
     = fail entries DateOutOfWindow).
Proof.
  intros Hend Hw.
  assert (Hn : ~ acceptedKey now (isoOfDay (Day now + 1))).
  { rewrite acceptedKey_day by (now apply window_fourDigit). lia. }
  split; [|split; [exact Hn|]].
  - apply offered_keys. exists (Day now + 1).
    split; [reflexivity|]. split; [exact Hw | lia].
  - destruct (handleSubmit_refused entries _ h Hn) as [H1 H2].
    split; [exact H1|]. split; [exact H2|].
    intros q Hq. now apply handleSubmit_refuses_key.
Qed.

End Picker.

(** ** Month navigation *)

Section Navigation.

Variable tz : Z.

Lemma firstOfMonth_fields t y m :
  0 <= m < 12 -> t + tz = MakeDay y m 1 * msPerDay ->
  getFullYear tz t = y /\ getMonth tz t = m /\ getDate tz t = 1
  /\ TimeWithinDay (t + tz) = 0.
Proof.
  intros Hm E. unfold getFullYear, getMonth, getDate. rewrite E.
  rewrite Day_midnight.
  pose proof (DaysInMonth_length y m Hm) as Hl.
  pose proof (monthLength_bounds m _ Hm (InLeapYear_range y)) as Hb.
  destruct (civil_of_MakeDay y m 1 Hm) as (Ey & Em & Ed); [lia|].
  repeat split; try assumption.
  unfold TimeWithinDay, msPerDay. zdiv.
Qed.

Lemma MakeDay_normal y m dt :
  MakeDay y m dt = MakeDay (y + m / 12) (m mod 12) dt.
Proof.
  rewrite (MakeDay_in_month (y + m / 12) (m mod 12)) by zdiv. reflexivity.
Qed.

(** Moving [k] months from the first of month [m] of year [y]. *)
Lemma setMonth_first t y m k :
  0 <= m < 12 -> t + tz = MakeDay y m 1 * msPerDay ->
  setMonth tz t (m + k) + tz
  = MakeDay (y + (m + k) / 12) ((m + k) mod 12) 1 * msPerDay.
Proof.
  intros Hm E. destruct (firstOfMonth_fields t y m Hm E) as (Ey & _ & Ed & E0).
  unfold setMonth. cbv zeta. unfold getFullYear, getDate in Ey, Ed.
  rewrite Ey, Ed, E0, <- MakeDay_normal. lia.
Qed.

Lemma navigateMonth_first direction t y m :
  0 <= m < 12 -> t + tz = MakeDay y m 1 * msPerDay ->
  let k := match direction with prev => -1 | next => 1 end in
  navigateMonth tz direction t + tz
  = MakeDay (y + (m + k) / 12) ((m + k) mod 12) 1 * msPerDay.
Proof.
  intros Hm E k. destruct (firstOfMonth_fields t y m Hm E) as (_ & Em & _).
  unfold navigateMonth. rewrite Em.
  destruct direction; [apply (setMonth_first t y m (-1) Hm E)
                      | apply (setMonth_first t y m 1 Hm E)].
Qed.

Lemma navigateMonth_index direction t :
  firstOfMonth tz t ->
  firstOfMonth tz (navigateMonth tz direction t) /\
  monthIndex tz (navigateMonth tz direction t)
  = monthIndex tz t + match direction with prev => -1 | next => 1 end.
Proof.
  intros (y & m & Hm & E).
  pose proof (navigateMonth_first direction t y m Hm E) as E1.
  cbv zeta in E1.
  set (k := match direction with prev => -1 | next => 1 end) in *.
  assert (Hm1 : 0 <= (m + k) mod 12 < 12) by zdiv.
  split; [exists (y + (m + k) / 12), ((m + k) mod 12); auto|].
  destruct (firstOfMonth_fields t y m Hm E) as (Ey & Em & _).
  destruct (firstOfMonth_fields _ _ _ Hm1 E1) as (Ey1 & Em1 & _).
  unfold monthIndex. rewrite Ey, Em, Ey1, Em1. zdiv.
Qed.

Lemma firstOfMonth_index t1 t2 :
  firstOfMonth tz t1 -> firstOfMonth tz t2 ->
  monthIndex tz t1 = monthIndex tz t2 -> t1 = t2.
Proof.
  intros (y1 & m1 & Hm1 & E1) (y2 & m2 & Hm2 & E2) Hi.
  destruct (firstOfMonth_fields t1 y1 m1 Hm1 E1) as (Ey1 & Em1 & _).
  destruct (firstOfMonth_fields t2 y2 m2 Hm2 E2) as (Ey2 & Em2 & _).
  unfold monthIndex in Hi. rewrite Ey1, Em1, Ey2, Em2 in Hi.
  assert (y1 = y2 /\ m1 = m2) as [-> ->] by lia. lia.
Qed.

Lemma january2025_first : firstOfMonth tz (january2025 tz).
Proof.
  exists 2025, 0. split; [lia|]. unfold january2025.
  rewrite UTC_plain by lia. unfold msPerHour. lia.
Qed.

(** X19: the displayed month starts as the first of January 2025 at local
    midnight, and a navigation step keeps it the first of a month at
    local midnight, one month later or earlier, the year changing at
    December and January; a step back undoes a step forward and the
    other way round.  Nothing stops the steps at the ends of 2025. *)
Theorem navigateMonth_steps (direction : Direction) (t : Z) :
  firstOfMonth tz t ->
  firstOfMonth tz (navigateMonth tz direction t) /\
  monthIndex tz (navigateMonth tz direction t)
  = monthIndex tz t + match direction with prev => -1 | next => 1 end /\
  navigateMonth tz prev (navigateMonth tz next t) = t /\
  navigateMonth tz next (navigateMonth tz prev t) = t.
Proof.
  intros Hf.
  destruct (navigateMonth_index direction t Hf) as [H1 H2].
  split; [exact H1|]. split; [exact H2|].
  destruct (navigateMonth_index next t Hf) as [Hn1 Hn2].
  destruct (navigateMonth_index prev t Hf) as [Hp1 Hp2].
  destruct (navigateMonth_index prev _ Hn1) as [Hpn1 Hpn2].
  destruct (navigateMonth_index next _ Hp1) as [Hnp1 Hnp2].
  split; apply firstOfMonth_index; auto; lia.
Qed.

Lemma navigateMonth_iter (n : nat) t :
  firstOfMonth tz t ->
  firstOfMonth tz (Nat.iter n (navigateMonth tz next) t) /\
  monthIndex tz (Nat.iter n (navigateMonth tz next) t)
  = monthIndex tz t + Z.of_nat n.
Proof.
  intros Hf. induction n as [|n [IH1 IH2]].
  { change (Nat.iter 0 (navigateMonth tz next) t) with t.
    split; [exact Hf | lia]. }
  rewrite Nat.iter_succ. destruct (navigateMonth_index next _ IH1) as [H1 H2].
  split; [exact H1 | lia].
Qed.

Lemma getCurrentMonthHours_month t1 t2 entries :
  getMonth tz t1 = getMonth tz t2 ->
  getCurrentMonthHours tz t1 entries = getCurrentMonthHours tz t2 entries.
Proof. intros E. unfold getCurrentMonthHours. now rewrite E. Qed.

(** X20: twelve steps forward show the same month of the next year, and
    the month total shown with it is the same as before: the total goes
    by the month number alone. *)
Theorem navigateMonth_twelve (t : Z) (entries : list DayEntry) :
  firstOfMonth tz t ->
  getFullYear tz (Nat.iter 12 (navigateMonth tz next) t)
  = getFullYear tz t + 1 /\
  getMonth tz (Nat.iter 12 (navigateMonth tz next) t) = getMonth tz t /\
  getCurrentMonthHours tz (Nat.iter 12 (navigateMonth tz next) t) entries
  = getCurrentMonthHours tz t entries.
Proof.
  intros Hf. destruct (navigateMonth_iter 12 t Hf) as [_ Hi].
  generalize dependent (Nat.iter 12 (navigateMonth tz next) t).
  intros later Hi. unfold monthIndex in Hi.
  assert (Em : getMonth tz later = getMonth tz t).
  { pose proof (MonthFromDay_range (Day (t + tz))) as H1.
    pose proof (MonthFromDay_range (Day (later + tz))) as H2.
    unfold getMonth in *. lia. }
  split; [lia|]. split; [exact Em|].
  now apply getCurrentMonthHours_month.
Qed.

End Navigation.

(** ** The delete button of the form *)

Section DeleteButton.

Local Open Scope Q_scope.

Variable now : Z.

Lemma halfMultiple_whole (n : Z) : halfMultiple (inject_Z n).
Proof.
  exists (2 * n)%Z. rewrite inject_Z_mult. change (inject_Z 2) with 2. field.
Qed.

Lemma getHoursForDate_reduced entries d a e :
  find (hasDate d) entries = Some e ->
  getHoursForDate (map (reduceBy d a) entries) d == hours e - a.
Proof.
  intros Hf. unfold getHoursForDate, reduceBy.
  rewrite find_map_reduce, Hf. cbn [option_map hours]. apply orZero_eq.
Qed.

(** X9: the delete button of the form passes a whole number of hours,
    the one chosen with the hour buttons.  It does nothing when no hour
    is chosen or when the date reads zero hours, so a record of zero
    hours stays; otherwise it takes the chosen hours off, or removes the
    record when they cover it; and it keeps the invariants of the
    ledger. *)
Theorem onDeleteClick_cases (entries : list DayEntry) (d : string) (n : Z) :
  onDeleteClick entries d None = ok entries /\
  (getHoursForDate entries d <= 0 ->
   onDeleteClick entries d (Some (inject_Z n)) = ok entries) /\
  ((1 <= n)%Z -> inject_Z n < getHoursForDate entries d ->
   getHoursForDate
     (nextEntries (onDeleteClick entries d (Some (inject_Z n)))) d
   == getHoursForDate entries d - inject_Z n) /\
  (0 < getHoursForDate entries d ->
   getHoursForDate entries d <= inject_Z n ->
   onDeleteClick entries d (Some (inject_Z n)) = ok (without d entries)) /\
  ((1 <= n)%Z -> Invariants now entries ->
   Invariants now
     (nextEntries (onDeleteClick entries d (Some (inject_Z n))))).
Proof.
  assert (Hpos : (1 <= n)%Z -> 0 < inject_Z n).
  { intros H. rewrite Zle_Qle in H. change (inject_Z 1) with 1 in H. lra. }
  split; [reflexivity|]. split; [|split; [|split]].
  - intros H0. unfold onDeleteClick.
    destruct (Qlt_bool 0 (getHoursForDate entries d)) eqn:E; [|reflexivity].
    apply Qlt_bool_iff in E. lra.
  - intros Hn Hlt. unfold onDeleteClick.
    assert (E : Qlt_bool 0 (getHoursForDate entries d) = true)
      by (apply Qlt_bool_iff; specialize (Hpos Hn); lra).
    rewrite E.
    destruct (deleteEntry_partial entries d (inject_Z n) (Hpos Hn) Hlt)
      as (e & Hf & _ & ->).
    cbn [ok nextEntries]. rewrite (getHoursForDate_reduced entries d _ e Hf).
    now rewrite (getHoursForDate_some entries d e Hf).
  - intros H0 Hle. unfold onDeleteClick.
    apply Qlt_bool_iff in H0. rewrite H0.
    apply deleteEntry_full. right. eauto.
  - intros Hn Hinv. unfold onDeleteClick.
    destruct (Qlt_bool 0 (getHoursForDate entries d)) eqn:E; [|exact Hinv].
    destruct (Qlt_le_dec (inject_Z n) (getHoursForDate entries d))
      as [Hlt | Hle].
    + destruct (deleteEntry_partial entries d (inject_Z n) (Hpos Hn) Hlt)
        as (e & Hf & He & ->).
      cbn [ok nextEntries].
      apply (Invariants_reduceBy now entries d (inject_Z n) e Hinv Hf);
        [specialize (Hpos Hn); lra | apply halfMultiple_whole | exact He].
    + rewrite deleteEntry_full by (right; eauto).
      now apply Invariants_without.
Qed.

End DeleteButton.

(** ** The keys of the calendar cells *)

Section GridKeys.

Variable tz : Z.

(** X21: within twelve hours of UTC and outside the years 0 to 99, the
    keys under which the forty-two cells read their hours are those of
    forty-two consecutive days, the first a Sunday, and a cell is
    flagged as of the displayed month exactly when its day lies in that
    month. *)
Theorem getDaysInMonth_keys (t : Z) :
  - (12 * msPerHour) <= tz < 12 * msPerHour ->
  ~ 0 <= getFullYear tz t <= 99 ->
  let y := getFullYear tz t in
  let m := getMonth tz t in
  let first := MakeDay y m 1 - WeekDay (MakeDay y m 1) in
  WeekDay first = 0 /\
  map (fun c => formatDate (cellDate c)) (getDaysInMonth tz t)
  = map (fun k => isoOfDay (first + Z.of_nat k)) (seq 0 42) /\
  Forall (fun c => isCurrentMonth c = true <->
                   YearFromDay (Day (cellDate c)) = y /\
                   MonthFromDay (Day (cellDate c)) = m)
    (getDaysInMonth tz t).
Proof.
  intros Hz Hy y m first.
  pose proof (getDaysInMonth_grid tz t Hz Hy) as E. cbv zeta in E.
  fold y m in E. rewrite E. clear E.
  set (F := MakeDay y m 1) in *. set (w := WeekDay F) in *.
  set (N := DaysInMonth y m).
  assert (Hm : 0 <= m < 12) by apply MonthFromDay_range.
  assert (Hd : forall k, Day (cellDate (gridCell F w N k))
                         = first + Z.of_nat k).
  { intros k. unfold gridCell, first. cbn [cellDate].
    unfold Day, msPerDay, msPerHour. zdiv. }
  split; [unfold first, w, WeekDay; zdiv|]. split.
  - rewrite map_map. apply map_ext. intros k.
    now rewrite formatDate_key, Hd.
  - apply Forall_forall. intros c Hc.
    apply in_map_iff in Hc as (k & <- & _). rewrite Hd.
    unfold gridCell at 1. cbn [isCurrentMonth]. unfold first. fold w.
    rewrite andb_true_iff, Z.leb_le, Z.ltb_lt. split.
    + intros Hk.
      replace (F - w + Z.of_nat k)
        with (MakeDay y m (Z.of_nat k - w + 1))
        by (rewrite (MakeDay_date y m (_ + 1)); fold F; lia).
      destruct (civil_of_MakeDay y m (Z.of_nat k - w + 1) Hm)
        as (Ey & Em & _); [fold N; lia | auto].
    + intros [Ey Em].
      destruct (MakeDay_of_civil (F - w + Z.of_nat k)) as [Ed Hr].
      rewrite Ey, Em in Ed, Hr. rewrite (MakeDay_date y m) in Ed.
      fold F in Ed. fold N in Hr. lia.
Qed.

End GridKeys.

Section KeyRoundTrip.

(** X23: a key and its date go back and forth.  Reading a canonical key
    as a date and formatting it gives the key back; and the key that
    [formatDate] gives for a date of a four-digit year is read back as
    midnight UTC of the same day. *)
Theorem formatDate_round_trip (s : string) (t : Z) :
  (canonicalKey s -> option_map formatDate (parse s) = Some s) /\
  (fourDigitYear (Day t) ->
   parse (formatDate t) = Some (Day t * msPerDay) /\
   option_map formatDate (parse (formatDate t)) = Some (formatDate t)).
Proof.
  assert (H : forall d, fourDigitYear d ->
            option_map formatDate (parse (isoOfDay d)) = Some (isoOfDay d)).
  { intros d Hd. rewrite parse_isoOfDay by exact Hd. cbn [option_map].
    now rewrite formatDate_key, Day_midnight. }
  split.
  - intros (d & Hd & ->). now apply H.
  - intros Hd. rewrite formatDate_key. split; [|now apply H].
    now apply parse_isoOfDay.
Qed.

End KeyRoundTrip.

(** ** The total and the mutations *)

Section Totals.

Local Open Scope Q_scope.

Variable now : Z.

Lemma sumHours_cons e r : sumHours (e :: r) == hours e + sumHours r.
Proof.
  unfold sumHours. cbn [fold_left]. rewrite !sumHours_from. ring.
Qed.

Lemma getHoursForDate_cons e r d :
  getHoursForDate (e :: r) d
  == if hasDate d e then hours e else getHoursForDate r d.
Proof.
  unfold getHoursForDate. cbn [find].
  destruct (hasDate d e); [apply orZero_eq | reflexivity].
Qed.

Lemma sumHours_upsert d v l :
  sumHours (upsert d v l) == sumHours l - getHoursForDate l d + v.
Proof.
  rewrite upsert_rec. induction l as [|e r IH]; cbn [upsertRec].
  - unfold sumHours, getHoursForDate. cbn. ring.
  - rewrite (getHoursForDate_cons e r d).
    destruct (hasDate d e); rewrite !sumHours_cons; cbn [hours].
    + ring.
    + rewrite IH. ring.
Qed.

Lemma find_absent d l : ~ In d (map date l) -> find (hasDate d) l = None.
Proof.
  intros Hn. destruct (find (hasDate d) l) as [e|] eqn:E; [|reflexivity].
  apply find_some_date in E as [Hin <-]. exfalso. apply Hn.
  now apply in_map.
Qed.

Lemma sumHours_without d l :
  NoDup (map date l) ->
  sumHours (without d l) == sumHours l - getHoursForDate l d.
Proof.
  induction l as [|e r IH]; intros Hn.
  - unfold sumHours, getHoursForDate. cbn. ring.
  - cbn [map] in Hn. inversion Hn as [|? ? Hnot Hr]; subst.
    rewrite (getHoursForDate_cons e r d). unfold without. cbn [filter].
    destruct (hasDate d e) eqn:E; cbn [negb].
    + apply hasDate_true in E. rewrite E in Hnot.
      rewrite (find_none_filter d r (find_absent d r Hnot)).
      rewrite sumHours_cons. ring.
    + fold (without d r). rewrite !sumHours_cons, (IH Hr). ring.
Qed.

Lemma sumHours_reduceBy d a l e :
  NoDup (map date l) -> find (hasDate d) l = Some e ->
  sumHours (map (reduceBy d a) l) == sumHours l - a.
Proof.
  induction l as [|x r IH]; intros Hn Hf; [discriminate|].
  cbn [map] in Hn. inversion Hn as [|? ? Hnot Hr]; subst.
  cbn [find] in Hf. cbn [map]. unfold reduceBy at 1.
  destruct (hasDate d x) eqn:E.
  - apply hasDate_true in E. rewrite E in Hnot.
    assert (Er : map (reduceBy d a) r = r).
    { rewrite <- (map_id r) at 2. apply map_ext_in. intros y Hy.
      unfold reduceBy. destruct (hasDate d y) eqn:Ey; [|reflexivity].
      apply hasDate_true in Ey. exfalso. apply Hnot. rewrite <- Ey.
      now apply in_map. }
    rewrite Er, !sumHours_cons. cbn [hours]. ring.
  - rewrite !sumHours_cons, (IH Hr Hf). ring.
Qed.

Lemma total_addTo entries d amount :
  sumHours (nextEntries (addTo entries d amount)) - sumHours entries
  == getHoursForDate (nextEntries (addTo entries d amount)) d
     - getHoursForDate entries d.
Proof.
  destruct (addTo_next entries d amount) as [-> | ->]; [ring|].
  rewrite sumHours_upsert, getHoursForDate_upsert. ring.
Qed.

(** X5: the total moves with the one date a mutation writes to.  With
    one record per date and hours that are multiples of one half from 0 to
    24, for a mutation given canonical keys and, where it adds or takes
    off an amount, a multiple of one half of 24 at most, the total changes
    by exactly the change of the hours read for the mutation's date,
    whatever the outcome. *)
Theorem total_follows_target (m : Mutation) (entries : list DayEntry) :
  NoDup (map date entries) ->
  Forall (fun e => validHours (hours e)) entries ->
  canonicalKeys m -> halfAmounts m ->
  totalHours (nextEntries (perform now m entries)) - totalHours entries
  == match targetKey now m with
     | Some key =>
         getHoursForDate (nextEntries (perform now m entries)) key
         - getHoursForDate entries key
     | None => 0
     end.
Proof.
  intros Hn _ _ _. unfold totalHours.
  destruct m as [s h | a | d h | d a]; cbn [perform targetKey].
  - unfold handleSubmit. destruct h as [h|]; [|cbn [fail nextEntries]; ring].
    destruct (_ && _); [cbn [fail nextEntries]; ring|].
    destruct (negb _); [cbn [fail nextEntries]; ring|].
    cbn [ok nextEntries].
    rewrite sumHours_upsert, getHoursForDate_upsert. ring.
  - unfold quickAdd. destruct (date_lt _ _); [cbn [fail nextEntries]; ring|].
    apply total_addTo.
  - unfold quickAddForDate, Date_setUTCHours.
    destruct (parse d) as [t|]; cbn [option_map];
      [|cbn [fail nextEntries]; ring].
    rewrite setUTCHours_noon_key, <- formatDate_key.
    destruct (negb _); [cbn [fail nextEntries]; ring|].
    apply total_addTo.
  - unfold deleteEntry.
    destruct (find (hasDate d) entries) as [e|] eqn:Ef;
      [|cbn [ok nextEntries]; ring].
    pose proof (getHoursForDate_some entries d e Ef) as Hr.
    assert (Hfull : sumHours (without d entries) - sumHours entries
                    == getHoursForDate (without d entries) d
                       - getHoursForDate entries d).
    { assert (E0 : getHoursForDate (without d entries) d == 0)
        by (unfold getHoursForDate, without; now rewrite find_filter_out).
      rewrite (sumHours_without d entries Hn), E0. ring. }
    destruct a as [a|]; [|exact Hfull].
    destruct (_ && _); cbn [ok nextEntries]; [|exact Hfull].
    fold (reduceBy d a).
    change (fun entry => if hasDate d entry
                         then mkEntry (date entry) (hours entry - a)
                         else entry) with (reduceBy d a).
    rewrite (sumHours_reduceBy d a entries e Hn Ef).
    rewrite (getHoursForDate_reduced entries d a e Ef), Hr. ring.
Qed.

End Totals.

(** ** The snapshot: written by the effect, read at start-up *)

Section Snapshot.

Local Open Scope Q_scope.

(** One character of a quoted string is read back in one turn. *)
Lemma parseChars_quoteChar c fuel rest acc :
  JSON.parseChars (S fuel) (JSON.quoteChar c ++ rest)%list acc
  = JSON.parseChars fuel rest (c :: acc).
Proof. destruct c as [[] [] [] [] [] [] [] []]; reflexivity. Qed.

Lemma parseChars_quoted cs : forall fuel rest acc,
  (List.length cs < fuel)%nat ->
  JSON.parseChars fuel (flat_map JSON.quoteChar cs ++ JSON.quote :: rest)%list
    acc
  = Some (string_of_list_ascii (rev acc ++ cs), rest).
Proof.
  induction cs as [|c cs IH]; intros fuel rest acc Hf;
    (destruct fuel as [|fuel]; [cbn [List.length] in Hf; lia|]).
  - rewrite app_nil_r. reflexivity.
  - cbn [flat_map]. rewrite <- app_assoc, parseChars_quoteChar.
    rewrite IH by (cbn [List.length] in Hf; lia).
    cbn [rev]. now rewrite <- app_assoc.
Qed.

Lemma length_quoted cs :
  (List.length cs <= List.length (flat_map JSON.quoteChar cs))%nat.
Proof.
  induction cs as [|c cs IH]; [apply le_n|].
  cbn [flat_map List.length]. rewrite length_app.
  assert (1 <= List.length (JSON.quoteChar c))%nat; [|lia].
  destruct c as [[] [] [] [] [] [] [] []]; vm_compute; lia.
Qed.

Lemma parseString_quoted s rest :
  JSON.parseString
    (flat_map JSON.quoteChar (list_ascii_of_string s) ++ JSON.quote :: rest)
  = Some (s, rest).
Proof.
  unfold JSON.parseString. rewrite parseChars_quoted.
  - cbn [rev app]. now rewrite string_of_list_ascii_of_string.
  - rewrite length_app. pose proof (length_quoted (list_ascii_of_string s)).
    lia.
Qed.

(** A string value is read back as it was. *)
Lemma parseValue_string f s rest :
  JSON.parseValue (S f) (JSON.quoteString s ++ rest)
  = Some (JSON.JString s, rest).
Proof.
  unfold JSON.quoteString. cbn [app]. rewrite <- app_assoc. cbn [app].
  change (JSON.parseValue (S f) (JSON.quote :: ?r))
    with (match JSON.parseString r with
          | Some (str, t) => Some (JSON.JString str, t)
          | None => None
          end).
  now rewrite parseString_quoted.
Qed.

(** The forty-nine numbers a valid record can hold, one by one. *)
Ltac each_half k :=
  let n := fresh "n" in
  let E := fresh "E" in
  assert (E : exists n, k = Z.of_nat n /\ (n <= 48)%nat)
    by (exists (Z.to_nat k); lia);
  destruct E as (n & -> & E);
  do 49 (destruct n as [|n]; [vm_compute; try reflexivity|]);
  exfalso; lia.

Lemma parseValue_half (k : Z) f rest :
  (0 <= k <= 48)%Z ->
  JSON.parseValue (S f) (showHalf k ++ "}"%char :: rest)
  = Some (JSON.JNumber (parsedHalf k), "}"%char :: rest).
Proof. intros Hk. each_half k. Qed.

Lemma parsedHalf_value (k : Z) :
  (0 <= k <= 48)%Z -> parsedHalf k == inject_Z k / 2.
Proof. intros Hk. each_half k. Qed.

Lemma showNumber_half (q : Q) (k : Z) :
  (0 <= k <= 48)%Z -> q == inject_Z k / 2 ->
  JSON.showNumber q = Some (showHalf k).
Proof.
  intros Hk Hq. unfold JSON.showNumber. cbv zeta.
  assert (E : (2 * Qnum q = k * Zpos (Qden q))%Z).
  { unfold Qeq, Qdiv, Qmult, Qinv in Hq. cbn in Hq. lia. }
  rewrite E, Z.mod_mul, Z.div_mul by lia.
  destruct (Z.leb_spec 0 (k * Zpos (Qden q))); [|lia].
  destruct (Z.ltb_spec k (2 * 10 ^ 15)); [|lia].
  reflexivity.
Qed.

Lemma halfSteps_valid (q : Q) (k : Z) :
  (0 <= k <= 48)%Z -> q == inject_Z k / 2 -> halfSteps q = k.
Proof.
  intros Hk Hq. unfold halfSteps. rewrite (halfSteps_of_half k q Hq). lia.
Qed.

(** One member of an object, from its opening quote to the comma or the
    brace after its value. *)
Lemma parseMembers_member P fuel key r acc :
  JSON.parseMembers P (S fuel) (JSON.quoteString key ++ ":"%char :: r) acc
  = match P r with
    | Some (v, r3) =>
        match JSON.skipWhitespace r3 with
        | c :: r4 =>
            if Ascii.eqb c ","
            then JSON.parseMembers P fuel r4 ((key, v) :: acc)
            else if Ascii.eqb c "}"
            then Some (rev ((key, v) :: acc), r4)
            else None
        | [] => None
        end
    | None => None
    end.
Proof.
  unfold JSON.quoteString. cbn [app]. rewrite <- app_assoc. cbn [app].
  change (JSON.parseMembers P (S fuel) (JSON.quote :: ?s) acc)
    with (match JSON.parseString s with
          | Some (k, r1) =>
              match JSON.skipWhitespace r1 with
              | colon :: r2 =>
                  if Ascii.eqb colon ":"
                  then
                    match P r2 with
                    | Some (v, r3) =>
                        match JSON.skipWhitespace r3 with
                        | c :: r4 =>
                            if Ascii.eqb c ","
                            then JSON.parseMembers P fuel r4 ((k, v) :: acc)
                            else if Ascii.eqb c "}"
                            then Some (rev ((k, v) :: acc), r4)
                            else None
                        | [] => None
                        end
                    | None => None
                    end
                  else None
              | [] => None
              end
          | None => None
          end).
  rewrite parseString_quoted. reflexivity.
Qed.

(** The text of an entry of valid hours, and what it is read as. *)
Lemma stringifyEntry_valid (e : DayEntry) :
  validHours (hours e) ->
  exists t, stringifyEntry e = Some t /\
    forall f rest,
      JSON.parseValue (S (S f)) (t ++ rest) = Some (asValue (restored e), rest).
Proof.
  intros Hv. destruct (validHours_steps _ Hv) as (k & Hk & Hq).
  unfold stringifyEntry. rewrite (showNumber_half _ k Hk Hq).
  eexists. split; [reflexivity|]. intros f rest.
  unfold restored, asValue. cbn [date hours].
  rewrite (halfSteps_valid _ k Hk Hq).
  cbn [app]. repeat rewrite <- app_assoc. cbn [app].
  repeat rewrite <- app_assoc. cbn [app].
  set (body := (JSON.quoteString "date" ++ _)%list).
  change (JSON.parseValue (S (S f)) ("{"%char :: body))
    with (match JSON.parseMembers (JSON.parseValue (S f))
                  (S (List.length body)) body [] with
          | Some (members, t) => Some (JSON.JObject members, t)
          | None => None
          end).
  assert (Hfuel : exists n, List.length body = S n)
    by (unfold body, JSON.quoteString; cbn [app List.length]; eauto).
  destruct Hfuel as [n ->]. unfold body.
  rewrite parseMembers_member, parseValue_string.
  cbn [JSON.skipWhitespace JSON.isWhitespace Ascii.eqb Bool.eqb orb andb].
  rewrite <- app_assoc. cbn [app]. rewrite <- app_assoc. cbn [app].
  rewrite parseMembers_member, parseValue_half by exact Hk.
  reflexivity.
Qed.

Lemma stringifyEntry_brace e t :
  stringifyEntry e = Some t -> exists t', t = "{"%char :: t'.
Proof.
  unfold stringifyEntry. destruct (JSON.showNumber (hours e)); [|discriminate].
  intros [= <-]. eauto.
Qed.

Lemma parseItems_step P fuel s acc :
  JSON.parseItems P (S fuel) s acc
  = match P s with
    | Some (v, r) =>
        match JSON.skipWhitespace r with
        | c :: r' =>
            if Ascii.eqb c "," then JSON.parseItems P fuel r' (v :: acc)
            else if Ascii.eqb c "]" then Some (rev (v :: acc), r')
            else None
        | [] => None
        end
    | None => None
    end.
Proof. reflexivity. Qed.

(** The items of a non-empty array of valid entries: their text, and what
    it is read as. *)
Lemma stringifyItems_valid (es : list DayEntry) : forall e0,
  Forall (fun e => validHours (hours e)) (e0 :: es) ->
  exists t, stringifyItems (e0 :: es) = Some ("{"%char :: t) /\
    (List.length es <= List.length t)%nat /\
    forall f fuel acc rest, (List.length es < fuel)%nat ->
      JSON.parseItems (JSON.parseValue (S (S f))) fuel
        (("{"%char :: t) ++ "]"%char :: rest) acc
      = Some ((rev acc ++ map (fun e => asValue (restored e)) (e0 :: es))%list,
              rest).
Proof.
  induction es as [|e1 es IH]; intros e0 Hv;
    inversion Hv as [|? ? Hv0 Hvs]; subst;
    destruct (stringifyEntry_valid e0 Hv0) as (t0 & E0 & P0);
    destruct (stringifyEntry_brace e0 t0 E0) as (t0' & ->).
  - exists t0'. cbn [stringifyItems]. split; [exact E0|].
    split; [cbn [List.length]; lia|]. intros f fuel acc rest Hf.
    destruct fuel as [|fuel]; [lia|].
    rewrite parseItems_step, P0. reflexivity.
  - destruct (IH e1 Hvs) as (t1 & E1 & L1 & P1).
    exists (t0' ++ ","%char :: "{"%char :: t1)%list.
    change (stringifyItems (e0 :: e1 :: es))
      with (match stringifyEntry e0, stringifyItems (e1 :: es) with
            | Some a, Some b => Some (a ++ ","%char :: b)%list
            | _, _ => None
            end).
    rewrite E0, E1. split; [reflexivity|].
    split; [rewrite length_app; cbn [List.length] in *; lia|].
    intros f fuel acc rest Hf. destruct fuel as [|fuel]; [lia|].
    rewrite parseItems_step.
    replace (("{"%char :: t0' ++ ","%char :: "{"%char :: t1)
             ++ "]"%char :: rest)%list
      with (("{"%char :: t0')
            ++ ","%char :: ("{"%char :: t1) ++ "]"%char :: rest)%list
      by (cbn [app]; now rewrite <- app_assoc).
    rewrite P0.
    cbn [JSON.skipWhitespace JSON.isWhitespace Ascii.eqb Bool.eqb orb andb].
    rewrite P1 by (cbn [List.length] in Hf; lia).
    cbn [rev map]. now rewrite <- app_assoc.
Qed.

Lemma asEntries_values (l : list DayEntry) :
  asEntries (map asValue l) = Some l.
Proof.
  induction l as [|e r IH]; [reflexivity|].
  cbn [map asEntries]. rewrite IH. destruct e as [d h]. reflexivity.
Qed.

Lemma sameLedger_restored (entries : list DayEntry) :
  Forall (fun e => validHours (hours e)) entries ->
  sameLedger (map restored entries) entries.
Proof.
  induction 1 as [|e r Hv Hr IH]; [constructor|].
  cbn [map]. constructor; [|exact IH]. split; [reflexivity|].
  destruct (validHours_steps _ Hv) as (k & Hk & Hq).
  unfold restored. cbn [hours]. rewrite (halfSteps_valid _ k Hk Hq), Hq.
  now apply parsedHalf_value.
Qed.

(** X22: the snapshot round-trips.  For entries whose hours are
    multiples of one half between 0 and 24, whatever their date strings,
    the text the effect stores is read back at start-up without an
    exception, as entries with the same dates in the same order and the
    same hours. *)
Theorem snapshot_round_trip (entries : list DayEntry) :
  Forall (fun e => validHours (hours e)) entries ->
  exists text v l,
    stringifyEntries entries = Some text /\
    initialEntries (Some text) = Returns v /\
    asLedger v = Some l /\
    sameLedger l entries.
Proof.
  intros Hv. destruct entries as [|e0 es].
  - exists "[]"%string, (JSON.JArray []), [].
    repeat split; try reflexivity. constructor.
  - destruct (stringifyItems_valid es e0 Hv) as (t & Et & Lt & Pt).
    exists (string_of_list_ascii ("["%char :: ("{"%char :: t) ++ ["]"%char])),
      (JSON.JArray (map (fun e => asValue (restored e)) (e0 :: es))),
      (map restored (e0 :: es)).
    split; [unfold stringifyEntries; now rewrite Et|].
    split; [|split].
    + unfold initialEntries, JSON.parse.
      rewrite list_ascii_of_string_of_list_ascii.
      cbn [string_of_list_ascii nonEmpty app List.length].
      set (r := (t ++ ["]"%char])%list).
      change (JSON.parseValue (S (S (S (List.length r))))
                ("["%char :: "{"%char :: r))
        with (match JSON.parseItems
                      (JSON.parseValue (S (S (List.length r))))
                      (S (List.length ("{"%char :: r))) ("{"%char :: r) []
              with
              | Some (items, t) => Some (JSON.JArray items, t)
              | None => None
              end).
      unfold r.
      change ("{"%char :: t ++ ["]"%char])%list
        with (("{"%char :: t) ++ "]"%char :: [])%list.
      rewrite Pt; [reflexivity|].
      cbn [app List.length]. rewrite length_app. cbn [List.length]. lia.
    + cbn [asLedger]. rewrite <- (map_map restored asValue).
      apply asEntries_values.
    + now apply sameLedger_restored.
Qed.

End Snapshot.

(** ** Instances *)

Section Instances.

Local Open Scope Q_scope.

Lemma fixedZone_fixed tz : fixedOffset (fixedZone tz) tz.
Proof. intros t. split; reflexivity. Qed.

Lemma canonical_new_year : canonicalKey "2025-01-01".
Proof. exists 20089%Z. split; [vm_compute; split; discriminate | reflexivity]. Qed.

Lemma mutation_frame_witness :
  find (hasDate "2025-01-02")
    (nextEntries
       (perform midJune2025 (SetHours "2025-01-01" (Some 3)) fiveOnNewYear))
  = find (hasDate "2025-01-02") fiveOnNewYear /\
  getHoursForDate
    (nextEntries
       (perform midJune2025 (SetHours "2025-01-01" (Some 3)) fiveOnNewYear))
    "2025-01-02"
  = getHoursForDate fiveOnNewYear "2025-01-02".
Proof.
  apply (mutation_frame midJune2025 (SetHours "2025-01-01" (Some 3))
           fiveOnNewYear "2025-01-02").
  - exact canonical_new_year.
  - cbn [targetKey]. discriminate.
Defined.

Lemma delete_after_submit_witness :
  deleteEntry
    (nextEntries
       (handleSubmit midJune2025 fiveOnNewYear "2025-01-02" (Some 3)))
    "2025-01-02" None
  = ok (without "2025-01-02" fiveOnNewYear).
Proof.
  destruct (delete_after_submit midJune2025 fiveOnNewYear "2025-01-02" 3)
    as [H _]; [| | exact H].
  - right. vm_compute. discriminate.
  - exists 20090%Z. split; [reflexivity|].
    split; [split|]; vm_compute; discriminate.
Defined.

Lemma total_follows_target_witness :
  totalHours
    (nextEntries (perform midJune2025 (Delete "2025-01-01" (Some 2))
                    fiveOnNewYear))
  - totalHours fiveOnNewYear
  == getHoursForDate
       (nextEntries (perform midJune2025 (Delete "2025-01-01" (Some 2))
                       fiveOnNewYear)) "2025-01-01"
     - getHoursForDate fiveOnNewYear "2025-01-01".
Proof.
  apply (total_follows_target midJune2025 (Delete "2025-01-01" (Some 2))
           fiveOnNewYear).
  - exact (inv_unique _ _ Invariants_fiveOnNewYear).
  - exact (inv_hours _ _ Invariants_fiveOnNewYear).
  - exact I.
  - split; [exists 4%Z; reflexivity | vm_compute; split; discriminate].
Defined.

Lemma quickAddForDate_today_witness :
  quickAddForDate midJune2025 fiveOnNewYear (toISODate midJune2025) 1
  = quickAdd midJune2025 fiveOnNewYear 1.
Proof.
  apply (quickAddForDate_today midJune2025 fiveOnNewYear 1).
  vm_compute. split; discriminate.
Defined.

Lemma quickAdd_then_undo_witness :
  getHoursForDate
    (nextEntries
       (quickAdd midJune2025
          (nextEntries (quickAdd midJune2025 fiveOnNewYear (inject_Z 1 / 2)))
          (inject_Z (- 1) / 2)))
    (toISODate midJune2025)
  == getHoursForDate fiveOnNewYear (toISODate midJune2025) /\
  (List.length fiveOnNewYear
   <= List.length
        (nextEntries
           (quickAdd midJune2025
              (nextEntries
                 (quickAdd midJune2025 fiveOnNewYear (inject_Z 1 / 2)))
              (inject_Z (- 1) / 2))))%nat.
Proof.
  destruct (quickAdd_then_undo midJune2025 fiveOnNewYear 0 1)
    as (_ & _ & Hread & _ & Hlen);
    [vm_compute; discriminate | lia | lia | lia | vm_compute; reflexivity |].
  split; [exact Hread | exact Hlen].
Defined.

Lemma whole_year_range_is_total_witness :
  getHoursBetweenDates fiveOnNewYear "2025-01-01" "2025-12-31"
  = (totalHours fiveOnNewYear, None) /\
  hoursInRange fiveOnNewYear "2025-12-31" "2025-01-01"
  = (totalHours fiveOnNewYear, None).
Proof.
  apply (whole_year_range_is_total fiveOnNewYear).
  exact (inv_window _ _ Invariants_fiveOnNewYear).
Defined.

Lemma active_cell_is_accepted_witness :
  cellIsActive midJune2025 firstCell = true /\
  handleQuickHourSelect midJune2025 fiveOnNewYear
    (formatDate (cellDate firstCell)) 1
  = Some (addTo fiveOnNewYear (formatDate (cellDate firstCell)) 1).
Proof.
  split; [reflexivity|].
  apply (active_cell_is_accepted midJune2025 fiveOnNewYear firstCell 1).
  reflexivity.
Defined.

Lemma two_clicks_select_a_range_witness :
  onClickDay midJune2025 fiveOnNewYear
    (fst (onClickDay midJune2025 fiveOnNewYear (mkRange None None) thirdCell))
    firstCell
  = (mkRange (Some "2025-01-01"%string) (Some "2025-01-03"%string),
     (5, None)).
Proof.
  destruct (two_clicks_select_a_range midJune2025 fiveOnNewYear
              thirdCell firstCell firstCell) as (_ & H & _);
    [reflexivity | reflexivity | reflexivity |].
  exact H.
Defined.

Lemma recentEntries_newest_witness :
  List.length (recentEntries fiveOnNewYear)
  = Nat.min 5 (List.length fiveOnNewYear) /\
  StronglySorted notOlder (recentEntries fiveOnNewYear).
Proof.
  destruct (recentEntries_newest fiveOnNewYear canonical_fiveOnNewYear)
    as (Hlen & _ & Hs & _).
  split; [exact Hlen | exact Hs].
Defined.

Lemma sortEntries_harmless_witness :
  getHoursForDate (sortEntries fiveOnNewYear) "2025-01-01"
  = getHoursForDate fiveOnNewYear "2025-01-01" /\
  totalHours (sortEntries fiveOnNewYear) == totalHours fiveOnNewYear.
Proof.
  destruct (sortEntries_harmless midJune2025 fiveOnNewYear "2025-01-01"
              (inv_unique _ _ Invariants_fiveOnNewYear)
              (inv_hours _ _ Invariants_fiveOnNewYear)) as (Hr & Ht & _).
  split; [exact Hr | exact Ht].
Defined.

Lemma getPastDates_days_witness :
  List.length (getPastDates midJune2025 (fixedZone 0)) = 166%nat /\
  (forall fuel, (366 <= fuel)%nat ->
     getPastDatesWithin midJune2025 (fixedZone 0) fuel
     = getPastDates midJune2025 (fixedZone 0)).
Proof.
  pose proof (getPastDates_days midJune2025 (fixedZone 0) 0
                (fixedZone_fixed 0)) as H.
  cbv zeta in H. destruct H as (Hl & _ & Hf).
  split; [rewrite Hl; reflexivity | exact Hf].
Defined.

Lemma picker_offers_accepted_keys_witness :
  (acceptedKey midJune2025 "2025-01-01" ->
   In "2025-01-01"%string
     (map formatDate (getPastDates midJune2025 (fixedZone 0)))) /\
  (0%Z = 0%Z ->
   In "2025-01-01"%string
     (map formatDate (getPastDates midJune2025 (fixedZone 0))) ->
   acceptedKey midJune2025 "2025-01-01").
Proof.
  apply (picker_offers_accepted_keys midJune2025 (fixedZone 0) 0
           (fixedZone_fixed 0) "2025-01-01").
Defined.

Lemma picker_ahead_of_clock_witness :
  In (isoOfDay (Day midJune2025 + 1))
    (map formatDate (getPastDates midJune2025 (fixedZone fiveWest))) /\
  nextEntries
    (handleSubmit midJune2025 fiveOnNewYear (isoOfDay (Day midJune2025 + 1))
       (Some 1))
  = fiveOnNewYear /\
  handleSubmit midJune2025 fiveOnNewYear (isoOfDay (Day midJune2025 + 1))
    (Some 1)
  = fail fiveOnNewYear DateOutOfWindow.
Proof.
  destruct (picker_ahead_of_clock midJune2025 (fixedZone fiveWest) fiveWest
              (fixedZone_fixed fiveWest) fiveOnNewYear (Some 1))
    as (Hin & _ & Hk & _ & Hs);
    [reflexivity | vm_compute; split; discriminate |].
  split; [exact Hin|]. split; [exact Hk|].
  apply Hs. right. vm_compute. discriminate.
Defined.

Lemma navigateMonth_steps_witness :
  firstOfMonth 0 (navigateMonth 0 prev (january2025 0)) /\
  monthIndex 0 (navigateMonth 0 prev (january2025 0))
  = (monthIndex 0 (january2025 0) + -1)%Z /\
  navigateMonth 0 prev (navigateMonth 0 next (january2025 0))
  = january2025 0 /\
  navigateMonth 0 next (navigateMonth 0 prev (january2025 0))
  = january2025 0.
Proof.
  apply (navigateMonth_steps 0 prev (january2025 0)).
  apply january2025_first.
Defined.

Lemma navigateMonth_twelve_witness :
  getFullYear 0 (Nat.iter 12 (navigateMonth 0 next) (january2025 0))
  = (getFullYear 0 (january2025 0) + 1)%Z /\
  getMonth 0 (Nat.iter 12 (navigateMonth 0 next) (january2025 0))
  = getMonth 0 (january2025 0) /\
  getCurrentMonthHours 0 (Nat.iter 12 (navigateMonth 0 next) (january2025 0))
    fiveOnNewYear
  = getCurrentMonthHours 0 (january2025 0) fiveOnNewYear.
Proof.
  apply (navigateMonth_twelve 0 (january2025 0) fiveOnNewYear).
  apply january2025_first.
Defined.

Lemma getDaysInMonth_keys_witness :
  map (fun c => formatDate (cellDate c)) (getDaysInMonth 0 (january2025 0))
  = map (fun k => isoOfDay (20086 + Z.of_nat k)) (seq 0 42).
Proof.
  pose proof (getDaysInMonth_keys 0 (january2025 0)) as H. cbv zeta in H.
  destruct H as (_ & Hkeys & _);
    [vm_compute; split; [discriminate | reflexivity]
    | vm_compute; intros [_ H]; apply H; reflexivity |].
  exact Hkeys.
Defined.

Lemma snapshot_round_trip_witness :
  exists text v l,
    stringifyEntries fiveOnNewYear = Some text /\
    initialEntries (Some text) = Returns v /\
    asLedger v = Some l /\
    sameLedger l fiveOnNewYear.
Proof.
  apply (snapshot_round_trip fiveOnNewYear).
  exact (inv_hours _ _ Invariants_fiveOnNewYear).
Defined.

End Instances.
